(** * Sensitive-data approval workflow: a shallow embedding of the Go code

    The development follows the layers of the repository:
    - [storepb]: the protobuf enumerations the Go code switches on;
    - [store]: backend/store/approval_flow.go and the notification store, as
      explicit state passing over a record of tables;
    - [plancheck]: the gate of backend/runner/plancheck/sensitive_data_checker.go;
    - [service]: the flow selector and the rule matcher of
      backend/service/sensitive_data_service.go;
    - [advisor]: the rule matcher of the sensitive-data advisor;
    - [engine]: the quantities the properties speak of, and [sample]: small
      stores to run the code on;
    - [gostrings], [flow_store], [rule_store], [notification_store]: the
      writers and getters of the tables of flows, rules and notifications;
    - [sql_extract], [issue_service]: extractTablesAndFields, ApproveIssue and
      RejectIssue of the service;
    - [notions], [sample_more]: further quantities and sample stores.
    The properties follow, one module of facts per layer. *)

From Stdlib Require Import ZArith List String Ascii Bool Lia DecimalString.
From Stdlib Require Import Sorted Permutation.
Import ListNotations.
Local Open Scope Z_scope.

(** ** Go values shared by all layers *)

(** A Go [(T, error)] result.  Errors are the message strings the code builds. *)
Inductive result (A : Type) : Type :=
| Ok (a : A)
| Err (e : string).
Arguments Ok {A} a.
Arguments Err {A} e.

Definition is_ok {A} (r : result A) : bool :=
  match r with Ok _ => true | Err _ => false end.

(** [errors.Wrap(err, msg)] of github.com/pkg/errors: "msg: err". *)
Definition Wrap (e msg : string) : string :=
  (msg ++ ": " ++ e)%string.

(** The message of [sql.ErrNoRows]. *)
Definition ErrNoRows : string := "sql: no rows in result set"%string.

(** Two's-complement wrap-around of Go's [int32] arithmetic. *)
Definition wrap32 (z : Z) : Z := (z + 2 ^ 31) mod 2 ^ 32 - 2 ^ 31.

(** [ORDER BY key] of SQL as a stable insertion sort. *)
Fixpoint insert_by {A} (key : A -> Z) (x : A) (l : list A) : list A :=
  match l with
  | [] => [x]
  | y :: l' => if key x <? key y then x :: l else y :: insert_by key x l'
  end.

Fixpoint order_by {A} (key : A -> Z) (l : list A) : list A :=
  match l with
  | [] => []
  | x :: l' => insert_by key x (order_by key l')
  end.

(** The head of an ordered list carries the least key. *)
Definition head_least {A} (key : A -> Z) (l : list A) : Prop :=
  match l with
  | [] => True
  | x :: _ => forall y, In y l -> key x <= key y
  end.

(** [List.filter] under a name that binders called [filter] do not hide. *)
Definition filter_ {A} (p : A -> bool) (l : list A) : list A := List.filter p l.

(** The id an auto-increment column hands to the next inserted row
    ([result.LastInsertId()]): one more than the largest id in the table. *)
Definition LastInsertId {A} (key : A -> Z) (table : list A) : Z :=
  fold_right Z.max 0 (map key table) + 1.

(** The ids of a table are positive [int32] values, as an auto-increment
    column hands them out and as the Go structs hold them. *)
Definition int32_ids {A} (key : A -> Z) (table : list A) : Prop :=
  Forall (fun x => 0 < key x < 2 ^ 31) table.

(** ** Protobuf enumerations *)

Module storepb.

(** Modelled from the spec: the generated package [storepb] is not part of the
    sources.  The constants are the ones the Go code names; their ordinal
    UNSPECIFIED < LOW < MEDIUM < HIGH is the one of the specification. *)
Inductive SensitiveDataLevel : Type :=
| SensitiveDataLevel_SENSITIVE_DATA_LEVEL_UNSPECIFIED
| SensitiveDataLevel_SENSITIVE_DATA_LEVEL_LOW
| SensitiveDataLevel_SENSITIVE_DATA_LEVEL_MEDIUM
| SensitiveDataLevel_SENSITIVE_DATA_LEVEL_HIGH.

(** The enum number, which Go's [>] on levels compares. *)
Definition SensitiveDataLevel_number (l : SensitiveDataLevel) : Z :=
  match l with
  | SensitiveDataLevel_SENSITIVE_DATA_LEVEL_UNSPECIFIED => 0
  | SensitiveDataLevel_SENSITIVE_DATA_LEVEL_LOW => 1
  | SensitiveDataLevel_SENSITIVE_DATA_LEVEL_MEDIUM => 2
  | SensitiveDataLevel_SENSITIVE_DATA_LEVEL_HIGH => 3
  end.

(** Go's [==] on levels. *)
Definition SensitiveDataLevel_eqb (a b : SensitiveDataLevel) : bool :=
  SensitiveDataLevel_number a =? SensitiveDataLevel_number b.

(** Modelled from the spec: the status of a flow execution.  UNSPECIFIED,
    PENDING, IN_PROGRESS, APPROVED and REJECTED are the constants the Go code
    names; CANCELLED is the further status of the data model of the
    specification. *)
Inductive ApprovalFlowExecutionStatus : Type :=
| ApprovalFlowExecutionStatus_APPROVAL_FLOW_EXECUTION_STATUS_UNSPECIFIED
| ApprovalFlowExecutionStatus_PENDING
| ApprovalFlowExecutionStatus_IN_PROGRESS
| ApprovalFlowExecutionStatus_APPROVED
| ApprovalFlowExecutionStatus_REJECTED
| ApprovalFlowExecutionStatus_CANCELLED.

(** Modelled from the spec: the status of a node execution.  PENDING,
    IN_PROGRESS, APPROVED and REJECTED are the constants the Go code names,
    UNSPECIFIED is the zero value of the Go variable that holds the status, and
    SKIPPED is the further status of the data model of the specification. *)
Inductive ApprovalNodeExecutionStatus : Type :=
| ApprovalNodeExecutionStatus_APPROVAL_NODE_EXECUTION_STATUS_UNSPECIFIED
| ApprovalNodeExecutionStatus_APPROVAL_NODE_EXECUTION_STATUS_PENDING
| ApprovalNodeExecutionStatus_APPROVAL_NODE_EXECUTION_STATUS_IN_PROGRESS
| ApprovalNodeExecutionStatus_APPROVAL_NODE_EXECUTION_STATUS_APPROVED
| ApprovalNodeExecutionStatus_APPROVAL_NODE_EXECUTION_STATUS_REJECTED
| ApprovalNodeExecutionStatus_APPROVAL_NODE_EXECUTION_STATUS_SKIPPED.

(** Modelled from the spec: the decision of an approval, with the constants the
    Go code names. *)
Inductive ApprovalStatus : Type :=
| ApprovalStatus_APPROVAL_STATUS_UNSPECIFIED
| ApprovalStatus_APPROVED
| ApprovalStatus_REJECTED.

(** Modelled from the spec: the approver types of the data model. *)
Inductive ApproverType : Type :=
| ApproverType_USER
| ApproverType_GROUP
| ApproverType_ROLE
| ApproverType_SELF.


End storepb.
Import storepb.

(** ** The store: backend/store/approval_flow.go *)

Module store.

(** The API messages.  A table row is the message with its children left
    empty, as [rows.Scan] leaves them before the follow-up query fills them in.
    The columns create_time and update_time of the approval tables are never
    written by the code (the database assigns them) and are read for ordering
    only: the fields CreateTime and UpdateTime are left out of these messages,
    tables keep their rows in insertion order, and [ORDER BY create_time DESC]
    is read as newest first.  Ids are those of an auto-increment int32 column,
    on which the conversions [int32(id)] of the code are the identity. *)

Module ApprovalNode.
Record t : Type := mk
  { ID : Z;
    FlowID : Z;
    Title : string;
    Description : string;
    ApproverType : storepb.ApproverType;
    ApproverIDs : list string;
    RequiredApprovals : Z;
    CreatorID : Z;
    UpdaterID : Z }.
End ApprovalNode.

Module ApprovalFlow.
Record t : Type := mk
  { ID : Z;
    Title : string;
    Description : string;
    SensitivityLevel : SensitiveDataLevel;
    Nodes : list ApprovalNode.t;
    Enabled : bool;
    CreatorID : Z;
    UpdaterID : Z }.
End ApprovalFlow.

Module Approval.
Record t : Type := mk
  { ID : Z;
    NodeExecutionID : Z;
    UserID : Z;
    Status : ApprovalStatus;
    Comment : string }.
End Approval.

Module ApprovalNodeExecution.
Record t : Type := mk
  { ID : Z;
    ExecutionID : Z;
    NodeID : Z;
    Status : ApprovalNodeExecutionStatus;
    Approvals : list Approval.t;
    CreatorID : Z;
    UpdaterID : Z }.

Definition with_Status (st : ApprovalNodeExecutionStatus) (n : t) : t :=
  mk (ID n) (ExecutionID n) (NodeID n) st (Approvals n) (CreatorID n) (UpdaterID n).

Definition with_Approvals (l : list Approval.t) (n : t) : t :=
  mk (ID n) (ExecutionID n) (NodeID n) (Status n) l (CreatorID n) (UpdaterID n).
End ApprovalNodeExecution.

Module ApprovalFlowExecution.
Record t : Type := mk
  { ID : Z;
    FlowID : Z;
    IssueID : Z;
    SensitivityLevel : SensitiveDataLevel;
    Status : ApprovalFlowExecutionStatus;
    NodeExecutions : list ApprovalNodeExecution.t;
    CreatorID : Z;
    UpdaterID : Z }.

Definition with_Status (st : ApprovalFlowExecutionStatus) (e : t) : t :=
  mk (ID e) (FlowID e) (IssueID e) (SensitivityLevel e) st (NodeExecutions e)
     (CreatorID e) (UpdaterID e).

Definition with_Status_Updater (st : ApprovalFlowExecutionStatus) (u : Z) (e : t) : t :=
  mk (ID e) (FlowID e) (IssueID e) (SensitivityLevel e) st (NodeExecutions e)
     (CreatorID e) u.

Definition with_NodeExecutions (l : list ApprovalNodeExecution.t) (e : t) : t :=
  mk (ID e) (FlowID e) (IssueID e) (SensitivityLevel e) (Status e) l
     (CreatorID e) (UpdaterID e).
End ApprovalFlowExecution.

(** notification.go: [NotificationType] is a Go string type.  The struct
    declares [Read] as [bool], yet UpdateNotification tests [update.Read]
    against nil and dereferences it; the message is therefore indexed by the
    type of [Read]: [bool] in a stored row, [option bool] in an update
    request. *)
Module Notification.
Record t (R : Type) : Type := mk
  { ID : Z;
    Type_ : string;
    Title : string;
    Content : string;
    RecipientID : Z;
    ApprovalFlowExecutionID : Z;
    ApprovalNodeExecutionID : Z;
    ApprovalID : Z;
    Read : R;
    CreatorID : Z;
    UpdaterID : Z;
    CreateTime : Z;
    UpdateTime : Z }.
Arguments mk {R}.
Arguments ID {R}.
Arguments Type_ {R}.
Arguments Title {R}.
Arguments Content {R}.
Arguments RecipientID {R}.
Arguments ApprovalFlowExecutionID {R}.
Arguments ApprovalNodeExecutionID {R}.
Arguments ApprovalID {R}.
Arguments Read {R}.
Arguments CreatorID {R}.
Arguments UpdaterID {R}.
Arguments CreateTime {R}.
Arguments UpdateTime {R}.

Definition with_Read (r : bool) (n : t bool) : t bool :=
  mk (ID n) (Type_ n) (Title n) (Content n) (RecipientID n)
     (ApprovalFlowExecutionID n) (ApprovalNodeExecutionID n) (ApprovalID n)
     r (CreatorID n) (UpdaterID n) (CreateTime n) (UpdateTime n).

Definition with_UpdaterID (u : Z) (n : t bool) : t bool :=
  mk (ID n) (Type_ n) (Title n) (Content n) (RecipientID n)
     (ApprovalFlowExecutionID n) (ApprovalNodeExecutionID n) (ApprovalID n)
     (Read n) (CreatorID n) u (CreateTime n) (UpdateTime n).
End Notification.

(** sensitive_data.go *)
Module SensitiveDataRule.
Record t : Type := mk
  { ID : Z;
    Title : string;
    Description : string;
    Level : SensitiveDataLevel;
    DatabaseType : string;
    TablePattern : string;
    ColumnPattern : string;
    DataType : string;
    RegexPattern : string;
    Enabled : bool;
    CreatorID : Z;
    UpdaterID : Z }.
End SensitiveDataRule.

(** The tables the queries of the store read and write. *)
Record DB : Type := mkDB
  { approval_flow : list ApprovalFlow.t;
    approval_node : list ApprovalNode.t;
    approval_flow_execution : list ApprovalFlowExecution.t;
    approval_node_execution : list ApprovalNodeExecution.t;
    approval : list Approval.t;
    notification : list (Notification.t bool);
    sensitive_data_rule : list SensitiveDataRule.t }.

Definition set_approval_flow_execution (l : list ApprovalFlowExecution.t) (s : DB) : DB :=
  mkDB (approval_flow s) (approval_node s) l (approval_node_execution s) (approval s)
       (notification s) (sensitive_data_rule s).

Definition set_approval_node_execution (l : list ApprovalNodeExecution.t) (s : DB) : DB :=
  mkDB (approval_flow s) (approval_node s) (approval_flow_execution s) l (approval s)
       (notification s) (sensitive_data_rule s).

Definition set_approval (l : list Approval.t) (s : DB) : DB :=
  mkDB (approval_flow s) (approval_node s) (approval_flow_execution s)
       (approval_node_execution s) l (notification s) (sensitive_data_rule s).

Definition set_notification (l : list (Notification.t bool)) (s : DB) : DB :=
  mkDB (approval_flow s) (approval_node s) (approval_flow_execution s)
       (approval_node_execution s) (approval s) l (sensitive_data_rule s).

(** [UPDATE approval_node_execution SET status = ? WHERE id = ?] *)
Definition update_node_execution_status
    (st : ApprovalNodeExecutionStatus) (id : Z) (s : DB) : DB :=
  set_approval_node_execution
    (map (fun n => if ApprovalNodeExecution.ID n =? id
                   then ApprovalNodeExecution.with_Status st n else n)
         (approval_node_execution s)) s.

(** [UPDATE approval_flow_execution SET status = ? WHERE id = ?] *)
Definition update_flow_execution_status
    (st : ApprovalFlowExecutionStatus) (id : Z) (s : DB) : DB :=
  set_approval_flow_execution
    (map (fun e => if ApprovalFlowExecution.ID e =? id
                   then ApprovalFlowExecution.with_Status st e else e)
         (approval_flow_execution s)) s.

(** getApprovalNodes: [... FROM approval_node WHERE flow_id = ? ORDER BY id]. *)
Definition getApprovalNodes (s : DB) (flowID : Z) : list ApprovalNode.t :=
  order_by ApprovalNode.ID
    (filter (fun n => ApprovalNode.FlowID n =? flowID) (approval_node s)).

(** getApprovalFlowWithNodes *)
Definition getApprovalFlowWithNodes (s : DB) (id : Z) : result ApprovalFlow.t :=
  match find (fun f => ApprovalFlow.ID f =? id) (approval_flow s) with
  | None => Err "approval flow not found"
  | Some flow =>
      Ok (ApprovalFlow.mk (ApprovalFlow.ID flow) (ApprovalFlow.Title flow)
            (ApprovalFlow.Description flow) (ApprovalFlow.SensitivityLevel flow)
            (getApprovalNodes s id) (ApprovalFlow.Enabled flow)
            (ApprovalFlow.CreatorID flow) (ApprovalFlow.UpdaterID flow))
  end.

(** getApprovals: [... FROM approval WHERE node_execution_id = ?
    ORDER BY create_time DESC]. *)
Definition getApprovals (s : DB) (nodeExecutionID : Z) : list Approval.t :=
  rev (filter (fun a => Approval.NodeExecutionID a =? nodeExecutionID) (approval s)).

(** getApprovalNodeExecution: the row alone, without its approvals. *)
Definition getApprovalNodeExecution (s : DB) (id : Z) : result ApprovalNodeExecution.t :=
  match find (fun n => ApprovalNodeExecution.ID n =? id) (approval_node_execution s) with
  | None => Err "approval node execution not found"
  | Some n => Ok n
  end.

(** getApprovalNodeExecutions: the rows of one execution, [ORDER BY id], each
    with its approvals. *)
Definition getApprovalNodeExecutions (s : DB) (executionID : Z)
  : list ApprovalNodeExecution.t :=
  map (fun n => ApprovalNodeExecution.with_Approvals
                  (getApprovals s (ApprovalNodeExecution.ID n)) n)
      (order_by ApprovalNodeExecution.ID
         (filter (fun n => ApprovalNodeExecution.ExecutionID n =? executionID)
                 (approval_node_execution s))).

(** getApprovalFlowExecutionWithNodeExecutions *)
Definition getApprovalFlowExecutionWithNodeExecutions (s : DB) (id : Z)
  : result ApprovalFlowExecution.t :=
  match find (fun e => ApprovalFlowExecution.ID e =? id) (approval_flow_execution s) with
  | None => Err "approval flow execution not found"
  | Some e =>
      Ok (ApprovalFlowExecution.with_NodeExecutions (getApprovalNodeExecutions s id) e)
  end.

(** The counting loop of CreateApproval; [approvedCount++] is int32 addition. *)
Definition countApprovals (approvals : list Approval.t) : Z * Z :=
  fold_left
    (fun '(approvedCount, rejectedCount) a =>
       match Approval.Status a with
       | ApprovalStatus_APPROVED => (wrap32 (approvedCount + 1), rejectedCount)
       | ApprovalStatus_REJECTED => (approvedCount, wrap32 (rejectedCount + 1))
       | ApprovalStatus_APPROVAL_STATUS_UNSPECIFIED => (approvedCount, rejectedCount)
       end)
    approvals (0, 0).

(** [SELECT required_approvals FROM approval_node WHERE id = ?] *)
Definition required_approvals (s : DB) (nodeID : Z) : option Z :=
  option_map ApprovalNode.RequiredApprovals
    (find (fun n => ApprovalNode.ID n =? nodeID) (approval_node s)).

(** [SELECT id FROM approval_node WHERE flow_id = (SELECT flow_id FROM
    approval_flow_execution WHERE id = ?) AND id > ? ORDER BY id LIMIT 1],
    scanned into [nextNodeID], which stays 0 when there is no row. *)
Definition next_node_id (s : DB) (executionID nodeID : Z) : Z :=
  match find (fun e => ApprovalFlowExecution.ID e =? executionID)
             (approval_flow_execution s) with
  | None => 0
  | Some e =>
      match order_by ApprovalNode.ID
              (filter (fun n => (ApprovalNode.FlowID n =? ApprovalFlowExecution.FlowID e)
                                && (nodeID <? ApprovalNode.ID n))
                      (approval_node s)) with
      | [] => 0
      | n :: _ => ApprovalNode.ID n
      end
  end.

(** [SELECT id FROM approval_node_execution WHERE execution_id = ? AND node_id = ?] *)
Definition node_execution_of (s : DB) (executionID nodeID : Z) : option Z :=
  option_map ApprovalNodeExecution.ID
    (find (fun n => (ApprovalNodeExecution.ExecutionID n =? executionID)
                    && (ApprovalNodeExecution.NodeID n =? nodeID))
          (approval_node_execution s)).

(** The node status CreateApproval derives from the two counters. *)
Definition decide_status (approvedCount rejectedCount requiredApprovals : Z)
  : ApprovalNodeExecutionStatus :=
  if 0 <? rejectedCount then
    ApprovalNodeExecutionStatus_APPROVAL_NODE_EXECUTION_STATUS_REJECTED
  else if requiredApprovals <=? approvedCount then
    ApprovalNodeExecutionStatus_APPROVAL_NODE_EXECUTION_STATUS_APPROVED
  else
    ApprovalNodeExecutionStatus_APPROVAL_NODE_EXECUTION_STATUS_IN_PROGRESS.

(** CreateApproval.

    The function works on a transaction [tx] and returns the store it leaves
    behind.  The deferred function commits when the function-level variable
    [err] is nil at the return and rolls back otherwise.  The two
    [if err := tx.QueryRowContext(...).Scan(...); err != nil] statements
    declare an [err] of their own, so the returns inside them leave the outer
    [err] nil and the transaction is committed although an error is returned.

    [s.getApprovals] is issued on the store handle, not on [tx], which holds
    the row just inserted and is not yet committed, and the code then appends
    that row itself ("Add the new approval to the list"): the list it counts is
    the approvals stored before the call followed by the new one. *)
Definition CreateApproval (s : DB) (create : Approval.t) : DB * result Approval.t :=
  if Approval.NodeExecutionID create <=? 0 then
    (s, Err "node execution ID is required")
  else if Approval.UserID create <=? 0 then
    (s, Err "user ID is required")
  else
    match Approval.Status create with
    | ApprovalStatus_APPROVAL_STATUS_UNSPECIFIED => (s, Err "status is required")
    | _ =>
      match getApprovalNodeExecution s (Approval.NodeExecutionID create) with
      | Err e => (s, Err e)
      | Ok _ =>
        let approvalID := LastInsertId Approval.ID (approval s) in
        let newApproval :=
          Approval.mk approvalID (Approval.NodeExecutionID create)
            (Approval.UserID create) (Approval.Status create)
            (Approval.Comment create) in
        let tx := set_approval (approval s ++ [newApproval]) s in
        match getApprovalNodeExecution s (Approval.NodeExecutionID create) with
        | Err e => (s, Err (Wrap e "failed to get approval node execution"))
        | Ok nodeExecution =>
          let approvals :=
            getApprovals s (Approval.NodeExecutionID create) ++ [newApproval] in
          let '(approvedCount, rejectedCount) := countApprovals approvals in
          match required_approvals tx (ApprovalNodeExecution.NodeID nodeExecution) with
          | None =>
            (tx, Err (Wrap ErrNoRows "failed to get required approvals for node"))
          | Some requiredApprovals =>
            let nodeExecutionStatus :=
              decide_status approvedCount rejectedCount requiredApprovals in
            let tx :=
              update_node_execution_status nodeExecutionStatus
                (Approval.NodeExecutionID create) tx in
            match nodeExecutionStatus with
            | ApprovalNodeExecutionStatus_APPROVAL_NODE_EXECUTION_STATUS_APPROVED =>
              let nextNodeID :=
                next_node_id tx (ApprovalNodeExecution.ExecutionID nodeExecution)
                  (ApprovalNodeExecution.NodeID nodeExecution) in
              if 0 <? nextNodeID then
                match node_execution_of tx
                        (ApprovalNodeExecution.ExecutionID nodeExecution) nextNodeID with
                | None =>
                  (tx, Err (Wrap ErrNoRows "failed to get next approval node execution"))
                | Some nextNodeExecutionID =>
                  (update_node_execution_status
                     ApprovalNodeExecutionStatus_APPROVAL_NODE_EXECUTION_STATUS_IN_PROGRESS
                     nextNodeExecutionID tx,
                   Ok newApproval)
                end
              else
                (update_flow_execution_status ApprovalFlowExecutionStatus_APPROVED
                   (ApprovalNodeExecution.ExecutionID nodeExecution) tx,
                 Ok newApproval)
            | ApprovalNodeExecutionStatus_APPROVAL_NODE_EXECUTION_STATUS_REJECTED =>
              (update_flow_execution_status ApprovalFlowExecutionStatus_REJECTED
                 (ApprovalNodeExecution.ExecutionID nodeExecution) tx,
               Ok newApproval)
            | _ => (tx, Ok newApproval)
            end
          end
        end
      end
    end.

(** One iteration of the loop of CreateApprovalFlowExecution that inserts the
    node executions: the first node starts IN_PROGRESS, the others PENDING. *)
Definition insert_node_execution (executionID : Z) (nodes : list ApprovalNode.t)
    (create : ApprovalFlowExecution.t) (tx : DB) (node : ApprovalNode.t) : DB :=
  let status :=
    if (List.length nodes =? 1)%nat
       || (ApprovalNode.ID node =? ApprovalNode.ID (hd node nodes))
    then ApprovalNodeExecutionStatus_APPROVAL_NODE_EXECUTION_STATUS_IN_PROGRESS
    else ApprovalNodeExecutionStatus_APPROVAL_NODE_EXECUTION_STATUS_PENDING in
  set_approval_node_execution
    (approval_node_execution tx ++
     [ApprovalNodeExecution.mk
        (LastInsertId ApprovalNodeExecution.ID (approval_node_execution tx))
        executionID (ApprovalNode.ID node) status []
        (ApprovalFlowExecution.CreatorID create)
        (ApprovalFlowExecution.UpdaterID create)])
    tx.

(** CreateApprovalFlowExecution.

    The deferred function commits when the function-level [err] is nil at the
    return and rolls back otherwise.  The closing re-read goes through the
    store handle [s.db] while the transaction is still open: like the read of
    the stored approvals in CreateApproval it sees the committed tables [s],
    not the rows this call has written.  It reads under [int32(executionID)].
    A re-read that finds no row sets [err], so the transaction is rolled
    back. *)
Definition CreateApprovalFlowExecution (s : DB) (create : ApprovalFlowExecution.t)
  : DB * result ApprovalFlowExecution.t :=
  if ApprovalFlowExecution.FlowID create <=? 0 then
    (s, Err "flow ID is required")
  else if ApprovalFlowExecution.IssueID create <=? 0 then
    (s, Err "issue ID is required")
  else
    match ApprovalFlowExecution.SensitivityLevel create with
    | SensitiveDataLevel_SENSITIVE_DATA_LEVEL_UNSPECIFIED =>
      (s, Err "sensitivity level is required")
    | _ =>
      match ApprovalFlowExecution.Status create with
      | ApprovalFlowExecutionStatus_APPROVAL_FLOW_EXECUTION_STATUS_UNSPECIFIED =>
        (s, Err "status is required")
      | _ =>
        match getApprovalFlowWithNodes s (ApprovalFlowExecution.FlowID create) with
        | Err e => (s, Err e)
        | Ok _ =>
          let executionID :=
            LastInsertId ApprovalFlowExecution.ID (approval_flow_execution s) in
          let tx :=
            set_approval_flow_execution
              (approval_flow_execution s ++
               [ApprovalFlowExecution.mk executionID
                  (ApprovalFlowExecution.FlowID create)
                  (ApprovalFlowExecution.IssueID create)
                  (ApprovalFlowExecution.SensitivityLevel create)
                  (ApprovalFlowExecution.Status create) []
                  (ApprovalFlowExecution.CreatorID create)
                  (ApprovalFlowExecution.UpdaterID create)]) s in
          let nodes := getApprovalNodes s (ApprovalFlowExecution.FlowID create) in
          let tx := fold_left (insert_node_execution executionID nodes create) nodes tx in
          match getApprovalFlowExecutionWithNodeExecutions s (wrap32 executionID) with
          | Err e =>
            (s, Err (Wrap e "failed to retrieve newly created approval flow execution"))
          | Ok execution => (tx, Ok execution)
          end
        end
      end
    end.

(** ListApprovalFlowExecutionsFilter *)
Module ListApprovalFlowExecutionsFilter.
Record t : Type := mk
  { FlowID : Z;
    IssueID : Z;
    SensitivityLevel : SensitiveDataLevel;
    Status : ApprovalFlowExecutionStatus }.
End ListApprovalFlowExecutionsFilter.

Definition ApprovalFlowExecutionStatus_eqb (a b : ApprovalFlowExecutionStatus) : bool :=
  match a, b with
  | ApprovalFlowExecutionStatus_APPROVAL_FLOW_EXECUTION_STATUS_UNSPECIFIED,
    ApprovalFlowExecutionStatus_APPROVAL_FLOW_EXECUTION_STATUS_UNSPECIFIED
  | ApprovalFlowExecutionStatus_PENDING, ApprovalFlowExecutionStatus_PENDING
  | ApprovalFlowExecutionStatus_IN_PROGRESS, ApprovalFlowExecutionStatus_IN_PROGRESS
  | ApprovalFlowExecutionStatus_APPROVED, ApprovalFlowExecutionStatus_APPROVED
  | ApprovalFlowExecutionStatus_REJECTED, ApprovalFlowExecutionStatus_REJECTED
  | ApprovalFlowExecutionStatus_CANCELLED, ApprovalFlowExecutionStatus_CANCELLED => true
  | _, _ => false
  end.

(** The WHERE clause ListApprovalFlowExecutions builds: a condition is added
    only for a filter field that is set. *)
Definition execution_matches (filter : option ListApprovalFlowExecutionsFilter.t)
    (e : ApprovalFlowExecution.t) : bool :=
  match filter with
  | None => true
  | Some f =>
    (if 0 <? ListApprovalFlowExecutionsFilter.FlowID f
     then ApprovalFlowExecution.FlowID e =? ListApprovalFlowExecutionsFilter.FlowID f
     else true)
    && (if 0 <? ListApprovalFlowExecutionsFilter.IssueID f
        then ApprovalFlowExecution.IssueID e =? ListApprovalFlowExecutionsFilter.IssueID f
        else true)
    && (match ListApprovalFlowExecutionsFilter.SensitivityLevel f with
        | SensitiveDataLevel_SENSITIVE_DATA_LEVEL_UNSPECIFIED => true
        | l => SensitiveDataLevel_eqb (ApprovalFlowExecution.SensitivityLevel e) l
        end)
    && (match ListApprovalFlowExecutionsFilter.Status f with
        | ApprovalFlowExecutionStatus_APPROVAL_FLOW_EXECUTION_STATUS_UNSPECIFIED => true
        | st => ApprovalFlowExecutionStatus_eqb (ApprovalFlowExecution.Status e) st
        end)
  end.

(** ListApprovalFlowExecutions: [... ORDER BY create_time DESC], each execution
    with its node executions. *)
Definition ListApprovalFlowExecutions (s : DB)
    (filter : option ListApprovalFlowExecutionsFilter.t)
  : list ApprovalFlowExecution.t :=
  map (fun e => ApprovalFlowExecution.with_NodeExecutions
                  (getApprovalNodeExecutions s (ApprovalFlowExecution.ID e)) e)
      (rev (filter_ (execution_matches filter) (approval_flow_execution s))).

(** UpdateApprovalFlowExecution:
    [UPDATE approval_flow_execution SET status = ?, updater_id = ? WHERE id = ?]. *)
Definition UpdateApprovalFlowExecution (s : DB) (update : ApprovalFlowExecution.t)
  : DB * result ApprovalFlowExecution.t :=
  if ApprovalFlowExecution.ID update <=? 0 then
    (s, Err "invalid approval flow execution ID")
  else
    match getApprovalFlowExecutionWithNodeExecutions s (ApprovalFlowExecution.ID update) with
    | Err e => (s, Err e)
    | Ok _ =>
      let s' :=
        set_approval_flow_execution
          (map (fun e =>
                  if ApprovalFlowExecution.ID e =? ApprovalFlowExecution.ID update
                  then ApprovalFlowExecution.with_Status_Updater
                         (ApprovalFlowExecution.Status update)
                         (ApprovalFlowExecution.UpdaterID update) e
                  else e)
               (approval_flow_execution s)) s in
      match getApprovalFlowExecutionWithNodeExecutions s' (ApprovalFlowExecution.ID update) with
      | Err e => (s', Err (Wrap e "failed to retrieve updated approval flow execution"))
      | Ok execution => (s', Ok execution)
      end
    end.

(** ListApprovalFlowsFilter; [Enabled] is a [*bool]. *)
Module ListApprovalFlowsFilter.
Record t : Type := mk
  { SensitivityLevel : SensitiveDataLevel;
    Enabled : option bool }.
End ListApprovalFlowsFilter.

Definition flow_matches (filter : option ListApprovalFlowsFilter.t)
    (f : ApprovalFlow.t) : bool :=
  match filter with
  | None => true
  | Some flt =>
    (match ListApprovalFlowsFilter.SensitivityLevel flt with
     | SensitiveDataLevel_SENSITIVE_DATA_LEVEL_UNSPECIFIED => true
     | l => SensitiveDataLevel_eqb (ApprovalFlow.SensitivityLevel f) l
     end)
    && (match ListApprovalFlowsFilter.Enabled flt with
        | None => true
        | Some b => Bool.eqb (ApprovalFlow.Enabled f) b
        end)
  end.

(** ListApprovalFlows: [... ORDER BY create_time DESC], each flow with its
    nodes. *)
Definition ListApprovalFlows (s : DB) (filter : option ListApprovalFlowsFilter.t)
  : list ApprovalFlow.t :=
  map (fun f =>
         ApprovalFlow.mk (ApprovalFlow.ID f) (ApprovalFlow.Title f)
           (ApprovalFlow.Description f) (ApprovalFlow.SensitivityLevel f)
           (getApprovalNodes s (ApprovalFlow.ID f)) (ApprovalFlow.Enabled f)
           (ApprovalFlow.CreatorID f) (ApprovalFlow.UpdaterID f))
      (rev (filter_ (flow_matches filter) (approval_flow s))).

(** ListSensitiveDataRulesFilter *)
Module ListSensitiveDataRulesFilter.
Record t : Type := mk
  { Level : SensitiveDataLevel;
    DatabaseType : string;
    Enabled : option bool }.
End ListSensitiveDataRulesFilter.

(** ListSensitiveDataRules: [... ORDER BY create_time DESC]. *)
Definition ListSensitiveDataRules (s : DB)
    (filter : option ListSensitiveDataRulesFilter.t) : list SensitiveDataRule.t :=
  rev (filter_
         (fun r =>
            match filter with
            | None => true
            | Some flt =>
              (match ListSensitiveDataRulesFilter.Level flt with
               | SensitiveDataLevel_SENSITIVE_DATA_LEVEL_UNSPECIFIED => true
               | l => SensitiveDataLevel_eqb (SensitiveDataRule.Level r) l
               end)
              && (if String.eqb (ListSensitiveDataRulesFilter.DatabaseType flt) ""
                  then true
                  else String.eqb (SensitiveDataRule.DatabaseType r)
                         (ListSensitiveDataRulesFilter.DatabaseType flt))
              && (match ListSensitiveDataRulesFilter.Enabled flt with
                  | None => true
                  | Some b => Bool.eqb (SensitiveDataRule.Enabled r) b
                  end)
            end)
         (sensitive_data_rule s)).

(** getNotification *)
Definition getNotification (s : DB) (id : Z) : result (Notification.t bool) :=
  if id <=? 0 then Err "notification ID is required"
  else
    match find (fun n => Notification.ID n =? id) (notification s) with
    | None => Err "notification not found"
    | Some n => Ok n
    end.

(** The SET clause UpdateNotification builds: [read = ?] when [update.Read] is
    not nil, [updater_id = ?] when [update.UpdaterID > 0]. *)
Definition apply_notification_update (update : Notification.t (option bool))
    (n : Notification.t bool) : Notification.t bool :=
  let n1 :=
    match Notification.Read update with
    | Some r => Notification.with_Read r n
    | None => n
    end in
  if 0 <? Notification.UpdaterID update
  then Notification.with_UpdaterID (Notification.UpdaterID update) n1
  else n1.

(** UpdateNotification.  [RowsAffected] is the number of rows the WHERE clause
    selects. *)
Definition UpdateNotification (s : DB) (update : Notification.t (option bool))
  : DB * result (Notification.t bool) :=
  if Notification.ID update <=? 0 then
    (s, Err "notification ID is required")
  else
    let fields :=
      (match Notification.Read update with Some _ => ["read = ?"%string] | None => [] end)
      ++ (if 0 <? Notification.UpdaterID update then ["updater_id = ?"%string] else []) in
    if (List.length fields =? 0)%nat then
      (s, Err "no fields to update")
    else
      let rowsAffected :=
        List.length (filter_ (fun n => Notification.ID n =? Notification.ID update)
                        (notification s)) in
      let s' :=
        set_notification
          (map (fun n => if Notification.ID n =? Notification.ID update
                         then apply_notification_update update n else n)
               (notification s)) s in
      if (rowsAffected =? 0)%nat then
        (s', Err "notification not found")
      else
        match getNotification s' (Notification.ID update) with
        | Err e => (s', Err (Wrap e "failed to retrieve updated notification"))
        | Ok n => (s', Ok n)
        end.

End store.

(** ** Strings of the Go runtime *)

Module strings.

Definition is_upper (c : Ascii.ascii) : bool :=
  let n := Ascii.nat_of_ascii c in ((65 <=? n) && (n <=? 90))%nat.

Definition is_lower (c : Ascii.ascii) : bool :=
  let n := Ascii.nat_of_ascii c in ((97 <=? n) && (n <=? 122))%nat.

Definition is_digit (c : Ascii.ascii) : bool :=
  let n := Ascii.nat_of_ascii c in ((48 <=? n) && (n <=? 57))%nat.

Definition to_lower (c : Ascii.ascii) : Ascii.ascii :=
  if is_upper c then Ascii.ascii_of_nat (Ascii.nat_of_ascii c + 32) else c.

Definition to_upper (c : Ascii.ascii) : Ascii.ascii :=
  if is_lower c then Ascii.ascii_of_nat (Ascii.nat_of_ascii c - 32) else c.

(** strings.ToLower on ASCII text. *)
Fixpoint ToLower (s : string) : string :=
  match s with
  | EmptyString => EmptyString
  | String c s' => String (to_lower c) (ToLower s')
  end.

(** The word separators of strings.Title on ASCII text: letters, digits and
    the underscore are not separators, every other character is. *)
Definition isSeparator (c : Ascii.ascii) : bool :=
  negb (is_upper c || is_lower c || is_digit c || Ascii.eqb c "_"%char).

Fixpoint Title_from (prev : Ascii.ascii) (s : string) : string :=
  match s with
  | EmptyString => EmptyString
  | String c s' =>
    String (if isSeparator prev then to_upper c else c) (Title_from c s')
  end.

(** strings.Title on ASCII text. *)
Definition Title (s : string) : string := Title_from " "%char s.

(** strings.Split(s, sep) for a one-character separator. *)
Fixpoint Split_from (sep : Ascii.ascii) (cur : string) (s : string) : list string :=
  match s with
  | EmptyString => [cur]
  | String c s' =>
    if Ascii.eqb c sep then cur :: Split_from sep EmptyString s'
    else Split_from sep (cur ++ String c EmptyString)%string s'
  end.

Definition Split (s : string) (sep : Ascii.ascii) : list string :=
  Split_from sep EmptyString s.

(** strings.ReplaceAll(s, old, new) for a one-character [old]. *)
Fixpoint ReplaceAll (s : string) (old : Ascii.ascii) (new : string) : string :=
  match s with
  | EmptyString => EmptyString
  | String c s' =>
    if Ascii.eqb c old then (new ++ ReplaceAll s' old new)%string
    else String c (ReplaceAll s' old new)
  end.

(** [%d] of fmt. *)
Definition fmt_d (z : Z) : string := DecimalString.NilZero.string_of_int (Z.to_int z).

End strings.

(** The [String()] methods of the generated enumerations: the name of the enum
    value in the proto file, which the Go constant carries after the type
    name. *)
Definition SensitiveDataLevel_String (l : SensitiveDataLevel) : string :=
  match l with
  | SensitiveDataLevel_SENSITIVE_DATA_LEVEL_UNSPECIFIED => "SENSITIVE_DATA_LEVEL_UNSPECIFIED"
  | SensitiveDataLevel_SENSITIVE_DATA_LEVEL_LOW => "SENSITIVE_DATA_LEVEL_LOW"
  | SensitiveDataLevel_SENSITIVE_DATA_LEVEL_MEDIUM => "SENSITIVE_DATA_LEVEL_MEDIUM"
  | SensitiveDataLevel_SENSITIVE_DATA_LEVEL_HIGH => "SENSITIVE_DATA_LEVEL_HIGH"
  end.

Definition ApprovalFlowExecutionStatus_String (st : ApprovalFlowExecutionStatus) : string :=
  match st with
  | ApprovalFlowExecutionStatus_APPROVAL_FLOW_EXECUTION_STATUS_UNSPECIFIED =>
    "APPROVAL_FLOW_EXECUTION_STATUS_UNSPECIFIED"
  | ApprovalFlowExecutionStatus_PENDING => "PENDING"
  | ApprovalFlowExecutionStatus_IN_PROGRESS => "IN_PROGRESS"
  | ApprovalFlowExecutionStatus_APPROVED => "APPROVED"
  | ApprovalFlowExecutionStatus_REJECTED => "REJECTED"
  | ApprovalFlowExecutionStatus_CANCELLED => "CANCELLED"
  end.

(** The sensitive data change as the checker and the advisor build it (they
    set SensitivityLevel, RuleID, StartLine and EndLine). *)
Module SensitiveDataChange.
Record t : Type := mk
  { TableName : string;
    FieldName : string;
    SensitivityLevel : SensitiveDataLevel;
    RuleID : Z;
    StartLine : Z;
    EndLine : Z }.
End SensitiveDataChange.

(** ** The gate: backend/runner/plancheck/sensitive_data_checker.go *)

Module plancheck.
Import store.

Module Plan.
Record t : Type := mk
  { IssueID : Z;
    Statement : string }.
End Plan.

(** The issue message of the store, of which Check reads ID and CreatorID. *)
Module Issue.
Record t : Type := mk
  { ID : Z;
    CreatorID : Z }.
End Issue.

(** parseSchemaChange: the placeholder of the checker, which reports one dummy
    table and one dummy column for every statement. *)
Definition parseSchemaChange (schemaChange : string)
  : result (list string * list string) :=
  Ok (["dummy_table"%string], ["dummy_column"%string]).

(** detectSensitiveDataChanges of the checker: every table/column pair becomes
    a change of level HIGH; the rules are not consulted. *)
Definition detectSensitiveDataChanges (rules : list SensitiveDataRule.t)
    (tables columns : list string) : result (list SensitiveDataChange.t) :=
  Ok (flat_map
        (fun table =>
           map (fun column =>
                  SensitiveDataChange.mk table column
                    SensitiveDataLevel_SENSITIVE_DATA_LEVEL_HIGH 0 1 1)
               columns)
        tables).

(** The loop of Check that finds the highest level among the changes. *)
Definition highest_level (changes : list SensitiveDataChange.t) : SensitiveDataLevel :=
  fold_left
    (fun highestSensitivityLevel change =>
       if SensitiveDataLevel_number highestSensitivityLevel
          <? SensitiveDataLevel_number (SensitiveDataChange.SensitivityLevel change)
       then SensitiveDataChange.SensitivityLevel change
       else highestSensitivityLevel)
    changes SensitiveDataLevel_SENSITIVE_DATA_LEVEL_UNSPECIFIED.

Section Check.

(** [storeProvider.GetIssue], whose implementation is not part of the
    sources. *)
Variable GetIssue : Z -> result Issue.t.

(** Check returns a Go [error]: [None] is nil and lets the plan run. *)
Definition Check (s : DB) (plan : Plan.t) : DB * option string :=
  match GetIssue (Plan.IssueID plan) with
  | Err e => (s, Some ("failed to retrieve issue: " ++ e)%string)
  | Ok issue =>
    let executions :=
      ListApprovalFlowExecutions s
        (Some (ListApprovalFlowExecutionsFilter.mk 0 (Issue.ID issue)
                 SensitiveDataLevel_SENSITIVE_DATA_LEVEL_UNSPECIFIED
                 ApprovalFlowExecutionStatus_APPROVAL_FLOW_EXECUTION_STATUS_UNSPECIFIED)) in
    (* the statements after the [if len(executions) > 0] block *)
    let no_execution_yet (_ : unit) : DB * option string :=
      let rules := ListSensitiveDataRules s None in
      match parseSchemaChange (Plan.Statement plan) with
      | Err e => (s, Some ("failed to parse schema change: " ++ e)%string)
      | Ok (tables, columns) =>
        match detectSensitiveDataChanges rules tables columns with
        | Err e => (s, Some ("failed to detect sensitive data changes: " ++ e)%string)
        | Ok sensitiveDataChanges =>
          if (List.length sensitiveDataChanges =? 0)%nat then (s, None)
          else
            let highestSensitivityLevel := highest_level sensitiveDataChanges in
            let flows :=
              ListApprovalFlows s
                (Some (ListApprovalFlowsFilter.mk highestSensitivityLevel (Some true))) in
            match flows with
            | [] =>
              (s, Some ("no enabled approval flow found for sensitivity level "
                        ++ SensitiveDataLevel_String highestSensitivityLevel
                        ++ ". Cannot execute the plan")%string)
            | flow0 :: _ =>
              match CreateApprovalFlowExecution s
                      (ApprovalFlowExecution.mk 0 (ApprovalFlow.ID flow0)
                         (Issue.ID issue) highestSensitivityLevel
                         ApprovalFlowExecutionStatus_IN_PROGRESS []
                         (Issue.CreatorID issue) (Issue.CreatorID issue)) with
              | (s', Err e) =>
                (s', Some ("failed to create approval flow execution: " ++ e)%string)
              | (s', Ok execution) =>
                (s', Some ("sensitive data change requires approval. Approval flow "
                           ++ strings.fmt_d (ApprovalFlowExecution.ID execution)
                           ++ " has been created and is currently in progress")%string)
              end
            end
        end
      end in
    match executions with
    | execution :: _ =>
      match ApprovalFlowExecution.Status execution with
      | ApprovalFlowExecutionStatus_APPROVAL_FLOW_EXECUTION_STATUS_UNSPECIFIED
      | ApprovalFlowExecutionStatus_PENDING
      | ApprovalFlowExecutionStatus_IN_PROGRESS =>
        (s, Some ("sensitive data change requires approval. Approval flow is currently "
                  ++ ApprovalFlowExecutionStatus_String
                       (ApprovalFlowExecution.Status execution))%string)
      | ApprovalFlowExecutionStatus_REJECTED =>
        (s, Some "sensitive data change was rejected. Cannot execute the plan"%string)
      | ApprovalFlowExecutionStatus_APPROVED => (s, None)
      | _ => no_execution_yet tt
      end
    | [] => no_execution_yet tt
    end
  end.

End Check.

End plancheck.

(** ** The service: backend/service/sensitive_data_service.go *)

Module service.

(** The messages of the generated package [v1], with the fields the service
    reads and writes.  Its levels carry the same constant names as those of
    [storepb] and are modelled by the same type. *)
Module v1.

Inductive ApprovalStep_ApprovalType : Type :=
| ApprovalStep_APPROVAL_TYPE_UNSPECIFIED
| ApprovalStep_APPROVAL_TYPE_ALL
| ApprovalStep_APPROVAL_TYPE_ANY.

Module SensitiveDataRule.
Record t : Type := mk
  { Name : string;
    Table : string;
    FieldPattern : string;
    Level : SensitiveDataLevel }.
End SensitiveDataRule.

Module ApprovalStep.
Record t : Type := mk
  { Step : Z;
    Approvers : list string;
    ApprovalType : ApprovalStep_ApprovalType }.
End ApprovalStep.

Module ApprovalFlow.
Record t : Type := mk
  { Name : string;
    Title : string;
    Description : string;
    Level : SensitiveDataLevel;
    Steps : list ApprovalStep.t }.
End ApprovalFlow.

(** [Change] and [Database] are message pointers; [None] is nil. *)
Module EvaluateSensitiveDataChangeRequest.
Record t : Type := mk
  { Parent : string;
    Change_Sql : option string;
    Database_Name : option string }.
End EvaluateSensitiveDataChangeRequest.

Module EvaluateSensitiveDataChangeResponse.
Record t : Type := mk
  { AffectsSensitiveData : bool;
    HighestSensitiveLevel : SensitiveDataLevel;
    MatchingRules : list SensitiveDataRule.t;
    RequiredApprovalFlow : option ApprovalFlow.t }.
End EvaluateSensitiveDataChangeResponse.

End v1.

(** The gRPC codes of [status.Errorf] the service uses. *)
Inductive codes : Type :=
| InvalidArgument
| Internal.

(** The result of an RPC: the response, or a status with code and message. *)
Inductive rpc (A : Type) : Type :=
| RpcOk (a : A)
| RpcErr (c : codes) (msg : string).
Arguments RpcOk {A} a.
Arguments RpcErr {A} c msg.

Section Service.

(** [regexp.MatchString(pattern, s)]: the match, false when the pattern does
    not compile (the code drops the error). *)
Variable regexp_MatchString : string -> string -> bool.

(** extractTablesAndFields, built from regular expressions over the SQL text. *)
Variable extractTablesAndFields : string -> result (list string * list string).

(** The store of the service: rules and flows of a project, kept as JSON. *)
Variable ListSensitiveDataRules : string -> result (list v1.SensitiveDataRule.t).
Variable ListApprovalFlows : string -> result (list v1.ApprovalFlow.t).

(** isRuleMatch *)
Definition isRuleMatch (rule : v1.SensitiveDataRule.t) (table field : string) : bool :=
  if negb (String.eqb (v1.SensitiveDataRule.Table rule) "")
     && negb (String.eqb
                (last (strings.Split (v1.SensitiveDataRule.Table rule) "/"%char) ""%string)
                table)
  then false
  else if negb (String.eqb (v1.SensitiveDataRule.FieldPattern rule) "")
          && negb (regexp_MatchString
                     ("^" ++ strings.ReplaceAll (v1.SensitiveDataRule.FieldPattern rule)
                               "*"%char ".*" ++ "$")%string
                     field)
  then false
  else true.

(** getDefaultApprovalFlow; [None] is the nil of the default case. *)
Definition getDefaultApprovalFlow (parent : string) (level : SensitiveDataLevel)
  : option v1.ApprovalFlow.t :=
  let finish (flowName : string) (steps : list v1.ApprovalStep.t) :=
    Some (v1.ApprovalFlow.mk
            (parent ++ "/approvalFlows/" ++ flowName)%string
            (strings.Title (strings.ToLower (SensitiveDataLevel_String level))
             ++ " Approval Flow")%string
            ("Default approval flow for "
             ++ strings.ToLower (SensitiveDataLevel_String level)
             ++ " sensitivity data")%string
            level steps) in
  match level with
  | SensitiveDataLevel_SENSITIVE_DATA_LEVEL_HIGH =>
    finish "high-sensitivity-flow"%string
      [v1.ApprovalStep.mk 1 ["roles/security-admin"%string] v1.ApprovalStep_APPROVAL_TYPE_ALL;
       v1.ApprovalStep.mk 2 ["roles/dba"%string] v1.ApprovalStep_APPROVAL_TYPE_ALL]
  | SensitiveDataLevel_SENSITIVE_DATA_LEVEL_MEDIUM =>
    finish "medium-sensitivity-flow"%string
      [v1.ApprovalStep.mk 1 ["roles/dba"%string] v1.ApprovalStep_APPROVAL_TYPE_ALL]
  | SensitiveDataLevel_SENSITIVE_DATA_LEVEL_LOW =>
    finish "low-sensitivity-flow"%string
      [v1.ApprovalStep.mk 1 ["self"%string] v1.ApprovalStep_APPROVAL_TYPE_ALL]
  | SensitiveDataLevel_SENSITIVE_DATA_LEVEL_UNSPECIFIED => None
  end.

(** Step 3 of EvaluateSensitiveDataChange: the matching rules, one entry per
    (table, field, rule) match, and the highest level among them. *)
Definition match_rules (rules : list v1.SensitiveDataRule.t) (tables fields : list string)
  : list v1.SensitiveDataRule.t * SensitiveDataLevel :=
  fold_left
    (fun acc table =>
       fold_left
         (fun acc field =>
            fold_left
              (fun '(matchingRules, highestLevel) rule =>
                 if isRuleMatch rule table field then
                   (matchingRules ++ [rule],
                    if SensitiveDataLevel_number highestLevel
                       <? SensitiveDataLevel_number (v1.SensitiveDataRule.Level rule)
                    then v1.SensitiveDataRule.Level rule else highestLevel)
                 else (matchingRules, highestLevel))
              rules acc)
         fields acc)
    tables ([], SensitiveDataLevel_SENSITIVE_DATA_LEVEL_UNSPECIFIED).

(** Step 4 of EvaluateSensitiveDataChange, given the flows of the project: the
    first listed flow whose level is the highest level, else the default. *)
Definition select_flow (parent : string) (approvalFlows : list v1.ApprovalFlow.t)
    (highestLevel : SensitiveDataLevel) : option v1.ApprovalFlow.t :=
  match find (fun flow => SensitiveDataLevel_eqb (v1.ApprovalFlow.Level flow) highestLevel)
             approvalFlows with
  | Some flow => Some flow
  | None => getDefaultApprovalFlow parent highestLevel
  end.

(** EvaluateSensitiveDataChange *)
Definition EvaluateSensitiveDataChange (request : v1.EvaluateSensitiveDataChangeRequest.t)
  : rpc v1.EvaluateSensitiveDataChangeResponse.t :=
  let parent := v1.EvaluateSensitiveDataChangeRequest.Parent request in
  if String.eqb parent "" then
    RpcErr InvalidArgument "parent is required"
  else
    match v1.EvaluateSensitiveDataChangeRequest.Change_Sql request with
    | None => RpcErr InvalidArgument "change.sql is required"
    | Some sql =>
      if String.eqb sql "" then RpcErr InvalidArgument "change.sql is required"
      else
        match v1.EvaluateSensitiveDataChangeRequest.Database_Name request with
        | None => RpcErr InvalidArgument "database.name is required"
        | Some name =>
          if String.eqb name "" then RpcErr InvalidArgument "database.name is required"
          else
            match extractTablesAndFields sql with
            | Err e => RpcErr Internal ("failed to parse SQL: " ++ e)%string
            | Ok (tables, fields) =>
              match ListSensitiveDataRules parent with
              | Err e =>
                RpcErr Internal ("failed to list sensitive data rules: " ++ e)%string
              | Ok rules =>
                let '(matchingRules, highestLevel) := match_rules rules tables fields in
                let finish (requiredApprovalFlow : option v1.ApprovalFlow.t) :=
                  RpcOk (v1.EvaluateSensitiveDataChangeResponse.mk
                           (0 <? List.length matchingRules)%nat highestLevel
                           matchingRules requiredApprovalFlow) in
                match highestLevel with
                | SensitiveDataLevel_SENSITIVE_DATA_LEVEL_UNSPECIFIED => finish None
                | _ =>
                  match ListApprovalFlows parent with
                  | Err e =>
                    RpcErr Internal ("failed to list approval flows: " ++ e)%string
                  | Ok approvalFlows =>
                    finish (select_flow parent approvalFlows highestLevel)
                  end
                end
              end
            end
        end
    end.

End Service.

End service.

(** ** The advisor: detectSensitiveDataChanges of package sensitive_data *)

Module advisor.

(** The rule as the advisor reads it: a table name and a list of fields, each
    with a name and a regular expression. *)
Module Field.
Record t : Type := mk
  { FieldName : string;
    Regex : string }.
End Field.

Module Rule.
Record t : Type := mk
  { ID : Z;
    TableName : string;
    Fields : list Field.t;
    Level : SensitiveDataLevel }.
End Rule.

Section Advisor.

(** [regexp.Compile]: [None] when the expression is invalid, else the
    [MatchString] of the compiled expression. *)
Variable regexp_Compile : string -> option (string -> bool).

(** The loop over [rule.Fields]: does some field match the column? *)
Definition field_matches (column : string) (field : Field.t) : bool :=
  if String.eqb (Field.FieldName field) column then true
  else if negb (String.eqb (Field.Regex field) "") then
    match regexp_Compile (Field.Regex field) with
    | None => false
    | Some regex => regex column
    end
  else false.

(** The guard and the field loop of one iteration over the rules. *)
Definition rule_matches (table column : string) (rule : Rule.t) : bool :=
  if negb (String.eqb (Rule.TableName rule) "")
     && negb (String.eqb (Rule.TableName rule) table)
  then false
  else existsb (field_matches column) (Rule.Fields rule).

(** detectSensitiveDataChanges: for every table and column, the first rule that
    matches yields one change (the loop over the rules breaks there). *)
Definition detectSensitiveDataChanges (rules : list Rule.t) (tables columns : list string)
  : result (list SensitiveDataChange.t) :=
  Ok (flat_map
        (fun table =>
           flat_map
             (fun column =>
                match find (rule_matches table column) rules with
                | Some rule =>
                  [SensitiveDataChange.mk table column (Rule.Level rule) (Rule.ID rule) 1 1]
                | None => []
                end)
             columns)
        tables).

End Advisor.

End advisor.

(** ** The quantities the properties speak of *)

Module engine.
Import store.

Definition is_approved (st : ApprovalStatus) : bool :=
  match st with ApprovalStatus_APPROVED => true | _ => false end.

Definition is_rejected (st : ApprovalStatus) : bool :=
  match st with ApprovalStatus_REJECTED => true | _ => false end.

(** The decisions on the node execution [create] addresses, once [create] is
    recorded: the stored ones and the new one. *)
Definition decisions (s : DB) (create : Approval.t) : list ApprovalStatus :=
  map Approval.Status
    (filter (fun a => Approval.NodeExecutionID a =? Approval.NodeExecutionID create)
            (approval s))
  ++ [Approval.Status create].

Definition approved_count (l : list ApprovalStatus) : Z :=
  Z.of_nat (List.length (filter is_approved l)).

Definition rejected_count (l : list ApprovalStatus) : Z :=
  Z.of_nat (List.length (filter is_rejected l)).

(** The stored status of a node execution and of a flow execution. *)
Definition node_status (s : DB) (id : Z) : option ApprovalNodeExecutionStatus :=
  option_map ApprovalNodeExecution.Status
    (find (fun n => ApprovalNodeExecution.ID n =? id) (approval_node_execution s)).

Definition flow_status (s : DB) (id : Z) : option ApprovalFlowExecutionStatus :=
  option_map ApprovalFlowExecution.Status
    (find (fun e => ApprovalFlowExecution.ID e =? id) (approval_flow_execution s)).

(** The approval rows stored for a (node execution, user) pair. *)
Definition stored_decisions (s : DB) (nodeExecutionID userID : Z) : list Approval.t :=
  filter (fun a => (Approval.NodeExecutionID a =? nodeExecutionID)
                   && (Approval.UserID a =? userID))
         (approval s).


(** The approval row CreateApproval stores for a request. *)
Definition stored (s : DB) (create : Approval.t) : Approval.t :=
  Approval.mk (LastInsertId Approval.ID (approval s))
    (Approval.NodeExecutionID create) (Approval.UserID create)
    (Approval.Status create) (Approval.Comment create).

(** What is left of CreateApproval once the request is valid, the node
    execution is found and its node carries a quorum. *)
Definition settle (s : DB) (create : Approval.t)
    (nodeExecution : ApprovalNodeExecution.t) (requiredApprovals : Z)
  : DB * result Approval.t :=
  let tx :=
    update_node_execution_status
      (decide_status (approved_count (decisions s create))
         (rejected_count (decisions s create)) requiredApprovals)
      (Approval.NodeExecutionID create)
      (set_approval (approval s ++ [stored s create]) s) in
  match decide_status (approved_count (decisions s create))
          (rejected_count (decisions s create)) requiredApprovals with
  | ApprovalNodeExecutionStatus_APPROVAL_NODE_EXECUTION_STATUS_APPROVED =>
    let nextNodeID :=
      next_node_id tx (ApprovalNodeExecution.ExecutionID nodeExecution)
        (ApprovalNodeExecution.NodeID nodeExecution) in
    if 0 <? nextNodeID then
      match node_execution_of tx
              (ApprovalNodeExecution.ExecutionID nodeExecution) nextNodeID with
      | None =>
        (tx, Err (Wrap ErrNoRows "failed to get next approval node execution"))
      | Some nextNodeExecutionID =>
        (update_node_execution_status
           ApprovalNodeExecutionStatus_APPROVAL_NODE_EXECUTION_STATUS_IN_PROGRESS
           nextNodeExecutionID tx,
         Ok (stored s create))
      end
    else
      (update_flow_execution_status ApprovalFlowExecutionStatus_APPROVED
         (ApprovalNodeExecution.ExecutionID nodeExecution) tx,
       Ok (stored s create))
  | ApprovalNodeExecutionStatus_APPROVAL_NODE_EXECUTION_STATUS_REJECTED =>
    (update_flow_execution_status ApprovalFlowExecutionStatus_REJECTED
       (ApprovalNodeExecution.ExecutionID nodeExecution) tx,
     Ok (stored s create))
  | _ => (tx, Ok (stored s create))
  end.

(** The errors CreateApproval can return. *)
Definition CreateApproval_errors : list string :=
  ["node execution ID is required"%string;
   "user ID is required"%string;
   "status is required"%string;
   "approval node execution not found"%string;
   Wrap ErrNoRows "failed to get required approvals for node";
   Wrap ErrNoRows "failed to get next approval node execution"].

(** The row CreateApprovalFlowExecution stores for a request. *)
Definition execution_row (s : DB) (create : ApprovalFlowExecution.t)
  : ApprovalFlowExecution.t :=
  ApprovalFlowExecution.mk
    (LastInsertId ApprovalFlowExecution.ID (approval_flow_execution s))
    (ApprovalFlowExecution.FlowID create) (ApprovalFlowExecution.IssueID create)
    (ApprovalFlowExecution.SensitivityLevel create)
    (ApprovalFlowExecution.Status create) []
    (ApprovalFlowExecution.CreatorID create) (ApprovalFlowExecution.UpdaterID create).


(** The filter Check lists the executions of an issue with. *)
Definition issue_filter (issue : plancheck.Issue.t)
  : option ListApprovalFlowExecutionsFilter.t :=
  Some (ListApprovalFlowExecutionsFilter.mk 0 (plancheck.Issue.ID issue)
          SensitiveDataLevel_SENSITIVE_DATA_LEVEL_UNSPECIFIED
          ApprovalFlowExecutionStatus_APPROVAL_FLOW_EXECUTION_STATUS_UNSPECIFIED).

(** The verdict of the gate for the status of an existing execution. *)
Definition verdict (st : ApprovalFlowExecutionStatus) : option string :=
  match st with
  | ApprovalFlowExecutionStatus_APPROVED => None
  | ApprovalFlowExecutionStatus_REJECTED =>
    Some "sensitive data change was rejected. Cannot execute the plan"%string
  | _ =>
    Some ("sensitive data change requires approval. Approval flow is currently "
          ++ ApprovalFlowExecutionStatus_String st)%string
  end.

(** The fields of a notification other than the read flag, the updater and the
    update time. *)
Definition frame (n : Notification.t bool)
  : Z * string * string * string * Z * Z * Z * Z * Z * Z :=
  (Notification.ID n, Notification.Type_ n, Notification.Title n,
   Notification.Content n, Notification.RecipientID n,
   Notification.ApprovalFlowExecutionID n, Notification.ApprovalNodeExecutionID n,
   Notification.ApprovalID n, Notification.CreatorID n, Notification.CreateTime n).

End engine.

(** ** Sample stores *)

Module sample.
Import store.

(** A flow of level HIGH with two nodes: node 1 needs two approvals, node 2
    one. *)
Definition flow1 : ApprovalFlow.t :=
  ApprovalFlow.mk 1 "high" "" SensitiveDataLevel_SENSITIVE_DATA_LEVEL_HIGH [] true 7 7.

Definition node1 : ApprovalNode.t :=
  ApprovalNode.mk 1 1 "first" "" ApproverType_USER ["10"%string; "11"%string] 2 7 7.

Definition node2 : ApprovalNode.t :=
  ApprovalNode.mk 2 1 "second" "" ApproverType_USER ["12"%string] 1 7 7.

Definition execution1 (st : ApprovalFlowExecutionStatus) : ApprovalFlowExecution.t :=
  ApprovalFlowExecution.mk 1 1 5 SensitiveDataLevel_SENSITIVE_DATA_LEVEL_HIGH st [] 9 9.

Definition nodeExecution1 (st : ApprovalNodeExecutionStatus) : ApprovalNodeExecution.t :=
  ApprovalNodeExecution.mk 1 1 1 st [] 9 9.

Definition nodeExecution2 (st : ApprovalNodeExecutionStatus) : ApprovalNodeExecution.t :=
  ApprovalNodeExecution.mk 2 1 2 st [] 9 9.

(** The store with the flow alone. *)
Definition configured : DB := mkDB [flow1] [node1; node2] [] [] [] [] [].


(** The store in which an execution of the flow runs for issue 5: execution 1
    IN_PROGRESS, node execution 1 IN_PROGRESS and node execution 2 PENDING. *)
Definition started : DB :=
  mkDB [flow1] [node1; node2]
    [execution1 ApprovalFlowExecutionStatus_IN_PROGRESS]
    [nodeExecution1
       ApprovalNodeExecutionStatus_APPROVAL_NODE_EXECUTION_STATUS_IN_PROGRESS;
     nodeExecution2
       ApprovalNodeExecutionStatus_APPROVAL_NODE_EXECUTION_STATUS_PENDING]
    [] [] [].

Definition approve (nodeExecutionID userID : Z) : Approval.t :=
  Approval.mk 0 nodeExecutionID userID ApprovalStatus_APPROVED "".

Definition reject (nodeExecutionID userID : Z) : Approval.t :=
  Approval.mk 0 nodeExecutionID userID ApprovalStatus_REJECTED "".

(** [started] after user 10 approved node execution 1. *)
Definition approved_once : DB := fst (CreateApproval started (approve 1 10)).

(** [started] after users 10 and 11 approved node execution 1. *)
Definition approved_twice : DB := fst (CreateApproval approved_once (approve 1 11)).

(** [started] after user 10 approved and user 11 rejected node execution 1. *)
Definition rejected : DB := fst (CreateApproval approved_once (reject 1 11)).

(** A disabled flow of level MEDIUM without nodes, in a store with nothing
    else. *)
Definition flow2 : ApprovalFlow.t :=
  ApprovalFlow.mk 2 "medium" "" SensitiveDataLevel_SENSITIVE_DATA_LEVEL_MEDIUM [] false 7 7.


(** Issue 5, created by user 9, and a plan for it. *)
Definition issue5 : plancheck.Issue.t := plancheck.Issue.mk 5 9.

Definition GetIssue (id : Z) : result plancheck.Issue.t :=
  if id =? 5 then Ok issue5 else Err "issue not found".

Definition plan5 : plancheck.Plan.t :=
  plancheck.Plan.mk 5 "ALTER TABLE users ADD COLUMN email text".

(** [started] with the execution of issue 5 set to CANCELLED. *)
Definition cancelled : DB :=
  fst (UpdateApprovalFlowExecution started
         (execution1 ApprovalFlowExecutionStatus_CANCELLED)).

(** A cancelled execution of issue 5 in a store whose only flow is disabled. *)
Definition cancelled_idle : DB :=
  mkDB [flow2] [] [execution1 ApprovalFlowExecutionStatus_CANCELLED] [] [] [] [].

(** A store whose only flow is an enabled flow of level MEDIUM. *)
Definition flow3 : ApprovalFlow.t :=
  ApprovalFlow.mk 3 "medium" "" SensitiveDataLevel_SENSITIVE_DATA_LEVEL_MEDIUM [] true 7 7.

Definition node3 : ApprovalNode.t :=
  ApprovalNode.mk 3 3 "dba" "" ApproverType_ROLE ["roles/dba"%string] 1 7 7.

Definition medium_only : DB := mkDB [flow3] [node3] [] [] [] [] [].

(** The flows of a project that configured level MEDIUM alone. *)
Definition medium_v1 : service.v1.ApprovalFlow.t :=
  service.v1.ApprovalFlow.mk "projects/p/approvalFlows/medium" "medium" ""
    SensitiveDataLevel_SENSITIVE_DATA_LEVEL_MEDIUM
    [service.v1.ApprovalStep.mk 1 ["roles/dba"%string]
       service.v1.ApprovalStep_APPROVAL_TYPE_ALL].

(** A rule of the service and a rule of the advisor for the table "Users",
    and stand-ins for the regular expression library. *)
Definition users_rule_v1 : service.v1.SensitiveDataRule.t :=
  service.v1.SensitiveDataRule.mk "projects/p/sensitiveDataRules/users"
    "projects/p/databases/d/tables/Users" "" SensitiveDataLevel_SENSITIVE_DATA_LEVEL_HIGH.

Definition users_rule : advisor.Rule.t :=
  advisor.Rule.mk 1 "Users" [advisor.Field.mk "email" ""]
    SensitiveDataLevel_SENSITIVE_DATA_LEVEL_HIGH.

Definition match_all (pattern text : string) : bool := true.

Definition compile_none (expr : string) : option (string -> bool) := None.

End sample.

(** ** Further functions of Go's package strings *)

Module gostrings.

(** strings.Join(elems, sep) *)
Fixpoint Join (elems : list string) (sep : string) : string :=
  match elems with
  | [] => EmptyString
  | x :: rest =>
    match rest with
    | [] => x
    | _ :: _ => (x ++ sep ++ Join rest sep)%string
    end
  end.

(** strings.Count(s, substr) for a one-character [substr]. *)
Fixpoint Count (s : string) (c : Ascii.ascii) : nat :=
  match s with
  | EmptyString => 0%nat
  | String d s' => ((if Ascii.eqb d c then 1 else 0) + Count s' c)%nat
  end.

(** Does the text hold the character? *)
Fixpoint contains (c : Ascii.ascii) (s : string) : bool :=
  match s with
  | EmptyString => false
  | String d s' => Ascii.eqb d c || contains c s'
  end.

End gostrings.

(** ** The store: configuring flows, and the getters of approval_flow.go *)

Module flow_store.
Import store.

Definition set_approval_flow (l : list ApprovalFlow.t) (s : DB) : DB :=
  mkDB l (approval_node s) (approval_flow_execution s) (approval_node_execution s)
       (approval s) (notification s) (sensitive_data_rule s).

Definition set_approval_node (l : list ApprovalNode.t) (s : DB) : DB :=
  mkDB (approval_flow s) l (approval_flow_execution s) (approval_node_execution s)
       (approval s) (notification s) (sensitive_data_rule s).

(** The column approver_ids as getApprovalNodes decodes it: the empty text is
    the empty list, any other text is split at the commas. *)
Definition scan_approver_ids (approverIDsStr : string) : list string :=
  if String.eqb approverIDsStr "" then []
  else strings.Split approverIDsStr ","%char.

(** The row one iteration of the node loops of CreateApprovalFlow and
    UpdateApprovalFlow inserts.  The approver ids are written joined by commas;
    the row holds them as getApprovalNodes reads them back.  Creator and
    updater are those of the flow request, not of the node. *)
Definition node_row (id flowID creatorID updaterID : Z) (node : ApprovalNode.t)
  : ApprovalNode.t :=
  ApprovalNode.mk id flowID (ApprovalNode.Title node) (ApprovalNode.Description node)
    (ApprovalNode.ApproverType node)
    (scan_approver_ids (gostrings.Join (ApprovalNode.ApproverIDs node) ","))
    (ApprovalNode.RequiredApprovals node) creatorID updaterID.

Definition insert_node (flowID creatorID updaterID : Z) (tx : DB) (node : ApprovalNode.t)
  : DB :=
  set_approval_node
    (approval_node tx ++
     [node_row (LastInsertId ApprovalNode.ID (approval_node tx))
        flowID creatorID updaterID node])
    tx.

(** [SELECT id FROM approval_flow WHERE sensitivity_level = ?] of
    CreateApprovalFlow, scanned into [existingID], which stays 0 when there is
    no row.  Of several rows the first one in the table is scanned. *)
Definition existing_flow (s : DB) (level : SensitiveDataLevel) : Z :=
  match find (fun f => SensitiveDataLevel_eqb (ApprovalFlow.SensitivityLevel f) level)
             (approval_flow s) with
  | Some f => ApprovalFlow.ID f
  | None => 0
  end.

(** [SELECT id FROM approval_flow WHERE sensitivity_level = ? AND id != ?] of
    UpdateApprovalFlow. *)
Definition other_flow (s : DB) (level : SensitiveDataLevel) (id : Z) : Z :=
  match find (fun f => SensitiveDataLevel_eqb (ApprovalFlow.SensitivityLevel f) level
                       && negb (ApprovalFlow.ID f =? id))
             (approval_flow s) with
  | Some f => ApprovalFlow.ID f
  | None => 0
  end.

(** CreateApprovalFlow.

    The check for a flow of the same level is made before the transaction
    begins.  The deferred function commits when the function-level [err] is
    nil at the return and rolls back otherwise.  The closing re-read goes
    through the store handle [s.db] while the transaction is open, as in
    CreateApprovalFlowExecution: it sees the committed tables [s], not the
    rows this call has written, and reads under [int32(flowID)]. *)
Definition CreateApprovalFlow (s : DB) (create : ApprovalFlow.t)
  : DB * result ApprovalFlow.t :=
  if String.eqb (ApprovalFlow.Title create) "" then
    (s, Err "title is required")
  else
    match ApprovalFlow.SensitivityLevel create with
    | SensitiveDataLevel_SENSITIVE_DATA_LEVEL_UNSPECIFIED =>
      (s, Err "sensitivity level is required")
    | _ =>
      if (List.length (ApprovalFlow.Nodes create) =? 0)%nat then
        (s, Err "at least one node is required")
      else if 0 <? existing_flow s (ApprovalFlow.SensitivityLevel create) then
        (s, Err "an approval flow for the same sensitivity level already exists")
      else
        let flowID := LastInsertId ApprovalFlow.ID (approval_flow s) in
        let tx :=
          set_approval_flow
            (approval_flow s ++
             [ApprovalFlow.mk flowID (ApprovalFlow.Title create)
                (ApprovalFlow.Description create)
                (ApprovalFlow.SensitivityLevel create) []
                (ApprovalFlow.Enabled create)
                (ApprovalFlow.CreatorID create) (ApprovalFlow.UpdaterID create)]) s in
        let tx :=
          fold_left
            (insert_node flowID (ApprovalFlow.CreatorID create)
               (ApprovalFlow.UpdaterID create))
            (ApprovalFlow.Nodes create) tx in
        match getApprovalFlowWithNodes s (wrap32 flowID) with
        | Err e => (s, Err (Wrap e "failed to retrieve newly created approval flow"))
        | Ok flow => (tx, Ok flow)
        end
    end.

(** GetApprovalFlow *)
Definition GetApprovalFlow (s : DB) (id : Z) : result ApprovalFlow.t :=
  if id <=? 0 then Err "invalid approval flow ID"
  else getApprovalFlowWithNodes s id.

(** [UPDATE approval_flow SET title = ?, description = ?, sensitivity_level = ?,
    enabled = ?, updater_id = ? WHERE id = ?] *)
Definition update_flow_row (update : ApprovalFlow.t) (f : ApprovalFlow.t)
  : ApprovalFlow.t :=
  if ApprovalFlow.ID f =? ApprovalFlow.ID update then
    ApprovalFlow.mk (ApprovalFlow.ID f) (ApprovalFlow.Title update)
      (ApprovalFlow.Description update) (ApprovalFlow.SensitivityLevel update)
      (ApprovalFlow.Nodes f) (ApprovalFlow.Enabled update)
      (ApprovalFlow.CreatorID f) (ApprovalFlow.UpdaterID update)
  else f.

(** [DELETE FROM approval_node WHERE flow_id = ?] *)
Definition delete_nodes (flowID : Z) (s : DB) : DB :=
  set_approval_node
    (filter (fun n => negb (ApprovalNode.FlowID n =? flowID)) (approval_node s)) s.

(** UpdateApprovalFlow: the flow row is rewritten, its nodes are deleted and
    the nodes of the request are inserted anew.  Commit, rollback and the
    closing re-read are as in CreateApprovalFlow: the re-read sees the
    committed tables [s], so the flow it returns is the flow as it was before
    the update. *)
Definition UpdateApprovalFlow (s : DB) (update : ApprovalFlow.t)
  : DB * result ApprovalFlow.t :=
  if ApprovalFlow.ID update <=? 0 then
    (s, Err "invalid approval flow ID")
  else
    match getApprovalFlowWithNodes s (ApprovalFlow.ID update) with
    | Err e => (s, Err e)
    | Ok _ =>
      if 0 <? other_flow s (ApprovalFlow.SensitivityLevel update)
                (ApprovalFlow.ID update) then
        (s, Err "an approval flow for the same sensitivity level already exists")
      else
        let tx := set_approval_flow (map (update_flow_row update) (approval_flow s)) s in
        let tx := delete_nodes (ApprovalFlow.ID update) tx in
        let tx :=
          fold_left
            (insert_node (ApprovalFlow.ID update) (ApprovalFlow.CreatorID update)
               (ApprovalFlow.UpdaterID update))
            (ApprovalFlow.Nodes update) tx in
        match getApprovalFlowWithNodes s (ApprovalFlow.ID update) with
        | Err e => (s, Err (Wrap e "failed to retrieve updated approval flow"))
        | Ok flow => (tx, Ok flow)
        end
    end.

(** DeleteApprovalFlow returns a Go [error]: [None] is nil.  The nodes of the
    flow are deleted, then the flow row. *)
Definition DeleteApprovalFlow (s : DB) (id : Z) : DB * option string :=
  if id <=? 0 then
    (s, Some "invalid approval flow ID"%string)
  else
    match getApprovalFlowWithNodes s id with
    | Err e => (s, Some e)
    | Ok _ =>
      let tx := delete_nodes id s in
      let tx :=
        set_approval_flow
          (filter (fun f => negb (ApprovalFlow.ID f =? id)) (approval_flow tx)) tx in
      (tx, None)
    end.

(** GetApprovalFlowExecution *)
Definition GetApprovalFlowExecution (s : DB) (id : Z) : result ApprovalFlowExecution.t :=
  if id <=? 0 then Err "invalid approval flow execution ID"
  else getApprovalFlowExecutionWithNodeExecutions s id.

(** GetApproval *)
Definition GetApproval (s : DB) (id : Z) : result Approval.t :=
  if id <=? 0 then Err "invalid approval ID"
  else
    match find (fun a => Approval.ID a =? id) (approval s) with
    | None => Err "approval not found"
    | Some a => Ok a
    end.

End flow_store.

(** ** The store: the rules of backend/store/sensitive_data.go *)

Module rule_store.
Import store.

Definition set_sensitive_data_rule (l : list SensitiveDataRule.t) (s : DB) : DB :=
  mkDB (approval_flow s) (approval_node s) (approval_flow_execution s)
       (approval_node_execution s) (approval s) (notification s) l.

(** GetSensitiveDataRule *)
Definition GetSensitiveDataRule (s : DB) (id : Z) : result SensitiveDataRule.t :=
  if id <=? 0 then Err "invalid sensitive data rule ID"
  else
    match find (fun r => SensitiveDataRule.ID r =? id) (sensitive_data_rule s) with
    | None => Err "sensitive data rule not found"
    | Some r => Ok r
    end.

(** [SELECT id FROM sensitive_data_rule WHERE title = ?], scanned into
    [existingID], which stays 0 when there is no row.  Titles are compared
    character for character. *)
Definition existing_rule (s : DB) (title : string) : Z :=
  match find (fun r => String.eqb (SensitiveDataRule.Title r) title)
             (sensitive_data_rule s) with
  | Some r => SensitiveDataRule.ID r
  | None => 0
  end.

(** [SELECT id FROM sensitive_data_rule WHERE title = ? AND id != ?] *)
Definition other_rule (s : DB) (title : string) (id : Z) : Z :=
  match find (fun r => String.eqb (SensitiveDataRule.Title r) title
                       && negb (SensitiveDataRule.ID r =? id))
             (sensitive_data_rule s) with
  | Some r => SensitiveDataRule.ID r
  | None => 0
  end.

(** The row CreateSensitiveDataRule inserts under the id [id]. *)
Definition rule_row (id : Z) (create : SensitiveDataRule.t) : SensitiveDataRule.t :=
  SensitiveDataRule.mk id (SensitiveDataRule.Title create)
    (SensitiveDataRule.Description create) (SensitiveDataRule.Level create)
    (SensitiveDataRule.DatabaseType create) (SensitiveDataRule.TablePattern create)
    (SensitiveDataRule.ColumnPattern create) (SensitiveDataRule.DataType create)
    (SensitiveDataRule.RegexPattern create) (SensitiveDataRule.Enabled create)
    (SensitiveDataRule.CreatorID create) (SensitiveDataRule.UpdaterID create).

(** CreateSensitiveDataRule: the insert runs outside a transaction and the
    rule is then read back under [int32(id)]. *)
Definition CreateSensitiveDataRule (s : DB) (create : SensitiveDataRule.t)
  : DB * result SensitiveDataRule.t :=
  if String.eqb (SensitiveDataRule.Title create) "" then
    (s, Err "title is required")
  else
    match SensitiveDataRule.Level create with
    | SensitiveDataLevel_SENSITIVE_DATA_LEVEL_UNSPECIFIED => (s, Err "level is required")
    | _ =>
      if 0 <? existing_rule s (SensitiveDataRule.Title create) then
        (s, Err "a rule with the same title already exists")
      else
        let id := LastInsertId SensitiveDataRule.ID (sensitive_data_rule s) in
        let s' :=
          set_sensitive_data_rule (sensitive_data_rule s ++ [rule_row id create]) s in
        (s', GetSensitiveDataRule s' (wrap32 id))
    end.

(** [UPDATE sensitive_data_rule SET title = ?, description = ?, level = ?,
    database_type = ?, table_pattern = ?, column_pattern = ?, data_type = ?,
    regex_pattern = ?, enabled = ?, updater_id = ? WHERE id = ?] *)
Definition update_rule_row (update : SensitiveDataRule.t) (r : SensitiveDataRule.t)
  : SensitiveDataRule.t :=
  if SensitiveDataRule.ID r =? SensitiveDataRule.ID update then
    SensitiveDataRule.mk (SensitiveDataRule.ID r) (SensitiveDataRule.Title update)
      (SensitiveDataRule.Description update) (SensitiveDataRule.Level update)
      (SensitiveDataRule.DatabaseType update) (SensitiveDataRule.TablePattern update)
      (SensitiveDataRule.ColumnPattern update) (SensitiveDataRule.DataType update)
      (SensitiveDataRule.RegexPattern update) (SensitiveDataRule.Enabled update)
      (SensitiveDataRule.CreatorID r) (SensitiveDataRule.UpdaterID update)
  else r.

(** UpdateSensitiveDataRule *)
Definition UpdateSensitiveDataRule (s : DB) (update : SensitiveDataRule.t)
  : DB * result SensitiveDataRule.t :=
  if SensitiveDataRule.ID update <=? 0 then
    (s, Err "invalid sensitive data rule ID")
  else
    match GetSensitiveDataRule s (SensitiveDataRule.ID update) with
    | Err e => (s, Err e)
    | Ok _ =>
      if 0 <? other_rule s (SensitiveDataRule.Title update)
                (SensitiveDataRule.ID update) then
        (s, Err "a rule with the same title already exists")
      else
        let s' :=
          set_sensitive_data_rule
            (map (update_rule_row update) (sensitive_data_rule s)) s in
        (s', GetSensitiveDataRule s' (SensitiveDataRule.ID update))
    end.

(** DeleteSensitiveDataRule returns a Go [error]: [None] is nil. *)
Definition DeleteSensitiveDataRule (s : DB) (id : Z) : DB * option string :=
  if id <=? 0 then
    (s, Some "invalid sensitive data rule ID"%string)
  else
    match GetSensitiveDataRule s id with
    | Err e => (s, Some e)
    | Ok _ =>
      (set_sensitive_data_rule
         (filter (fun r => negb (SensitiveDataRule.ID r =? id)) (sensitive_data_rule s))
         s,
       None)
    end.

End rule_store.

(** ** The store: notifications *)

Module notification_store.
Import store.

(** CreateNotification.  The columns create_time and update_time are not
    written by the code: [createTime] and [updateTime] are the values the
    database assigns to them.  The insert runs outside a transaction and the
    notification is then read back under [int32(notificationID)]. *)
Definition CreateNotification (createTime updateTime : Z) (s : DB)
    (create : Notification.t bool) : DB * result (Notification.t bool) :=
  if String.eqb (Notification.Type_ create) "" then
    (s, Err "notification type is required")
  else if String.eqb (Notification.Title create) "" then
    (s, Err "notification title is required")
  else if Notification.RecipientID create <=? 0 then
    (s, Err "notification recipient ID is required")
  else
    let notificationID := LastInsertId Notification.ID (notification s) in
    let s' :=
      set_notification
        (notification s ++
         [Notification.mk notificationID (Notification.Type_ create)
            (Notification.Title create) (Notification.Content create)
            (Notification.RecipientID create)
            (Notification.ApprovalFlowExecutionID create)
            (Notification.ApprovalNodeExecutionID create)
            (Notification.ApprovalID create) (Notification.Read create)
            (Notification.CreatorID create) (Notification.UpdaterID create)
            createTime updateTime]) s in
    match getNotification s' (wrap32 notificationID) with
    | Err e => (s', Err (Wrap e "failed to retrieve newly created notification"))
    | Ok n => (s', Ok n)
    end.

(** The WHERE clause ListNotifications builds; [read] is a [*bool]. *)
Definition notification_matches (recipientID : Z) (read : option bool)
    (n : Notification.t bool) : bool :=
  (Notification.RecipientID n =? recipientID)
  && match read with
     | None => true
     | Some b => Bool.eqb (Notification.Read n) b
     end.

(** ListNotifications: [... ORDER BY create_time DESC]. *)
Definition ListNotifications (s : DB) (recipientID : Z) (read : option bool)
  : result (list (Notification.t bool)) :=
  if recipientID <=? 0 then Err "recipient ID is required"
  else
    Ok (order_by (fun n => - Notification.CreateTime n)
          (filter (notification_matches recipientID read) (notification s))).

(** DeleteNotification returns a Go [error]: [None] is nil.  [RowsAffected]
    is the number of rows the WHERE clause selects. *)
Definition DeleteNotification (s : DB) (id : Z) : DB * option string :=
  if id <=? 0 then
    (s, Some "notification ID is required"%string)
  else
    let rowsAffected :=
      List.length (filter (fun n => Notification.ID n =? id) (notification s)) in
    let s' :=
      set_notification
        (filter (fun n => negb (Notification.ID n =? id)) (notification s)) s in
    if (rowsAffected =? 0)%nat then (s', Some "notification not found"%string)
    else (s', None).

End notification_store.

(** ** The service: extractTablesAndFields *)

Module sql_extract.

(** The loops that remove duplicates: [seen] is the map from string to bool,
    whose missing keys read false. *)
Definition remove_duplicates (l : list string) : list string :=
  snd (fold_left
         (fun '(seen, unique) x =>
            if (seen x : bool) then (seen, unique)
            else ((fun y => String.eqb y x || seen y), unique ++ [x]))
         l ((fun _ => false), [])).

Section Extract.

(** [FindAllStringSubmatch(sql, -1)] of the three compiled expressions: for
    each match the matched text followed by the text of its groups. *)
Variable fromRegex_FindAllStringSubmatch : string -> list (list string).
Variable selectRegex_FindAllStringSubmatch : string -> list (list string).
Variable updateRegex_FindAllStringSubmatch : string -> list (list string).

(** strings.TrimSpace *)
Variable strings_TrimSpace : string -> string.

(** The inner loop over the fields of one match of the SELECT expression. *)
Definition select_fields (fields : list string) (text : string) : list string :=
  fold_left
    (fun fields field =>
       let field := strings_TrimSpace field in
       if negb (String.eqb field "*") then
         fields ++ [hd EmptyString (strings.Split field " "%char)]
       else fields)
    (strings.Split text ","%char) fields.

(** The inner loop over the fields of one match of the UPDATE expression. *)
Definition update_fields (fields : list string) (text : string) : list string :=
  fold_left
    (fun fields field =>
       let field := strings_TrimSpace field in
       fields ++ [strings_TrimSpace (hd EmptyString (strings.Split field "="%char))])
    (strings.Split text ","%char) fields.

(** The tables and fields before the duplicates are removed. *)
Definition collect (sql : string) : list string * list string :=
  let tables :=
    fold_left
      (fun tables m =>
         if (1 <? List.length m)%nat then tables ++ [nth 1 m EmptyString] else tables)
      (fromRegex_FindAllStringSubmatch sql) [] in
  let fields :=
    fold_left
      (fun fields m =>
         if (1 <? List.length m)%nat then select_fields fields (nth 1 m EmptyString)
         else fields)
      (selectRegex_FindAllStringSubmatch sql) [] in
  fold_left
    (fun '(tables, fields) m =>
       let tables :=
         if (1 <? List.length m)%nat then tables ++ [nth 1 m EmptyString] else tables in
       let fields :=
         if (2 <? List.length m)%nat then update_fields fields (nth 2 m EmptyString)
         else fields in
       (tables, fields))
    (updateRegex_FindAllStringSubmatch sql) (tables, fields).

(** extractTablesAndFields *)
Definition extractTablesAndFields (sql : string) : result (list string * list string) :=
  let '(tables, fields) := collect sql in
  Ok (remove_duplicates tables, remove_duplicates fields).

End Extract.

End sql_extract.

(** ** The service: ApproveIssue and RejectIssue *)

Module issue_service.

(** The messages of the generated package [v1] as ApproveIssue and RejectIssue
    use them: the approval flow with the fields of [service.v1.ApprovalFlow]
    and the three the two methods add.  The two enumerations of statuses are
    not part of the sources: the messages are indexed by their types. *)
Module ApprovalFlow.
Record t (Status : Type) : Type := mk
  { Name : string;
    Title : string;
    Description : string;
    Level : SensitiveDataLevel;
    Steps : list service.v1.ApprovalStep.t;
    CurrentStep : Z;
    Status_ : Status;
    CompletedTime : string }.
Arguments mk {Status}.
Arguments Name {Status}.
Arguments Title {Status}.
Arguments Description {Status}.
Arguments Level {Status}.
Arguments Steps {Status}.
Arguments CurrentStep {Status}.
Arguments Status_ {Status}.
Arguments CompletedTime {Status}.

(** The assignments to a field of the message. *)
Definition set_CurrentStep {Status} (v : Z) (f : t Status) : t Status :=
  mk (Name f) (Title f) (Description f) (Level f) (Steps f) v (Status_ f)
     (CompletedTime f).
Definition set_Status {Status} (v : Status) (f : t Status) : t Status :=
  mk (Name f) (Title f) (Description f) (Level f) (Steps f) (CurrentStep f) v
     (CompletedTime f).
Definition set_CompletedTime {Status} (v : string) (f : t Status) : t Status :=
  mk (Name f) (Title f) (Description f) (Level f) (Steps f) (CurrentStep f)
     (Status_ f) v.
End ApprovalFlow.

Module ApprovalRecord.
Record t (Status : Type) : Type := mk
  { Name : string;
    Issue : string;
    Step : Z;
    Approver : string;
    Status_ : Status;
    ApprovalTime : string;
    Comment : string }.
Arguments mk {Status}.
Arguments Name {Status}.
Arguments Issue {Status}.
Arguments Step {Status}.
Arguments Approver {Status}.
Arguments Status_ {Status}.
Arguments ApprovalTime {Status}.
Arguments Comment {Status}.
End ApprovalRecord.

(** ApproveIssueRequest and RejectIssueRequest carry the same fields. *)
Module IssueRequest.
Record t : Type := mk
  { Name : string;
    Approver : string;
    Comment : string }.
End IssueRequest.

(** ApproveIssueResponse and RejectIssueResponse carry the same fields. *)
Module IssueResponse.
Record t (FlowStatus RecordStatus : Type) : Type := mk
  { ApprovalFlow : ApprovalFlow.t FlowStatus;
    ApprovalRecord : ApprovalRecord.t RecordStatus }.
Arguments mk {FlowStatus RecordStatus}.
Arguments ApprovalFlow {FlowStatus RecordStatus}.
Arguments ApprovalRecord {FlowStatus RecordStatus}.
End IssueResponse.

(** The gRPC codes the two methods answer with. *)
Inductive codes : Type :=
| InvalidArgument
| NotFound
| FailedPrecondition
| PermissionDenied
| Internal.

(** The result of an RPC: the response, or a status with code and message. *)
Inductive rpc (A : Type) : Type :=
| RpcOk (a : A)
| RpcErr (c : codes) (msg : string).
Arguments RpcOk {A} a.
Arguments RpcErr {A} c msg.

(** The layout constant time.RFC3339. *)
Definition RFC3339 : string := "2006-01-02T15:04:05Z07:00".

Section IssueService.

(** The enumeration v1.ApprovalFlow_Status with the two values the service
    names, Go's [==] on it and its [String()] method; and the enumeration
    v1.ApprovalRecord_Status with the two values the service writes. *)
Variable FlowStatus : Type.
Variable ApprovalFlow_STATUS_APPROVED : FlowStatus.
Variable ApprovalFlow_STATUS_REJECTED : FlowStatus.
Variable FlowStatus_eqb : FlowStatus -> FlowStatus -> bool.
Variable FlowStatus_String : FlowStatus -> string.
Variable RecordStatus : Type.
Variable ApprovalRecord_STATUS_APPROVED : RecordStatus.
Variable ApprovalRecord_STATUS_REJECTED : RecordStatus.

(** The store of the service, whose three methods are not part of the
    sources, over its state [S].  The two writers return a Go [error]:
    [None] is nil. *)
Variable S : Type.
Variable GetApprovalFlow : S -> string -> result (ApprovalFlow.t FlowStatus).
Variable CreateApprovalRecord : S -> ApprovalRecord.t RecordStatus -> S * option string.
Variable UpdateApprovalFlow : S -> ApprovalFlow.t FlowStatus -> S * option string.

(** [time.Now().Format(layout)]: the first argument counts the calls of
    [time.Now()] within one call of a method. *)
Variable Now_Format : nat -> string -> string.

(** The loop that looks for the approver among the approvers of a step. *)
Definition isAuthorized (step : service.v1.ApprovalStep.t) (approver : string) : bool :=
  existsb (fun a => String.eqb a approver || String.eqb a "self")
          (service.v1.ApprovalStep.Approvers step).

(** [approvalFlow.Steps[currentStep-1]]; the index is in range where the
    methods read it. *)
Definition current_step (approvalFlow : ApprovalFlow.t FlowStatus)
  : service.v1.ApprovalStep.t :=
  nth (Z.to_nat (ApprovalFlow.CurrentStep approvalFlow - 1))
      (ApprovalFlow.Steps approvalFlow)
      (service.v1.ApprovalStep.mk 0 [] service.v1.ApprovalStep_APPROVAL_TYPE_UNSPECIFIED).

(** ApproveIssue *)
Definition ApproveIssue (s : S) (request : IssueRequest.t)
  : S * rpc (IssueResponse.t FlowStatus RecordStatus) :=
  if String.eqb (IssueRequest.Name request) "" then
    (s, RpcErr InvalidArgument "name is required")
  else if String.eqb (IssueRequest.Approver request) "" then
    (s, RpcErr InvalidArgument "approver is required")
  else
    match GetApprovalFlow s (IssueRequest.Name request) with
    | Err e => (s, RpcErr NotFound ("approval flow not found: " ++ e))
    | Ok approvalFlow =>
      let currentStep := ApprovalFlow.CurrentStep approvalFlow in
      if (currentStep <? 1)
         || (Z.of_nat (List.length (ApprovalFlow.Steps approvalFlow)) <? currentStep)
      then
        (s, RpcErr FailedPrecondition
              ("invalid current step: " ++ strings.fmt_d currentStep))
      else if negb (isAuthorized (current_step approvalFlow)
                      (IssueRequest.Approver request)) then
        (s, RpcErr PermissionDenied
              ("approver " ++ IssueRequest.Approver request
               ++ " is not authorized to approve this step"))
      else
        let approvalRecord :=
          ApprovalRecord.mk
            (IssueRequest.Name request ++ "/approvalRecords/"
             ++ Now_Format 0 "20060102150405")
            (IssueRequest.Name request) currentStep (IssueRequest.Approver request)
            ApprovalRecord_STATUS_APPROVED (Now_Format 1 RFC3339)
            (IssueRequest.Comment request) in
        match CreateApprovalRecord s approvalRecord with
        | (s1, Some e) =>
          (s1, RpcErr Internal ("failed to create approval record: " ++ e))
        | (s1, None) =>
          let approvalFlow' :=
            if currentStep =? Z.of_nat (List.length (ApprovalFlow.Steps approvalFlow))
            then
              ApprovalFlow.set_CompletedTime (Now_Format 2 RFC3339)
                (ApprovalFlow.set_Status ApprovalFlow_STATUS_APPROVED approvalFlow)
            else
              ApprovalFlow.set_CurrentStep (currentStep + 1) approvalFlow in
          match UpdateApprovalFlow s1 approvalFlow' with
          | (s2, Some e) =>
            (s2, RpcErr Internal ("failed to update approval flow: " ++ e))
          | (s2, None) => (s2, RpcOk (IssueResponse.mk approvalFlow' approvalRecord))
          end
        end
    end.

(** RejectIssue *)
Definition RejectIssue (s : S) (request : IssueRequest.t)
  : S * rpc (IssueResponse.t FlowStatus RecordStatus) :=
  if String.eqb (IssueRequest.Name request) "" then
    (s, RpcErr InvalidArgument "name is required")
  else if String.eqb (IssueRequest.Approver request) "" then
    (s, RpcErr InvalidArgument "approver is required")
  else
    match GetApprovalFlow s (IssueRequest.Name request) with
    | Err e => (s, RpcErr NotFound ("approval flow not found: " ++ e))
    | Ok approvalFlow =>
      if FlowStatus_eqb (ApprovalFlow.Status_ approvalFlow) ApprovalFlow_STATUS_APPROVED
         || FlowStatus_eqb (ApprovalFlow.Status_ approvalFlow)
              ApprovalFlow_STATUS_REJECTED
      then
        (s, RpcErr FailedPrecondition
              ("approval flow is already "
               ++ FlowStatus_String (ApprovalFlow.Status_ approvalFlow)))
      else
        let currentStep := ApprovalFlow.CurrentStep approvalFlow in
        if (currentStep <? 1)
           || (Z.of_nat (List.length (ApprovalFlow.Steps approvalFlow)) <? currentStep)
        then
          (s, RpcErr FailedPrecondition
                ("invalid current step: " ++ strings.fmt_d currentStep))
        else if negb (isAuthorized (current_step approvalFlow)
                        (IssueRequest.Approver request)) then
          (s, RpcErr PermissionDenied
                ("approver " ++ IssueRequest.Approver request
                 ++ " is not authorized to reject this step"))
        else
          let approvalRecord :=
            ApprovalRecord.mk
              (IssueRequest.Name request ++ "/approvalRecords/"
               ++ Now_Format 0 "20060102150405")
              (IssueRequest.Name request) currentStep (IssueRequest.Approver request)
              ApprovalRecord_STATUS_REJECTED (Now_Format 1 RFC3339)
              (IssueRequest.Comment request) in
          match CreateApprovalRecord s approvalRecord with
          | (s1, Some e) =>
            (s1, RpcErr Internal ("failed to create approval record: " ++ e))
          | (s1, None) =>
            let approvalFlow' :=
              ApprovalFlow.set_CompletedTime (Now_Format 2 RFC3339)
                (ApprovalFlow.set_Status ApprovalFlow_STATUS_REJECTED approvalFlow) in
            match UpdateApprovalFlow s1 approvalFlow' with
            | (s2, Some e) =>
              (s2, RpcErr Internal ("failed to update approval flow: " ++ e))
            | (s2, None) => (s2, RpcOk (IssueResponse.mk approvalFlow' approvalRecord))
            end
          end
    end.

End IssueService.

Arguments current_step {FlowStatus} approvalFlow.
Arguments ApproveIssue {FlowStatus} ApprovalFlow_STATUS_APPROVED
  {RecordStatus} ApprovalRecord_STATUS_APPROVED {S}.
Arguments RejectIssue {FlowStatus} ApprovalFlow_STATUS_APPROVED
  ApprovalFlow_STATUS_REJECTED FlowStatus_eqb FlowStatus_String
  {RecordStatus} ApprovalRecord_STATUS_REJECTED {S}.

End issue_service.

(** ** The quantities the further properties speak of *)

Module notions.
Import store flow_store.

(** The rows the node loop inserts for a list of nodes, from the id [id] on. *)
Fixpoint node_rows (id flowID creatorID updaterID : Z) (nodes : list ApprovalNode.t)
  : list ApprovalNode.t :=
  match nodes with
  | [] => []
  | n :: rest =>
    node_row id flowID creatorID updaterID n
    :: node_rows (id + 1) flowID creatorID updaterID rest
  end.

(** A node without its id. *)
Definition node_payload (n : ApprovalNode.t)
  : Z * string * string * ApproverType * list string * Z * Z * Z :=
  (ApprovalNode.FlowID n, ApprovalNode.Title n, ApprovalNode.Description n,
   ApprovalNode.ApproverType n, ApprovalNode.ApproverIDs n,
   ApprovalNode.RequiredApprovals n, ApprovalNode.CreatorID n, ApprovalNode.UpdaterID n).

(** The primary key of a table: ids are positive and no two rows share one. *)
Definition primary_key {A} (key : A -> Z) (table : list A) : Prop :=
  NoDup (map key table) /\ Forall (fun x => 0 < key x) table.

(** No two rules share a title. *)
Definition one_rule_per_title (s : DB) : Prop :=
  NoDup (map SensitiveDataRule.Title (sensitive_data_rule s)).

(** At most one flow is stored for a sensitivity level. *)
Definition one_flow_per_level (s : DB) : Prop :=
  NoDup (map ApprovalFlow.SensitivityLevel (approval_flow s)).

End notions.

(** ** Further sample stores *)

Module sample_more.
Import store.

(** A request for a flow of level MEDIUM with two nodes. *)
Definition medium_flow : ApprovalFlow.t :=
  ApprovalFlow.mk 0 "medium" "two steps" SensitiveDataLevel_SENSITIVE_DATA_LEVEL_MEDIUM
    [ApprovalNode.mk 0 0 "lead" "" ApproverType_USER ["10"%string; "11"%string] 1 0 0;
     ApprovalNode.mk 0 0 "dba" "" ApproverType_ROLE ["roles/dba"%string] 1 0 0]
    true 8 8.

(** The execution of issue 5 as [sample.started] holds it. *)
Definition execution5 : ApprovalFlowExecution.t :=
  ApprovalFlowExecution.mk 1 1 5 SensitiveDataLevel_SENSITIVE_DATA_LEVEL_HIGH
    ApprovalFlowExecutionStatus_IN_PROGRESS
    [ApprovalNodeExecution.mk 1 1 1
       ApprovalNodeExecutionStatus_APPROVAL_NODE_EXECUTION_STATUS_IN_PROGRESS [] 9 9;
     ApprovalNodeExecution.mk 2 1 2
       ApprovalNodeExecutionStatus_APPROVAL_NODE_EXECUTION_STATUS_PENDING [] 9 9]
    9 9.

(** [sample.approved_once] after its flow was deleted: the flow and its nodes
    are gone, the execution of issue 5 and its node executions are not. *)
Definition deleted : DB := fst (flow_store.DeleteApprovalFlow sample.approved_once 1).



(** [sample.started] without the nodes of its flow. *)
Definition orphaned : DB :=
  flow_store.set_approval_node [] sample.started.

(** [sample.approved_twice] after user 12 approved node execution 2: the
    execution of issue 5 is APPROVED. *)
Definition approved : DB :=
  fst (CreateApproval sample.approved_twice (sample.approve 2 12)).

(** A rule for columns named email, as a request and as the first row of the
    table of rules. *)
Definition email_rule (id : Z) : SensitiveDataRule.t :=
  SensitiveDataRule.mk id "email" "" SensitiveDataLevel_SENSITIVE_DATA_LEVEL_HIGH
    "POSTGRES" "users" "email" "" "" true 7 7.

Definition phone_rule (id : Z) : SensitiveDataRule.t :=
  SensitiveDataRule.mk id "phone" "" SensitiveDataLevel_SENSITIVE_DATA_LEVEL_MEDIUM
    "POSTGRES" "users" "phone" "" "" true 7 7.

Definition ruled : DB := mkDB [] [] [] [] [] [] [email_rule 1].

(** Two unread notifications for user 10, the second one later. *)
Definition note (id createTime : Z) : Notification.t bool :=
  Notification.mk id "approval_request" "approval required" "" 10 1 1 0 false 9 9
    createTime createTime.

Definition notified : DB := mkDB [] [] [] [] [] [note 1 100; note 2 200] [].

(** The request that marks notification 1 as read. *)
Definition mark_read : Notification.t (option bool) :=
  Notification.mk 1 "" "" "" 0 0 0 0 (Some true) 0 10 0 0.

(** A store for the service: the flows by name, and the approval records, in
    memory. *)
Inductive Status : Type :=
| STATUS_UNSPECIFIED
| STATUS_PENDING
| STATUS_APPROVED
| STATUS_REJECTED.

Definition Status_eqb (a b : Status) : bool :=
  match a, b with
  | STATUS_UNSPECIFIED, STATUS_UNSPECIFIED
  | STATUS_PENDING, STATUS_PENDING
  | STATUS_APPROVED, STATUS_APPROVED
  | STATUS_REJECTED, STATUS_REJECTED => true
  | _, _ => false
  end.

Definition Status_String (a : Status) : string :=
  match a with
  | STATUS_UNSPECIFIED => "STATUS_UNSPECIFIED"
  | STATUS_PENDING => "PENDING"
  | STATUS_APPROVED => "APPROVED"
  | STATUS_REJECTED => "REJECTED"
  end.

Definition memory : Type :=
  (list (issue_service.ApprovalFlow.t Status)
   * list (issue_service.ApprovalRecord.t Status))%type.

Definition GetApprovalFlow (s : memory) (name : string)
  : result (issue_service.ApprovalFlow.t Status) :=
  match find (fun f => String.eqb (issue_service.ApprovalFlow.Name f) name) (fst s) with
  | Some f => Ok f
  | None => Err "not found"
  end.

Definition CreateApprovalRecord (s : memory) (r : issue_service.ApprovalRecord.t Status)
  : memory * option string :=
  ((fst s, snd s ++ [r]), None).

Definition UpdateApprovalFlow (s : memory) (f : issue_service.ApprovalFlow.t Status)
  : memory * option string :=
  ((map (fun g => if String.eqb (issue_service.ApprovalFlow.Name g)
                       (issue_service.ApprovalFlow.Name f) then f else g)
        (fst s),
    snd s), None).

Definition Now_Format (n : nat) (layout : string) : string :=
  if String.eqb layout "20060102150405" then "20240102030405"
  else "2024-01-02T03:04:05Z".

(** The flow of issue 7: two steps, at the first one. *)
Definition issue7_flow : issue_service.ApprovalFlow.t Status :=
  issue_service.ApprovalFlow.mk "projects/p/issues/7" "high" ""
    SensitiveDataLevel_SENSITIVE_DATA_LEVEL_HIGH
    [service.v1.ApprovalStep.mk 1 ["roles/security-admin"%string]
       service.v1.ApprovalStep_APPROVAL_TYPE_ALL;
     service.v1.ApprovalStep.mk 2 ["roles/dba"%string]
       service.v1.ApprovalStep_APPROVAL_TYPE_ALL]
    1 STATUS_PENDING "".

Definition issue7 : memory := ([issue7_flow], []).

Definition decide (approver : string) : issue_service.IssueRequest.t :=
  issue_service.IssueRequest.mk "projects/p/issues/7" approver "".

(** The record of a decision on issue 7 at step 1. *)
Definition issue7_record (approver : string) (st : Status)
  : issue_service.ApprovalRecord.t Status :=
  issue_service.ApprovalRecord.mk "projects/p/issues/7/approvalRecords/20240102030405"
    "projects/p/issues/7" 1 approver st "2024-01-02T03:04:05Z" "".

(** Stand-ins for the three regular expressions of extractTablesAndFields. *)
Definition no_match (sql : string) : list (list string) := [].

End sample_more.

(** * Properties *)

(** ** Arithmetic and list facts *)

Lemma wrap32_small (z : Z) : - 2 ^ 31 <= z < 2 ^ 31 -> wrap32 z = z.
Proof.
  intros Hz. unfold wrap32.
  rewrite Z.mod_small by lia. lia.
Qed.

Lemma insert_by_In {A} (key : A -> Z) (x y : A) (l : list A) :
  In y (insert_by key x l) <-> y = x \/ In y l.
Proof.
  induction l as [|z l IH]; simpl.
  - intuition.
  - destruct (key x <? key z); simpl; rewrite ?IH; intuition.
Qed.

Lemma order_by_In {A} (key : A -> Z) (y : A) (l : list A) :
  In y (order_by key l) <-> In y l.
Proof.
  induction l as [|x l IH]; simpl.
  - tauto.
  - rewrite insert_by_In, IH. intuition.
Qed.

Lemma insert_by_head_least {A} (key : A -> Z) (x : A) (l : list A) :
  head_least key l -> head_least key (insert_by key x l).
Proof.
  destruct l as [|z l]; simpl.
  - intros _ y [<-|[]]. lia.
  - intros Hl. destruct (key x <? key z) eqn:E.
    + intros y [<-|Hy]; [lia|]. apply Z.ltb_lt in E.
      specialize (Hl y Hy). lia.
    + apply Z.ltb_ge in E. simpl. intros y [<-|Hy]; [lia|].
      apply insert_by_In in Hy as [->|Hy]; [lia|].
      apply Hl. now right.
Qed.

Lemma order_by_head_least {A} (key : A -> Z) (l : list A) :
  head_least key (order_by key l).
Proof.
  induction l as [|x l IH]; simpl; [exact I|].
  now apply insert_by_head_least.
Qed.

Lemma order_by_nil {A} (key : A -> Z) (l : list A) :
  order_by key l = [] -> l = [].
Proof.
  destruct l as [|x l]; [reflexivity|].
  intros H. assert (Hin : In x (order_by key (x :: l))).
  { apply order_by_In. now left. }
  rewrite H in Hin. destruct Hin.
Qed.

(** [find] by key through an update of the rows that carry one key. *)
Lemma find_map_update {A} (key : A -> Z) (f : A -> A) (id0 id : Z) (l : list A) :
  (forall x, key (f x) = key x) ->
  find (fun x => key x =? id) (map (fun x => if key x =? id0 then f x else x) l)
  = option_map (fun x => if key x =? id0 then f x else x)
      (find (fun x => key x =? id) l).
Proof.
  intros Hkey. induction l as [|x l IH]; simpl; [reflexivity|].
  destruct (key x =? id0) eqn:E0; rewrite ?Hkey;
    destruct (key x =? id) eqn:E; simpl; rewrite ?E0; auto.
Qed.

Lemma find_key_eq {A} (key : A -> Z) (id : Z) (l : list A) (x : A) :
  find (fun x => key x =? id) l = Some x -> key x = id /\ In x l.
Proof.
  intros H. apply find_some in H as [Hin Hk]. apply Z.eqb_eq in Hk. auto.
Qed.

(** In a table of positive int32 ids no row carries the id a closing re-read
    asks for: the id of the row just inserted or, past the last int32 value,
    its wrap-around. *)
Lemma reread_misses_uncommitted_row {A} (key : A -> Z) (table : list A) :
  int32_ids key table ->
  find (fun x => key x =? wrap32 (LastInsertId key table)) table = None.
Proof.
  intros Hids.
  assert (Hbelow : forall x, In x table -> 0 < key x < LastInsertId key table).
  { intros x Hx. split.
    - unfold int32_ids in Hids. rewrite Forall_forall in Hids.
      apply (Hids x Hx).
    - clear Hids. unfold LastInsertId.
      induction table as [|y l IH]; simpl in *; [tauto|].
      destruct Hx as [->|Hx]; [lia|]. specialize (IH Hx). lia. }
  assert (Hmax : 0 < LastInsertId key table <= 2 ^ 31).
  { unfold LastInsertId. clear Hbelow.
    induction Hids as [|y l Hy _ IH]; simpl; lia. }
  assert (Hmiss : forall x, In x table -> key x <> wrap32 (LastInsertId key table)).
  { intros x Hx. specialize (Hbelow x Hx).
    destruct (Z.eq_dec (LastInsertId key table) (2 ^ 31)) as [E|E].
    - rewrite E. change (wrap32 (2 ^ 31)) with (- 2 ^ 31). lia.
    - rewrite wrap32_small by lia. lia. }
  clear Hbelow Hmax Hids. revert Hmiss.
  generalize (wrap32 (LastInsertId key table)) as id. intros id Hmiss.
  induction table as [|y l IH]; simpl; [reflexivity|].
  destruct (key y =? id) eqn:E.
  - apply Z.eqb_eq in E. exfalso. apply (Hmiss y); simpl; auto.
  - apply IH. intros x Hx. apply Hmiss. simpl. auto.
Qed.

(** ** The store *)

Module store_facts.
Import store engine.

(** The counting loop, with its int32 counters, counts the approvals and the
    rejections as long as fewer than 2^31 approvals are counted. *)
Lemma countApprovals_from (l : list Approval.t) (a r : Z) :
  0 <= a -> 0 <= r ->
  a + Z.of_nat (List.length l) < 2 ^ 31 ->
  r + Z.of_nat (List.length l) < 2 ^ 31 ->
  fold_left
    (fun '(approvedCount, rejectedCount) x =>
       match Approval.Status x with
       | ApprovalStatus_APPROVED => (wrap32 (approvedCount + 1), rejectedCount)
       | ApprovalStatus_REJECTED => (approvedCount, wrap32 (rejectedCount + 1))
       | ApprovalStatus_APPROVAL_STATUS_UNSPECIFIED => (approvedCount, rejectedCount)
       end)
    l (a, r)
  = (a + approved_count (map Approval.Status l),
     r + rejected_count (map Approval.Status l)).
Proof.
  unfold approved_count, rejected_count.
  revert a r. induction l as [|x l IH]; intros a r Ha Hr Hla Hlr.
  - simpl. f_equal; lia.
  - cbn [fold_left map filter List.length] in *.
    destruct (Approval.Status x) eqn:E; cbn [is_approved is_rejected List.length].
    + rewrite IH by lia. f_equal; lia.
    + rewrite wrap32_small by lia. rewrite IH by lia. f_equal; lia.
    + rewrite wrap32_small by lia. rewrite IH by lia. f_equal; lia.
Qed.

Lemma countApprovals_spec (l : list Approval.t) :
  Z.of_nat (List.length l) < 2 ^ 31 ->
  countApprovals l
  = (approved_count (map Approval.Status l), rejected_count (map Approval.Status l)).
Proof.
  intros Hl. unfold countApprovals.
  rewrite countApprovals_from by lia. reflexivity.
Qed.

Lemma filter_length_le {A} (p : A -> bool) (l : list A) :
  (List.length (filter p l) <= List.length l)%nat.
Proof.
  induction l as [|x l IH]; simpl; [lia|].
  destruct (p x); simpl; lia.
Qed.

Lemma count_rev (p : ApprovalStatus -> bool) (l : list ApprovalStatus) :
  List.length (filter p (rev l)) = List.length (filter p l).
Proof.
  induction l as [|x l IH]; simpl; [reflexivity|].
  rewrite filter_app, length_app, IH. simpl.
  destruct (p x); simpl; lia.
Qed.

(** The list CreateApproval counts holds the decisions on the node. *)
Lemma counted_decisions (s : DB) (create newApproval : Approval.t) :
  Approval.Status newApproval = Approval.Status create ->
  Z.of_nat (List.length (approval s)) < 2 ^ 31 - 1 ->
  countApprovals (getApprovals s (Approval.NodeExecutionID create) ++ [newApproval])
  = (approved_count (decisions s create), rejected_count (decisions s create)).
Proof.
  intros Hst Hlen.
  rewrite countApprovals_spec.
  - unfold getApprovals, decisions, approved_count, rejected_count.
    rewrite !map_app, !filter_app, !length_app, map_rev, !count_rev.
    simpl. rewrite Hst. reflexivity.
  - unfold getApprovals. rewrite length_app, length_rev. simpl.
    pose proof (filter_length_le
                  (fun a => Approval.NodeExecutionID a =? Approval.NodeExecutionID create)
                  (approval s)).
    lia.
Qed.

Lemma rejected_count_pos (l : list ApprovalStatus) :
  In ApprovalStatus_REJECTED l -> 0 < rejected_count l.
Proof.
  unfold rejected_count. induction l as [|x l IH]; simpl; [tauto|].
  intros [->|Hin]; simpl; [lia|].
  destruct (is_rejected x); simpl; auto; lia.
Qed.

Lemma rejected_count_zero (l : list ApprovalStatus) :
  ~ In ApprovalStatus_REJECTED l -> rejected_count l = 0.
Proof.
  unfold rejected_count. induction l as [|x l IH]; simpl; [reflexivity|].
  intros Hn. destruct x; simpl; try (apply IH; tauto).
  exfalso. apply Hn. now left.
Qed.

(** Status lookups through the two UPDATE statements. *)
Lemma node_status_update (s : DB) (st : ApprovalNodeExecutionStatus) (id0 id : Z) :
  node_status (update_node_execution_status st id0 s) id
  = if id =? id0 then option_map (fun _ => st) (node_status s id) else node_status s id.
Proof.
  unfold node_status, update_node_execution_status. simpl.
  rewrite (find_map_update ApprovalNodeExecution.ID) by reflexivity.
  destruct (find _ (approval_node_execution s)) as [n|] eqn:E; simpl.
  - apply find_key_eq in E as [Hid _]. rewrite Hid.
    destruct (id =? id0); reflexivity.
  - destruct (id =? id0); reflexivity.
Qed.

Lemma flow_status_update (s : DB) (st : ApprovalFlowExecutionStatus) (id0 id : Z) :
  flow_status (update_flow_execution_status st id0 s) id
  = if id =? id0 then option_map (fun _ => st) (flow_status s id) else flow_status s id.
Proof.
  unfold flow_status, update_flow_execution_status. simpl.
  rewrite (find_map_update ApprovalFlowExecution.ID) by reflexivity.
  destruct (find _ (approval_flow_execution s)) as [n|] eqn:E; simpl.
  - apply find_key_eq in E as [Hid _]. rewrite Hid.
    destruct (id =? id0); reflexivity.
  - destruct (id =? id0); reflexivity.
Qed.

Lemma node_status_found (s : DB) (id : Z) (n : ApprovalNodeExecution.t) :
  getApprovalNodeExecution s id = Ok n ->
  node_status s id = Some (ApprovalNodeExecution.Status n).
Proof.
  unfold getApprovalNodeExecution, node_status.
  destruct (find _ _); simpl; congruence.
Qed.

Lemma node_status_In (s : DB) (n : ApprovalNodeExecution.t) :
  In n (approval_node_execution s) ->
  node_status s (ApprovalNodeExecution.ID n) <> None.
Proof.
  intros Hin. unfold node_status.
  destruct (find _ _) eqn:E; simpl; [discriminate|].
  apply (find_none _ _ E) in Hin. rewrite Z.eqb_refl in Hin. discriminate.
Qed.

(** A primary key identifies its row. *)
Lemma NoDup_key_inj {A} (key : A -> Z) (l : list A) (x y : A) :
  NoDup (map key l) -> In x l -> In y l -> key x = key y -> x = y.
Proof.
  induction l as [|z l IH]; simpl; [tauto|].
  intros Hnd. inversion Hnd as [|? ? Hnotin Hnd']; subst.
  intros [->|Hx] [->|Hy] Hk; auto.
  - exfalso. apply Hnotin. rewrite Hk. now apply in_map.
  - exfalso. apply Hnotin. rewrite <- Hk. now apply in_map.
Qed.

Lemma find_map_invariant {A} (p : A -> bool) (g : A -> A) (l : list A) :
  (forall x, p (g x) = p x) ->
  find p (map g l) = option_map g (find p l).
Proof.
  intros Hp. induction l as [|x l IH]; simpl; [reflexivity|].
  rewrite Hp. destruct (p x); simpl; auto.
Qed.

(** Lookups through the UPDATE statements. *)
Lemma getApprovalNodeExecution_update (s : DB) (st : ApprovalNodeExecutionStatus)
    (id0 id : Z) (n : ApprovalNodeExecution.t) :
  getApprovalNodeExecution s id = Ok n ->
  getApprovalNodeExecution (update_node_execution_status st id0 s) id
  = Ok (if ApprovalNodeExecution.ID n =? id0
        then ApprovalNodeExecution.with_Status st n else n).
Proof.
  unfold getApprovalNodeExecution, update_node_execution_status. simpl.
  rewrite (find_map_update ApprovalNodeExecution.ID) by reflexivity.
  destruct (find _ (approval_node_execution s)); simpl; [|discriminate].
  now intros [= ->].
Qed.

Lemma node_execution_of_update (s : DB) (st : ApprovalNodeExecutionStatus)
    (id0 executionID nodeID : Z) :
  node_execution_of (update_node_execution_status st id0 s) executionID nodeID
  = node_execution_of s executionID nodeID.
Proof.
  unfold node_execution_of, update_node_execution_status. simpl.
  rewrite find_map_invariant.
  - destruct (find _ (approval_node_execution s)) as [n|]; simpl; [|reflexivity].
    destruct (ApprovalNodeExecution.ID n =? id0); reflexivity.
  - intros x. destruct (ApprovalNodeExecution.ID x =? id0); reflexivity.
Qed.

Lemma next_node_id_update_flow (s : DB) (st : ApprovalFlowExecutionStatus)
    (id0 executionID nodeID : Z) :
  next_node_id (update_flow_execution_status st id0 s) executionID nodeID
  = next_node_id s executionID nodeID.
Proof.
  unfold next_node_id, update_flow_execution_status. simpl.
  rewrite (find_map_update ApprovalFlowExecution.ID) by reflexivity.
  destruct (find _ (approval_flow_execution s)) as [e|]; simpl; [|reflexivity].
  destruct (ApprovalFlowExecution.ID e =? id0); reflexivity.
Qed.

Lemma CreateApproval_settles (s : DB) (create : Approval.t)
    (nodeExecution : ApprovalNodeExecution.t) (requiredApprovals : Z) :
  0 < Approval.NodeExecutionID create ->
  0 < Approval.UserID create ->
  Approval.Status create <> ApprovalStatus_APPROVAL_STATUS_UNSPECIFIED ->
  getApprovalNodeExecution s (Approval.NodeExecutionID create) = Ok nodeExecution ->
  required_approvals s (ApprovalNodeExecution.NodeID nodeExecution)
  = Some requiredApprovals ->
  Z.of_nat (List.length (approval s)) < 2 ^ 31 - 1 ->
  CreateApproval s create = settle s create nodeExecution requiredApprovals.
Proof.
  intros Hne Hu Hst Hfind Hreq Hlen.
  unfold CreateApproval, settle.
  apply Z.leb_gt in Hne. apply Z.leb_gt in Hu. rewrite Hne, Hu.
  rewrite Hfind.
  fold (stored s create).
  rewrite (counted_decisions s create (stored s create)) by (auto; reflexivity).
  replace (required_approvals (set_approval (approval s ++ [stored s create]) s)
             (ApprovalNodeExecution.NodeID nodeExecution))
    with (Some requiredApprovals) by (rewrite <- Hreq; reflexivity).
  destruct (Approval.Status create); [congruence| |]; reflexivity.
Qed.

(** When the node of the node execution is not stored, the query for its
    quorum fails inside a statement with an [err] of its own: the decision
    inserted before is committed and the error returned. *)
Lemma CreateApproval_node_missing (s : DB) (create : Approval.t)
    (nodeExecution : ApprovalNodeExecution.t) :
  0 < Approval.NodeExecutionID create ->
  0 < Approval.UserID create ->
  Approval.Status create <> ApprovalStatus_APPROVAL_STATUS_UNSPECIFIED ->
  getApprovalNodeExecution s (Approval.NodeExecutionID create) = Ok nodeExecution ->
  required_approvals s (ApprovalNodeExecution.NodeID nodeExecution) = None ->
  CreateApproval s create
  = (set_approval (approval s ++ [stored s create]) s,
     Err (Wrap ErrNoRows "failed to get required approvals for node")).
Proof.
  intros Hne Hu Hst Hfind Hreq.
  unfold CreateApproval.
  apply Z.leb_gt in Hne. apply Z.leb_gt in Hu. rewrite Hne, Hu.
  rewrite Hfind.
  fold (stored s create).
  destruct (countApprovals _) as [approvedCount rejectedCount].
  replace (required_approvals (set_approval (approval s ++ [stored s create]) s)
             (ApprovalNodeExecution.NodeID nodeExecution))
    with (@None Z) by (rewrite <- Hreq; reflexivity).
  destruct (Approval.Status create); [congruence| |]; reflexivity.
Qed.

(** A successful CreateApproval passed the validation and found the node
    execution and the quorum of its node. *)
Lemma CreateApproval_ok_inv (s s1 : DB) (create a : Approval.t) :
  CreateApproval s create = (s1, Ok a) ->
  0 < Approval.NodeExecutionID create
  /\ 0 < Approval.UserID create
  /\ Approval.Status create <> ApprovalStatus_APPROVAL_STATUS_UNSPECIFIED
  /\ exists nodeExecution requiredApprovals,
       getApprovalNodeExecution s (Approval.NodeExecutionID create) = Ok nodeExecution
       /\ required_approvals s (ApprovalNodeExecution.NodeID nodeExecution)
          = Some requiredApprovals.
Proof.
  unfold CreateApproval.
  destruct (Approval.NodeExecutionID create <=? 0) eqn:Hne; [discriminate|].
  destruct (Approval.UserID create <=? 0) eqn:Hu; [discriminate|].
  apply Z.leb_gt in Hne. apply Z.leb_gt in Hu.
  destruct (Approval.Status create) eqn:Hst; [discriminate| |];
    (destruct (getApprovalNodeExecution s (Approval.NodeExecutionID create))
       as [nodeExecution|] eqn:Hfind; [|discriminate]);
    (destruct (countApprovals _) as [approvedCount rejectedCount]);
    (destruct (required_approvals _ (ApprovalNodeExecution.NodeID nodeExecution))
       as [requiredApprovals|] eqn:Hreq; [|discriminate]);
    intros _; repeat split; try assumption; try discriminate;
    exists nodeExecution, requiredApprovals; split; auto.
Qed.

(** Statuses through the statements that do not touch them. *)
Lemma node_status_update_flow (s : DB) (st : ApprovalFlowExecutionStatus) (id0 id : Z) :
  node_status (update_flow_execution_status st id0 s) id = node_status s id.
Proof. reflexivity. Qed.

Lemma node_status_set_approval (s : DB) (l : list Approval.t) (id : Z) :
  node_status (set_approval l s) id = node_status s id.
Proof. reflexivity. Qed.

Lemma flow_status_update_node (s : DB) (st : ApprovalNodeExecutionStatus) (id0 id : Z) :
  flow_status (update_node_execution_status st id0 s) id = flow_status s id.
Proof. reflexivity. Qed.

Lemma flow_status_set_approval (s : DB) (l : list Approval.t) (id : Z) :
  flow_status (set_approval l s) id = flow_status s id.
Proof. reflexivity. Qed.

Create Rewrite HintDb statuses.
#[export] Hint Rewrite node_status_update flow_status_update node_status_update_flow
  node_status_set_approval flow_status_update_node flow_status_set_approval : statuses.

Lemma approved_count_app (l l' : list ApprovalStatus) :
  approved_count (l ++ l') = approved_count l + approved_count l'.
Proof. unfold approved_count. rewrite filter_app, length_app. lia. Qed.

Lemma rejected_count_app (l l' : list ApprovalStatus) :
  rejected_count (l ++ l') = rejected_count l + rejected_count l'.
Proof. unfold rejected_count. rewrite filter_app, length_app. lia. Qed.

Lemma approved_count_nonneg (l : list ApprovalStatus) : 0 <= approved_count l.
Proof. unfold approved_count. lia. Qed.

Lemma rejected_count_nonneg (l : list ApprovalStatus) : 0 <= rejected_count l.
Proof. unfold rejected_count. lia. Qed.

(** The decisions on a node once one more decision of the same request is
    stored. *)
Lemma decisions_replayed (s s1 : DB) (create : Approval.t) :
  approval s1 = approval s ++ [stored s create] ->
  decisions s1 create = decisions s create ++ [Approval.Status create].
Proof.
  intros Happ. unfold decisions. rewrite Happ, filter_app. simpl.
  rewrite Z.eqb_refl, map_app. reflexivity.
Qed.

(** The status decided for a replayed decision, when the first one settled the
    node. *)
Lemma decide_status_replayed (l : list ApprovalStatus) (x : ApprovalStatus)
    (requiredApprovals : Z) :
  In x l ->
  decide_status (approved_count l) (rejected_count l) requiredApprovals
  <> ApprovalNodeExecutionStatus_APPROVAL_NODE_EXECUTION_STATUS_IN_PROGRESS ->
  decide_status (approved_count (l ++ [x])) (rejected_count (l ++ [x])) requiredApprovals
  = decide_status (approved_count l) (rejected_count l) requiredApprovals.
Proof.
  intros Hin. unfold decide_status.
  rewrite approved_count_app, rejected_count_app.
  pose proof (rejected_count_nonneg [x]). pose proof (approved_count_nonneg [x]).
  destruct (0 <? rejected_count l) eqn:HR.
  - apply Z.ltb_lt in HR. intros _.
    replace (0 <? rejected_count l + rejected_count [x]) with true; [reflexivity|].
    symmetry. apply Z.ltb_lt. lia.
  - apply Z.ltb_ge in HR.
    assert (Hx : x <> ApprovalStatus_REJECTED).
    { intros ->. apply rejected_count_pos in Hin. lia. }
    assert (HRx : rejected_count [x] = 0).
    { apply rejected_count_zero. simpl. intuition congruence. }
    rewrite HRx, Z.add_0_r.
    replace (0 <? rejected_count l) with false by (symmetry; apply Z.ltb_ge; lia).
    destruct (requiredApprovals <=? approved_count l) eqn:HA; [|congruence].
    apply Z.leb_le in HA. intros _.
    replace (requiredApprovals <=? approved_count l + approved_count [x]) with true;
      [reflexivity|].
    symmetry. apply Z.leb_le. lia.
Qed.

(** Queries through the statements that do not touch what they read. *)
Lemma next_node_id_update_node (s : DB) (st : ApprovalNodeExecutionStatus)
    (id0 executionID nodeID : Z) :
  next_node_id (update_node_execution_status st id0 s) executionID nodeID
  = next_node_id s executionID nodeID.
Proof. reflexivity. Qed.

Lemma next_node_id_set_approval (s : DB) (l : list Approval.t) (executionID nodeID : Z) :
  next_node_id (set_approval l s) executionID nodeID = next_node_id s executionID nodeID.
Proof. reflexivity. Qed.

Lemma node_execution_of_update_flow (s : DB) (st : ApprovalFlowExecutionStatus)
    (id0 executionID nodeID : Z) :
  node_execution_of (update_flow_execution_status st id0 s) executionID nodeID
  = node_execution_of s executionID nodeID.
Proof. reflexivity. Qed.

Lemma node_execution_of_set_approval (s : DB) (l : list Approval.t)
    (executionID nodeID : Z) :
  node_execution_of (set_approval l s) executionID nodeID
  = node_execution_of s executionID nodeID.
Proof. reflexivity. Qed.

Lemma getApprovalNodeExecution_update_flow (s : DB) (st : ApprovalFlowExecutionStatus)
    (id0 id : Z) :
  getApprovalNodeExecution (update_flow_execution_status st id0 s) id
  = getApprovalNodeExecution s id.
Proof. reflexivity. Qed.

Lemma getApprovalNodeExecution_set_approval (s : DB) (l : list Approval.t) (id : Z) :
  getApprovalNodeExecution (set_approval l s) id = getApprovalNodeExecution s id.
Proof. reflexivity. Qed.

Lemma getApprovalNodeExecution_update_gen (s : DB) (st : ApprovalNodeExecutionStatus)
    (id0 id : Z) :
  getApprovalNodeExecution (update_node_execution_status st id0 s) id
  = match getApprovalNodeExecution s id with
    | Ok n => Ok (if ApprovalNodeExecution.ID n =? id0
                  then ApprovalNodeExecution.with_Status st n else n)
    | Err e => Err e
    end.
Proof.
  unfold getApprovalNodeExecution, update_node_execution_status. simpl.
  rewrite (find_map_update ApprovalNodeExecution.ID) by reflexivity.
  destruct (find _ (approval_node_execution s)); reflexivity.
Qed.

Create Rewrite HintDb queries.
#[export] Hint Rewrite next_node_id_update_node next_node_id_set_approval
  next_node_id_update_flow node_execution_of_update node_execution_of_update_flow
  node_execution_of_set_approval getApprovalNodeExecution_update_flow
  getApprovalNodeExecution_set_approval : queries.

End store_facts.

(** ** The execution engine: decisions recorded by CreateApproval *)

Module engine_facts.
Import store engine store_facts.

(** C3.  The code breaks the claim where the node of the node execution is no
    longer stored.  DeleteApprovalFlow checks no execution: in
    [sample_more.deleted] the flow of the execution of issue 5 and its nodes
    are deleted while node execution 1 is IN_PROGRESS.  CreateApproval reads
    the required approvals of the node before it looks at the counters, in a
    statement with an [err] of its own: the read finds no row, the call
    returns its error, and the deferred function commits.  The rejection is
    stored, and the node execution and the flow execution both stay
    IN_PROGRESS. *)
Theorem rejection_without_node_settles_nothing :
  let s := sample_more.deleted in
  let r := CreateApproval s (sample.reject 1 11) in
  In ApprovalStatus_REJECTED (decisions s (sample.reject 1 11))
  /\ node_status s 1
     = Some ApprovalNodeExecutionStatus_APPROVAL_NODE_EXECUTION_STATUS_IN_PROGRESS
  /\ snd r = Err (Wrap ErrNoRows "failed to get required approvals for node")
  /\ approval (fst r) = approval s ++ [stored s (sample.reject 1 11)]
  /\ node_status (fst r) 1
     = Some ApprovalNodeExecutionStatus_APPROVAL_NODE_EXECUTION_STATUS_IN_PROGRESS
  /\ flow_status (fst r) 1 = Some ApprovalFlowExecutionStatus_IN_PROGRESS.
Proof. vm_compute. repeat split. right. left. reflexivity. Qed.

(** X25.  A decision is recorded on a stored node execution, and some decision
    on that node, the new one included, is REJECTED.
    - When the node of the node execution and the owning flow execution are
      stored, the call succeeds, the node execution is REJECTED, the flow
      execution is REJECTED, and every other node execution (those at higher
      positions among them) keeps its status.
    - When the node is no longer stored, the call returns an error; the
      decision is stored all the same, and every node execution and every flow
      execution keeps its status. *)
Theorem rejection_settles_node_and_flow
    (s : DB) (create : Approval.t) (nodeExecution : ApprovalNodeExecution.t) :
  0 < Approval.NodeExecutionID create ->
  0 < Approval.UserID create ->
  Approval.Status create <> ApprovalStatus_APPROVAL_STATUS_UNSPECIFIED ->
  getApprovalNodeExecution s (Approval.NodeExecutionID create) = Ok nodeExecution ->
  Z.of_nat (List.length (approval s)) < 2 ^ 31 - 1 ->
  In ApprovalStatus_REJECTED (decisions s create) ->
  let s' := fst (CreateApproval s create) in
  (forall requiredApprovals,
      required_approvals s (ApprovalNodeExecution.NodeID nodeExecution)
      = Some requiredApprovals ->
      flow_status s (ApprovalNodeExecution.ExecutionID nodeExecution) <> None ->
      snd (CreateApproval s create) = Ok (stored s create)
      /\ node_status s' (Approval.NodeExecutionID create)
         = Some ApprovalNodeExecutionStatus_APPROVAL_NODE_EXECUTION_STATUS_REJECTED
      /\ flow_status s' (ApprovalNodeExecution.ExecutionID nodeExecution)
         = Some ApprovalFlowExecutionStatus_REJECTED
      /\ (forall id, id <> Approval.NodeExecutionID create ->
                     node_status s' id = node_status s id))
  /\ (required_approvals s (ApprovalNodeExecution.NodeID nodeExecution) = None ->
      snd (CreateApproval s create)
      = Err (Wrap ErrNoRows "failed to get required approvals for node")
      /\ approval s' = approval s ++ [stored s create]
      /\ (forall id, node_status s' id = node_status s id)
      /\ (forall id, flow_status s' id = flow_status s id)).
Proof.
  intros Hne Hu Hst Hfind Hlen Hrej. cbv zeta. split.
  - intros requiredApprovals Hreq Hflow.
    rewrite (CreateApproval_settles s create nodeExecution requiredApprovals)
      by assumption.
    unfold settle, decide_status.
    apply rejected_count_pos in Hrej. apply Z.ltb_lt in Hrej. rewrite Hrej.
    cbn [fst snd]. split; [reflexivity|]. split; [|split].
    + change (node_status
                (update_node_execution_status
                   ApprovalNodeExecutionStatus_APPROVAL_NODE_EXECUTION_STATUS_REJECTED
                   (Approval.NodeExecutionID create) s)
                (Approval.NodeExecutionID create) = Some
                ApprovalNodeExecutionStatus_APPROVAL_NODE_EXECUTION_STATUS_REJECTED).
      rewrite node_status_update, Z.eqb_refl.
      rewrite (node_status_found _ _ _ Hfind). reflexivity.
    + rewrite flow_status_update, Z.eqb_refl.
      change (flow_status (update_node_execution_status _ _ (set_approval _ s)) ?i)
        with (flow_status s i).
      destruct (flow_status s _); [reflexivity|congruence].
    + intros id Hid.
      change (node_status
                (update_node_execution_status
                   ApprovalNodeExecutionStatus_APPROVAL_NODE_EXECUTION_STATUS_REJECTED
                   (Approval.NodeExecutionID create) s) id = node_status s id).
      rewrite node_status_update.
      apply Z.eqb_neq in Hid. now rewrite Hid.
  - intros Hreq.
    rewrite (CreateApproval_node_missing s create nodeExecution) by assumption.
    cbn [fst snd]. repeat split.
Qed.

(** A rejection by user 11 after an approval by user 10 on a node that needs
    two approvals. *)
Lemma rejection_settles_node_and_flow_witness :
  let s' := fst (CreateApproval sample.approved_once (sample.reject 1 11)) in
  snd (CreateApproval sample.approved_once (sample.reject 1 11))
  = Ok (stored sample.approved_once (sample.reject 1 11))
  /\ node_status s' 1
     = Some ApprovalNodeExecutionStatus_APPROVAL_NODE_EXECUTION_STATUS_REJECTED
  /\ flow_status s' 1 = Some ApprovalFlowExecutionStatus_REJECTED
  /\ (forall id, id <> 1 -> node_status s' id = node_status sample.approved_once id).
Proof.
  refine (proj1 (rejection_settles_node_and_flow sample.approved_once
                   (sample.reject 1 11)
                   (sample.nodeExecution1
                      ApprovalNodeExecutionStatus_APPROVAL_NODE_EXECUTION_STATUS_IN_PROGRESS)
                   _ _ _ _ _ _) 2 _ _).
  - reflexivity.
  - reflexivity.
  - discriminate.
  - reflexivity.
  - reflexivity.
  - right. left. reflexivity.
  - reflexivity.
  - discriminate.
Defined.

(** The nodes of the flow an execution runs. *)
Lemma next_node_id_last (s : DB) (execution : ApprovalFlowExecution.t)
    (executionID nodeID : Z) :
  find (fun e => ApprovalFlowExecution.ID e =? executionID) (approval_flow_execution s)
  = Some execution ->
  (forall n, In n (approval_node s) ->
             ApprovalNode.FlowID n = ApprovalFlowExecution.FlowID execution ->
             ApprovalNode.ID n <= nodeID) ->
  next_node_id s executionID nodeID = 0.
Proof.
  intros Hfind Hlast. unfold next_node_id. rewrite Hfind.
  replace (filter _ (approval_node s)) with (@nil ApprovalNode.t); [reflexivity|].
  symmetry. induction (approval_node s) as [|n l IH]; simpl; [reflexivity|].
  destruct (ApprovalNode.FlowID n =? ApprovalFlowExecution.FlowID execution) eqn:E; simpl.
  - apply Z.eqb_eq in E. assert (ApprovalNode.ID n <= nodeID) by (apply Hlast; simpl; auto).
    replace (nodeID <? ApprovalNode.ID n) with false by (symmetry; apply Z.ltb_ge; lia).
    apply IH. intros; apply Hlast; simpl; auto.
  - apply IH. intros; apply Hlast; simpl; auto.
Qed.

Lemma next_node_id_next (s : DB) (execution : ApprovalFlowExecution.t)
    (executionID nodeID : Z) (next : ApprovalNode.t) :
  find (fun e => ApprovalFlowExecution.ID e =? executionID) (approval_flow_execution s)
  = Some execution ->
  In next (approval_node s) ->
  ApprovalNode.FlowID next = ApprovalFlowExecution.FlowID execution ->
  nodeID < ApprovalNode.ID next ->
  (forall n, In n (approval_node s) ->
             ApprovalNode.FlowID n = ApprovalFlowExecution.FlowID execution ->
             nodeID < ApprovalNode.ID n -> ApprovalNode.ID next <= ApprovalNode.ID n) ->
  next_node_id s executionID nodeID = ApprovalNode.ID next.
Proof.
  intros Hfind Hin Hflow Hlt Hleast. unfold next_node_id. rewrite Hfind.
  set (p := fun n => (ApprovalNode.FlowID n =? ApprovalFlowExecution.FlowID execution)
                     && (nodeID <? ApprovalNode.ID n)).
  assert (Hnext : In next (order_by ApprovalNode.ID (filter p (approval_node s)))).
  { apply order_by_In, filter_In. split; [assumption|]. unfold p.
    apply andb_true_iff. split; [now apply Z.eqb_eq | now apply Z.ltb_lt]. }
  pose proof (order_by_head_least ApprovalNode.ID (filter p (approval_node s))) as Hhead.
  destruct (order_by ApprovalNode.ID (filter p (approval_node s))) as [|x l] eqn:E.
  - destruct Hnext.
  - simpl in Hhead. specialize (Hhead next Hnext).
    assert (Hx : In x (filter p (approval_node s))).
    { apply (order_by_In ApprovalNode.ID). rewrite E. now left. }
    apply filter_In in Hx as [Hx Hpx]. unfold p in Hpx.
    apply andb_true_iff in Hpx as [Hf Hl].
    apply Z.eqb_eq in Hf. apply Z.ltb_lt in Hl.
    specialize (Hleast x Hx Hf Hl). lia.
Qed.

Lemma approved_is_not_rejected (s : DB) (create : Approval.t) :
  Approval.Status create <> ApprovalStatus_APPROVAL_STATUS_UNSPECIFIED ->
  ~ In ApprovalStatus_REJECTED (decisions s create) ->
  Approval.Status create = ApprovalStatus_APPROVED.
Proof.
  intros Hst Hno. destruct (Approval.Status create) eqn:E; try congruence.
  exfalso. apply Hno. unfold decisions. apply in_or_app. right. rewrite E. now left.
Qed.


(** X26.  A decision is recorded on a stored node execution whose node and
    flow execution are stored, and no decision on that node is REJECTED:
    - if the APPROVED decisions do not reach the required approvals of the
      node, the node execution is IN_PROGRESS and nothing else changes status;
    - if they reach it and no node of the flow has a larger id, the node
      execution is APPROVED and the flow execution is APPROVED;
    - if they reach it and [next] is the node of the flow with the least larger
      id, the node execution is APPROVED and, when [next] has a node execution
      in this execution, that node execution is IN_PROGRESS;
    - when [next] has none, the call returns an error: the node execution is
      APPROVED all the same, and nothing else changes status. *)
Theorem quorum_advances_execution
    (s : DB) (create : Approval.t)
    (nodeExecution : ApprovalNodeExecution.t) (requiredApprovals : Z)
    (execution : ApprovalFlowExecution.t) :
  0 < Approval.NodeExecutionID create ->
  0 < Approval.UserID create ->
  Approval.Status create <> ApprovalStatus_APPROVAL_STATUS_UNSPECIFIED ->
  getApprovalNodeExecution s (Approval.NodeExecutionID create) = Ok nodeExecution ->
  required_approvals s (ApprovalNodeExecution.NodeID nodeExecution)
  = Some requiredApprovals ->
  find (fun e => ApprovalFlowExecution.ID e
                 =? ApprovalNodeExecution.ExecutionID nodeExecution)
       (approval_flow_execution s) = Some execution ->
  NoDup (map ApprovalNodeExecution.ID (approval_node_execution s)) ->
  Z.of_nat (List.length (approval s)) < 2 ^ 31 - 1 ->
  ~ In ApprovalStatus_REJECTED (decisions s create) ->
  let s' := fst (CreateApproval s create) in
  let ok := snd (CreateApproval s create) = Ok (stored s create) in
  let in_flow (n : ApprovalNode.t) :=
    In n (approval_node s)
    /\ ApprovalNode.FlowID n = ApprovalFlowExecution.FlowID execution in
  (approved_count (decisions s create) < requiredApprovals ->
   ok
   /\ node_status s' (Approval.NodeExecutionID create)
      = Some ApprovalNodeExecutionStatus_APPROVAL_NODE_EXECUTION_STATUS_IN_PROGRESS
   /\ (forall id, id <> Approval.NodeExecutionID create ->
                  node_status s' id = node_status s id)
   /\ (forall id, flow_status s' id = flow_status s id))
  /\ (requiredApprovals <= approved_count (decisions s create) ->
      (forall n, in_flow n ->
                 ApprovalNode.ID n <= ApprovalNodeExecution.NodeID nodeExecution) ->
      ok
      /\ node_status s' (Approval.NodeExecutionID create)
         = Some ApprovalNodeExecutionStatus_APPROVAL_NODE_EXECUTION_STATUS_APPROVED
      /\ flow_status s' (ApprovalNodeExecution.ExecutionID nodeExecution)
         = Some ApprovalFlowExecutionStatus_APPROVED)
  /\ (forall (next : ApprovalNode.t) (nextExecution : ApprovalNodeExecution.t),
      requiredApprovals <= approved_count (decisions s create) ->
      in_flow next ->
      0 < ApprovalNode.ID next ->
      ApprovalNodeExecution.NodeID nodeExecution < ApprovalNode.ID next ->
      (forall n, in_flow n ->
                 ApprovalNodeExecution.NodeID nodeExecution < ApprovalNode.ID n ->
                 ApprovalNode.ID next <= ApprovalNode.ID n) ->
      find (fun n => (ApprovalNodeExecution.ExecutionID n
                      =? ApprovalNodeExecution.ExecutionID nodeExecution)
                     && (ApprovalNodeExecution.NodeID n =? ApprovalNode.ID next))
           (approval_node_execution s) = Some nextExecution ->
      ok
      /\ node_status s' (Approval.NodeExecutionID create)
         = Some ApprovalNodeExecutionStatus_APPROVAL_NODE_EXECUTION_STATUS_APPROVED
      /\ node_status s' (ApprovalNodeExecution.ID nextExecution)
         = Some ApprovalNodeExecutionStatus_APPROVAL_NODE_EXECUTION_STATUS_IN_PROGRESS)
  /\ (forall (next : ApprovalNode.t),
      requiredApprovals <= approved_count (decisions s create) ->
      in_flow next ->
      0 < ApprovalNode.ID next ->
      ApprovalNodeExecution.NodeID nodeExecution < ApprovalNode.ID next ->
      (forall n, in_flow n ->
                 ApprovalNodeExecution.NodeID nodeExecution < ApprovalNode.ID n ->
                 ApprovalNode.ID next <= ApprovalNode.ID n) ->
      find (fun n => (ApprovalNodeExecution.ExecutionID n
                      =? ApprovalNodeExecution.ExecutionID nodeExecution)
                     && (ApprovalNodeExecution.NodeID n =? ApprovalNode.ID next))
           (approval_node_execution s) = None ->
      snd (CreateApproval s create)
      = Err (Wrap ErrNoRows "failed to get next approval node execution")
      /\ node_status s' (Approval.NodeExecutionID create)
         = Some ApprovalNodeExecutionStatus_APPROVAL_NODE_EXECUTION_STATUS_APPROVED
      /\ (forall id, id <> Approval.NodeExecutionID create ->
                     node_status s' id = node_status s id)
      /\ (forall id, flow_status s' id = flow_status s id)).
Proof.
  intros Hne Hu Hst Hfind Hreq Hexec Hnodup Hlen Hno s' ok in_flow.
  subst s' ok in_flow.
  rewrite (CreateApproval_settles s create nodeExecution requiredApprovals) by assumption.
  unfold settle, decide_status.
  rewrite (rejected_count_zero _ Hno). cbn [Z.ltb Z.compare].
  pose proof (node_status_found _ _ _ Hfind) as Hns.
  set (tx0 := set_approval (approval s ++ [stored s create]) s).
  assert (Htx0n : forall id, node_status tx0 id = node_status s id) by reflexivity.
  split; [|split; [|split]].
  - intros Hlt. apply Z.leb_gt in Hlt. rewrite Hlt. cbn [fst snd].
    split; [reflexivity|]. split; [|split].
    + rewrite node_status_update, Z.eqb_refl, Htx0n, Hns. reflexivity.
    + intros id Hid. rewrite node_status_update, Htx0n.
      apply Z.eqb_neq in Hid. now rewrite Hid.
    + intros id. reflexivity.
  - intros Hge Hlast. apply Z.leb_le in Hge. rewrite Hge.
    set (tx := update_node_execution_status _ _ tx0).
    assert (Hnext : next_node_id tx (ApprovalNodeExecution.ExecutionID nodeExecution)
                      (ApprovalNodeExecution.NodeID nodeExecution) = 0).
    { apply (next_node_id_last tx execution); [exact Hexec|].
      intros n Hin Hflow. apply Hlast. split; assumption. }
    rewrite Hnext. cbn [Z.ltb Z.compare fst snd].
    split; [reflexivity|]. split.
    + change (node_status tx (Approval.NodeExecutionID create)
              = Some ApprovalNodeExecutionStatus_APPROVAL_NODE_EXECUTION_STATUS_APPROVED).
      unfold tx. rewrite node_status_update, Z.eqb_refl, Htx0n, Hns. reflexivity.
    + rewrite flow_status_update, Z.eqb_refl.
      change (flow_status tx ?i) with (flow_status s i).
      unfold flow_status. rewrite Hexec. reflexivity.
  - intros next nextExecution Hge [Hin Hflow] Hpos Hlt Hleast Hnx.
    apply Z.leb_le in Hge. rewrite Hge.
    set (tx := update_node_execution_status _ _ tx0).
    assert (Hnext : next_node_id tx (ApprovalNodeExecution.ExecutionID nodeExecution)
                      (ApprovalNodeExecution.NodeID nodeExecution) = ApprovalNode.ID next).
    { apply (next_node_id_next tx execution); try assumption.
      intros n Hn Hf Hl. apply Hleast; [split|]; assumption. }
    rewrite Hnext. apply Z.ltb_lt in Hpos. rewrite Hpos.
    assert (Hnxe : node_execution_of tx (ApprovalNodeExecution.ExecutionID nodeExecution)
                     (ApprovalNode.ID next)
                   = Some (ApprovalNodeExecution.ID nextExecution)).
    { unfold node_execution_of, tx, update_node_execution_status. simpl.
      rewrite find_map_invariant.
      - rewrite Hnx. simpl.
        destruct (ApprovalNodeExecution.ID nextExecution =? Approval.NodeExecutionID create);
          reflexivity.
      - intros x.
        destruct (ApprovalNodeExecution.ID x =? Approval.NodeExecutionID create);
          reflexivity. }
    rewrite Hnxe. cbn [fst snd].
    assert (Hdiff : ApprovalNodeExecution.ID nextExecution
                    <> Approval.NodeExecutionID create).
    { intros Heq. apply find_some in Hnx as [Hnin Hp].
      apply andb_true_iff in Hp as [_ Hp]. apply Z.eqb_eq in Hp.
      unfold getApprovalNodeExecution in Hfind.
      destruct (find _ (approval_node_execution s)) as [n0|] eqn:E0; [|discriminate].
      injection Hfind as ->. apply find_key_eq in E0 as [Hid0 Hin0].
      assert (nextExecution = nodeExecution).
      { apply (NoDup_key_inj ApprovalNodeExecution.ID (approval_node_execution s));
          auto. congruence. }
      subst nextExecution. lia. }
    split; [reflexivity|]. split.
    + rewrite node_status_update.
      apply Z.eqb_neq in Hdiff. rewrite Z.eqb_sym, Hdiff.
      unfold tx. rewrite node_status_update, Z.eqb_refl, Htx0n, Hns. reflexivity.
    + rewrite node_status_update, Z.eqb_refl.
      unfold tx. rewrite node_status_update, Htx0n.
      apply Z.eqb_neq in Hdiff. rewrite Hdiff.
      apply find_some in Hnx as [Hnin _].
      pose proof (node_status_In s nextExecution Hnin) as Hsome.
      destruct (node_status s (ApprovalNodeExecution.ID nextExecution));
        [reflexivity|congruence].
  - intros next Hge [Hin Hflow] Hpos Hlt Hleast Hnx.
    apply Z.leb_le in Hge. rewrite Hge.
    set (tx := update_node_execution_status _ _ tx0).
    assert (Hnext : next_node_id tx (ApprovalNodeExecution.ExecutionID nodeExecution)
                      (ApprovalNodeExecution.NodeID nodeExecution) = ApprovalNode.ID next).
    { apply (next_node_id_next tx execution); try assumption.
      intros n Hn Hf Hl. apply Hleast; [split|]; assumption. }
    rewrite Hnext. apply Z.ltb_lt in Hpos. rewrite Hpos.
    assert (Hnxe : node_execution_of tx (ApprovalNodeExecution.ExecutionID nodeExecution)
                     (ApprovalNode.ID next)
                   = None).
    { unfold node_execution_of, tx, update_node_execution_status. simpl.
      rewrite find_map_invariant.
      - rewrite Hnx. reflexivity.
      - intros x.
        destruct (ApprovalNodeExecution.ID x =? Approval.NodeExecutionID create);
          reflexivity. }
    rewrite Hnxe. cbn [fst snd].
    split; [reflexivity|]. split; [|split].
    + unfold tx. rewrite node_status_update, Z.eqb_refl, Htx0n, Hns. reflexivity.
    + intros id Hid. unfold tx. rewrite node_status_update, Htx0n.
      apply Z.eqb_neq in Hid. now rewrite Hid.
    + intros id. reflexivity.
Qed.

(** The three cases on the sample flow: the first approval of node execution 1
    (two are required), the second one, which promotes node execution 2, and
    the approval of node execution 2, which completes the flow. *)
Lemma quorum_advances_execution_witness :
  (snd (CreateApproval sample.started (sample.approve 1 10))
   = Ok (stored sample.started (sample.approve 1 10))
   /\ node_status sample.approved_once 1
      = Some ApprovalNodeExecutionStatus_APPROVAL_NODE_EXECUTION_STATUS_IN_PROGRESS
   /\ (forall id, id <> 1 ->
                  node_status sample.approved_once id = node_status sample.started id)
   /\ (forall id, flow_status sample.approved_once id = flow_status sample.started id))
  /\ (snd (CreateApproval sample.approved_once (sample.approve 1 11))
      = Ok (stored sample.approved_once (sample.approve 1 11))
      /\ node_status sample.approved_twice 1
         = Some ApprovalNodeExecutionStatus_APPROVAL_NODE_EXECUTION_STATUS_APPROVED
      /\ node_status sample.approved_twice 2
         = Some ApprovalNodeExecutionStatus_APPROVAL_NODE_EXECUTION_STATUS_IN_PROGRESS)
  /\ (snd (CreateApproval sample.approved_twice (sample.approve 2 12))
      = Ok (stored sample.approved_twice (sample.approve 2 12))
      /\ node_status (fst (CreateApproval sample.approved_twice (sample.approve 2 12))) 2
         = Some ApprovalNodeExecutionStatus_APPROVAL_NODE_EXECUTION_STATUS_APPROVED
      /\ flow_status (fst (CreateApproval sample.approved_twice (sample.approve 2 12))) 1
         = Some ApprovalFlowExecutionStatus_APPROVED).
Proof.
  split; [|split].
  - refine (proj1 (quorum_advances_execution sample.started (sample.approve 1 10)
                     (sample.nodeExecution1
                        ApprovalNodeExecutionStatus_APPROVAL_NODE_EXECUTION_STATUS_IN_PROGRESS)
                     2 (sample.execution1 ApprovalFlowExecutionStatus_IN_PROGRESS)
                     _ _ _ _ _ _ _ _ _) _);
      try reflexivity; try discriminate.
    + repeat constructor; simpl; intuition discriminate.
    + simpl. intuition discriminate.
  - refine (proj1 (proj2 (proj2 (quorum_advances_execution sample.approved_once
                            (sample.approve 1 11)
                            (sample.nodeExecution1
                               ApprovalNodeExecutionStatus_APPROVAL_NODE_EXECUTION_STATUS_IN_PROGRESS)
                            2 (sample.execution1 ApprovalFlowExecutionStatus_IN_PROGRESS)
                            _ _ _ _ _ _ _ _ _)))
                   sample.node2
                   (sample.nodeExecution2
                      ApprovalNodeExecutionStatus_APPROVAL_NODE_EXECUTION_STATUS_PENDING)
                   _ _ _ _ _ _);
      try reflexivity; try discriminate.
    + repeat constructor; simpl; intuition discriminate.
    + simpl. intuition discriminate.
    + split; [right; left|]; reflexivity.
    + intros n [[<-|[<-|[]]] _] Hlt; vm_compute in Hlt |- *; discriminate.
  - refine (proj1 (proj2 (quorum_advances_execution sample.approved_twice
                            (sample.approve 2 12)
                            (sample.nodeExecution2
                               ApprovalNodeExecutionStatus_APPROVAL_NODE_EXECUTION_STATUS_IN_PROGRESS)
                            1 (sample.execution1 ApprovalFlowExecutionStatus_IN_PROGRESS)
                            _ _ _ _ _ _ _ _ _))
                   _ _);
      try reflexivity; try discriminate.
    + repeat constructor; simpl; intuition discriminate.
    + simpl. intuition discriminate.
    + intros n [[<-|[<-|[]]] _]; vm_compute; discriminate.
Defined.

(** The second of two equal requests runs on the store the first one left. *)
Lemma replayed_settles (s s1 : DB) (create : Approval.t)
    (ne ne1 : ApprovalNodeExecution.t) (req : Z) :
  Z.of_nat (List.length (approval s)) < 2 ^ 31 - 2 ->
  0 < Approval.NodeExecutionID create ->
  0 < Approval.UserID create ->
  Approval.Status create <> ApprovalStatus_APPROVAL_STATUS_UNSPECIFIED ->
  required_approvals s (ApprovalNodeExecution.NodeID ne) = Some req ->
  approval s1 = approval s ++ [stored s create] ->
  approval_node s1 = approval_node s ->
  getApprovalNodeExecution s1 (Approval.NodeExecutionID create) = Ok ne1 ->
  ApprovalNodeExecution.NodeID ne1 = ApprovalNodeExecution.NodeID ne ->
  decide_status (approved_count (decisions s create))
    (rejected_count (decisions s create)) req
  <> ApprovalNodeExecutionStatus_APPROVAL_NODE_EXECUTION_STATUS_IN_PROGRESS ->
  CreateApproval s1 create = settle s1 create ne1 req
  /\ decide_status (approved_count (decisions s1 create))
       (rejected_count (decisions s1 create)) req
     = decide_status (approved_count (decisions s create))
         (rejected_count (decisions s create)) req.
Proof.
  intros Hlen Hne Hu Hst Hreq Happ Hnodes Hfind1 Hnode1 Hsettled. split.
  - apply CreateApproval_settles; try assumption.
    + unfold required_approvals. rewrite Hnodes, Hnode1. exact Hreq.
    + rewrite Happ, length_app. simpl. lia.
  - rewrite (decisions_replayed s s1 create Happ).
    apply decide_status_replayed; [|assumption].
    unfold decisions. apply in_or_app. right. now left.
Qed.

(** C6, as the code has it.  CreateApproval detects no duplicate.  When a call
    has succeeded and settled the node execution (left it APPROVED or
    REJECTED), the same request succeeds again, stores a second approval row
    for the same node execution and user, and leaves the status of every node
    execution and of every flow execution as it was. *)
Theorem replay_on_settled_node_keeps_statuses
    (s s1 : DB) (create a1 : Approval.t) :
  Z.of_nat (List.length (approval s)) < 2 ^ 31 - 2 ->
  CreateApproval s create = (s1, Ok a1) ->
  node_status s1 (Approval.NodeExecutionID create)
  <> Some ApprovalNodeExecutionStatus_APPROVAL_NODE_EXECUTION_STATUS_IN_PROGRESS ->
  let s2 := fst (CreateApproval s1 create) in
  snd (CreateApproval s1 create) = Ok (stored s1 create)
  /\ approval s2 = approval s ++ [a1; stored s1 create]
  /\ (forall id, node_status s2 id = node_status s1 id)
  /\ (forall id, flow_status s2 id = flow_status s1 id).
Proof.
  intros Hlen H1 Hsettled.
  destruct (CreateApproval_ok_inv _ _ _ _ H1)
    as (Hne & Hu & Hst & ne & req & Hfind & Hreq).
  rewrite (CreateApproval_settles s create ne req) in H1 by (auto; lia).
  pose proof (node_status_found _ _ _ Hfind) as Hns.
  assert (Hid : ApprovalNodeExecution.ID ne = Approval.NodeExecutionID create).
  { unfold getApprovalNodeExecution in Hfind.
    destruct (find _ _) eqn:E; [|discriminate]. injection Hfind as ->.
    now apply find_key_eq in E. }
  unfold settle in H1.
  set (st := decide_status (approved_count (decisions s create))
               (rejected_count (decisions s create)) req) in *.
  set (tx0 := set_approval (approval s ++ [stored s create]) s) in *.
  assert (Hst3 : st = ApprovalNodeExecutionStatus_APPROVAL_NODE_EXECUTION_STATUS_REJECTED
                 \/ st = ApprovalNodeExecutionStatus_APPROVAL_NODE_EXECUTION_STATUS_APPROVED
                 \/ st = ApprovalNodeExecutionStatus_APPROVAL_NODE_EXECUTION_STATUS_IN_PROGRESS).
  { unfold st, decide_status.
    destruct (0 <? rejected_count (decisions s create)); [auto|].
    destruct (req <=? approved_count (decisions s create)); auto. }
  assert (Hfind_tx :
            getApprovalNodeExecution
              (update_node_execution_status st (Approval.NodeExecutionID create) tx0)
              (Approval.NodeExecutionID create)
            = Ok (ApprovalNodeExecution.with_Status st ne)).
  { rewrite (getApprovalNodeExecution_update tx0 st _ _ ne Hfind), Hid, Z.eqb_refl.
    reflexivity. }
  destruct Hst3 as [E|[E|E]]; rewrite E in H1, Hfind_tx.
  - (* REJECTED *)
    injection H1 as <- <-.
    match goal with |- context [CreateApproval ?x create] => set (S1 := x) end.
    destruct (replayed_settles s S1 create ne
                (ApprovalNodeExecution.with_Status
                   ApprovalNodeExecutionStatus_APPROVAL_NODE_EXECUTION_STATUS_REJECTED ne)
                req) as [Hrun Hsame]; try assumption; try reflexivity.
    { fold st. rewrite E. discriminate. }
    rewrite Hrun. unfold settle. rewrite Hsame. fold st. rewrite E.
    cbn [fst snd ApprovalNodeExecution.ExecutionID ApprovalNodeExecution.NodeID
         ApprovalNodeExecution.with_Status].
    split; [reflexivity|]. split; [|split].
    + unfold S1. simpl. rewrite <- app_assoc. reflexivity.
    + intros id. unfold S1, tx0. autorewrite with statuses.
      destruct (id =? Approval.NodeExecutionID create);
        destruct (node_status s id); reflexivity.
    + intros id. unfold S1, tx0. autorewrite with statuses.
      destruct (id =? ApprovalNodeExecution.ExecutionID ne);
        destruct (flow_status s id); reflexivity.
  - (* APPROVED *)
    set (tx := update_node_execution_status
                 ApprovalNodeExecutionStatus_APPROVAL_NODE_EXECUTION_STATUS_APPROVED
                 (Approval.NodeExecutionID create) tx0) in *.
    destruct (0 <? next_node_id tx (ApprovalNodeExecution.ExecutionID ne)
                     (ApprovalNodeExecution.NodeID ne)) eqn:Hn.
    + destruct (node_execution_of tx (ApprovalNodeExecution.ExecutionID ne)
                  (next_node_id tx (ApprovalNodeExecution.ExecutionID ne)
                     (ApprovalNodeExecution.NodeID ne))) as [nx|] eqn:Hx; [|discriminate].
      injection H1 as <- <-.
      assert (Hneq : (Approval.NodeExecutionID create =? nx) = false).
      { destruct (Approval.NodeExecutionID create =? nx) eqn:Heq; [|reflexivity].
        exfalso. apply Hsettled. unfold tx, tx0. autorewrite with statuses.
        rewrite Heq, Z.eqb_refl, Hns. reflexivity. }
      match goal with |- context [CreateApproval ?x create] => set (S1 := x) end.
      destruct (replayed_settles s S1 create ne
                  (ApprovalNodeExecution.with_Status
                     ApprovalNodeExecutionStatus_APPROVAL_NODE_EXECUTION_STATUS_APPROVED ne)
                  req) as [Hrun Hsame]; try assumption; try reflexivity.
      { unfold S1. rewrite (getApprovalNodeExecution_update tx _ _ _ _ Hfind_tx).
        cbn [ApprovalNodeExecution.ID ApprovalNodeExecution.with_Status].
        rewrite Hid, Hneq. reflexivity. }
      { fold st. rewrite E. discriminate. }
      rewrite Hrun. unfold settle. rewrite Hsame. fold st. rewrite E.
      cbn [ApprovalNodeExecution.ExecutionID ApprovalNodeExecution.NodeID
           ApprovalNodeExecution.with_Status].
      unfold tx, tx0 in Hn, Hx. autorewrite with queries in Hn, Hx.
      unfold S1, tx, tx0. autorewrite with queries. rewrite Hn, Hx. cbn [fst snd].
      split; [reflexivity|]. split; [|split].
      * simpl. rewrite <- app_assoc. reflexivity.
      * intros id. autorewrite with statuses.
        destruct (id =? nx); destruct (id =? Approval.NodeExecutionID create);
          destruct (node_status s id); reflexivity.
      * intros id. reflexivity.
    + injection H1 as <- <-.
      match goal with |- context [CreateApproval ?x create] => set (S1 := x) end.
      destruct (replayed_settles s S1 create ne
                  (ApprovalNodeExecution.with_Status
                     ApprovalNodeExecutionStatus_APPROVAL_NODE_EXECUTION_STATUS_APPROVED ne)
                  req) as [Hrun Hsame]; try assumption; try reflexivity.
      { fold st. rewrite E. discriminate. }
      rewrite Hrun. unfold settle. rewrite Hsame. fold st. rewrite E.
      cbn [ApprovalNodeExecution.ExecutionID ApprovalNodeExecution.NodeID
           ApprovalNodeExecution.with_Status].
      unfold tx, tx0 in Hn. autorewrite with queries in Hn.
      unfold S1, tx, tx0. autorewrite with queries. rewrite Hn. cbn [fst snd].
      split; [reflexivity|]. split; [|split].
      * simpl. rewrite <- app_assoc. reflexivity.
      * intros id. autorewrite with statuses.
        destruct (id =? Approval.NodeExecutionID create);
          destruct (node_status s id); reflexivity.
      * intros id. autorewrite with statuses.
        destruct (id =? ApprovalNodeExecution.ExecutionID ne);
          destruct (flow_status s id); reflexivity.
  - (* IN_PROGRESS: the node is not settled *)
    injection H1 as <- <-. exfalso. apply Hsettled.
    unfold tx0. autorewrite with statuses. rewrite Z.eqb_refl, Hns. reflexivity.
Qed.

(** CreateApproval never reads the status of a flow execution. *)
Lemma CreateApproval_flow_blind (s : DB) (st : ApprovalFlowExecutionStatus)
    (executionID : Z) (create : Approval.t) :
  snd (CreateApproval (update_flow_execution_status st executionID s) create)
  = snd (CreateApproval s create)
  /\ approval (fst (CreateApproval (update_flow_execution_status st executionID s) create))
     = approval (fst (CreateApproval s create))
  /\ approval_node_execution
       (fst (CreateApproval (update_flow_execution_status st executionID s) create))
     = approval_node_execution (fst (CreateApproval s create)).
Proof.
  unfold CreateApproval. cbv zeta.
  autorewrite with queries.
  change (approval (update_flow_execution_status st executionID s)) with (approval s).
  change (getApprovals (update_flow_execution_status st executionID s))
    with (getApprovals s).
  destruct (Approval.NodeExecutionID create <=? 0); [repeat split|].
  destruct (Approval.UserID create <=? 0); [repeat split|].
  destruct (Approval.Status create); [repeat split| |];
    (destruct (getApprovalNodeExecution s (Approval.NodeExecutionID create)) as [ne|];
     [|repeat split]);
    (destruct (countApprovals _) as [a r]);
    change (required_approvals
              (set_approval ?l (update_flow_execution_status st executionID s)) ?n)
      with (required_approvals s n);
    change (required_approvals (set_approval ?l s) ?n) with (required_approvals s n);
    (destruct (required_approvals s (ApprovalNodeExecution.NodeID ne)) as [req|];
     [|repeat split]);
    (destruct (decide_status a r req); try (repeat split; reflexivity));
    autorewrite with queries;
    destruct (0 <? next_node_id s _ _); try (repeat split; reflexivity);
    destruct (node_execution_of s _ _); repeat split; reflexivity.
Qed.

(** CreateApproval never reads the status of a node execution. *)
Lemma CreateApproval_node_blind (s : DB) (st : ApprovalNodeExecutionStatus)
    (nodeExecutionID : Z) (create : Approval.t) :
  snd (CreateApproval (update_node_execution_status st nodeExecutionID s) create)
  = snd (CreateApproval s create)
  /\ approval (fst (CreateApproval (update_node_execution_status st nodeExecutionID s)
                      create))
     = approval (fst (CreateApproval s create))
  /\ approval_flow_execution
       (fst (CreateApproval (update_node_execution_status st nodeExecutionID s) create))
     = approval_flow_execution (fst (CreateApproval s create))
  /\ (is_ok (snd (CreateApproval s create)) = true ->
      node_status
        (fst (CreateApproval (update_node_execution_status st nodeExecutionID s) create))
        (Approval.NodeExecutionID create)
      = node_status (fst (CreateApproval s create)) (Approval.NodeExecutionID create)).
Proof.
  unfold CreateApproval. cbv zeta.
  rewrite getApprovalNodeExecution_update_gen.
  change (approval (update_node_execution_status st nodeExecutionID s)) with (approval s).
  change (getApprovals (update_node_execution_status st nodeExecutionID s))
    with (getApprovals s).
  destruct (Approval.NodeExecutionID create <=? 0);
    [repeat split; discriminate|].
  destruct (Approval.UserID create <=? 0); [repeat split; discriminate|].
  destruct (Approval.Status create); [repeat split; discriminate| |];
    (destruct (getApprovalNodeExecution s (Approval.NodeExecutionID create)) as [ne|];
     [|repeat split; discriminate]);
    (destruct (countApprovals _) as [a r]);
    (replace (ApprovalNodeExecution.NodeID
                (if ApprovalNodeExecution.ID ne =? nodeExecutionID
                 then ApprovalNodeExecution.with_Status st ne else ne))
       with (ApprovalNodeExecution.NodeID ne)
       by (destruct (ApprovalNodeExecution.ID ne =? nodeExecutionID); reflexivity));
    (replace (ApprovalNodeExecution.ExecutionID
                (if ApprovalNodeExecution.ID ne =? nodeExecutionID
                 then ApprovalNodeExecution.with_Status st ne else ne))
       with (ApprovalNodeExecution.ExecutionID ne)
       by (destruct (ApprovalNodeExecution.ID ne =? nodeExecutionID); reflexivity));
    change (required_approvals
              (set_approval ?l (update_node_execution_status st nodeExecutionID s)) ?n)
      with (required_approvals s n);
    change (required_approvals (set_approval ?l s) ?n) with (required_approvals s n);
    (destruct (required_approvals s (ApprovalNodeExecution.NodeID ne)) as [req|];
     [|repeat split; discriminate]);
    destruct (decide_status a r req);
    autorewrite with queries;
    try (destruct (0 <? next_node_id s _ _);
         [destruct (node_execution_of s _ _)|]);
    cbn [fst snd];
    (split; [reflexivity|]; split; [reflexivity|]; split; [reflexivity|]);
    try discriminate;
    intros _; autorewrite with statuses; rewrite ?Z.eqb_refl;
    repeat match goal with
           | |- context [if ?c then _ else _] => destruct c
           end;
    destruct (node_status s (Approval.NodeExecutionID create)); reflexivity.
Qed.

Lemma CreateApproval_error (s : DB) (create : Approval.t) (e : string) :
  snd (CreateApproval s create) = Err e -> In e CreateApproval_errors.
Proof.
  unfold CreateApproval, getApprovalNodeExecution, CreateApproval_errors. cbv zeta.
  destruct (Approval.NodeExecutionID create <=? 0); [intros [= <-]; simpl; auto|].
  destruct (Approval.UserID create <=? 0); [intros [= <-]; simpl; auto|].
  destruct (Approval.Status create); [intros [= <-]; simpl; auto| |];
    (destruct (find _ (approval_node_execution s)) as [ne|];
     [|intros [= <-]; simpl; auto]);
    (destruct (countApprovals _) as [a r]);
    (destruct (required_approvals _ _) as [req|];
     [|intros [= <-]; simpl; auto 10]);
    destruct (decide_status a r req); try discriminate;
    destruct (0 <? next_node_id _ _ _); try discriminate;
    destruct (node_execution_of _ _ _); try discriminate;
    intros [= <-]; simpl; auto 10.
Qed.

(** A successful CreateApproval appends the approval row it returns. *)
Lemma CreateApproval_appends (s s1 : DB) (create a : Approval.t) :
  CreateApproval s create = (s1, Ok a) -> approval s1 = approval s ++ [a].
Proof.
  unfold CreateApproval, getApprovalNodeExecution. cbv zeta.
  destruct (Approval.NodeExecutionID create <=? 0); [discriminate|].
  destruct (Approval.UserID create <=? 0); [discriminate|].
  destruct (Approval.Status create); [discriminate| |];
    (destruct (find _ (approval_node_execution s)) as [ne|]; [|discriminate]);
    (destruct (countApprovals _) as [x r]);
    (destruct (required_approvals _ _) as [req|]; [|discriminate]);
    destruct (decide_status x r req);
    try (destruct (0 <? next_node_id _ _ _);
         [destruct (node_execution_of _ _ _); [|discriminate]|]);
    intros [= <- <-]; reflexivity.
Qed.

(** UpdateApprovalFlowExecution sets the status of any execution it finds. *)
Lemma UpdateApprovalFlowExecution_overwrites (s : DB) (update : ApprovalFlowExecution.t) :
  0 < ApprovalFlowExecution.ID update ->
  flow_status s (ApprovalFlowExecution.ID update) <> None ->
  is_ok (snd (UpdateApprovalFlowExecution s update)) = true
  /\ flow_status (fst (UpdateApprovalFlowExecution s update))
       (ApprovalFlowExecution.ID update)
     = Some (ApprovalFlowExecution.Status update).
Proof.
  intros Hid Hsome. unfold UpdateApprovalFlowExecution.
  apply Z.leb_gt in Hid. rewrite Hid.
  unfold getApprovalFlowExecutionWithNodeExecutions, flow_status in *.
  destruct (find _ (approval_flow_execution s)) as [e|] eqn:E;
    [|simpl in Hsome; congruence].
  cbn [approval_flow_execution set_approval_flow_execution].
  rewrite (find_map_update ApprovalFlowExecution.ID) by reflexivity.
  rewrite E. pose proof (find_key_eq _ _ _ _ E) as [He _].
  cbn [option_map]. rewrite He, Z.eqb_refl.
  cbn [fst snd is_ok approval_flow_execution set_approval_flow_execution].
  split; [reflexivity|].
  rewrite (find_map_update ApprovalFlowExecution.ID) by reflexivity.
  rewrite E. cbn [option_map]. rewrite He, Z.eqb_refl. reflexivity.
Qed.

(** C6 fails as stated: user 10 approves node execution 1 (which needs two
    approvals) twice.  Both calls succeed, the second one moves the node
    execution from IN_PROGRESS to APPROVED, and two decisions are stored for
    the pair (1, 10). *)
Lemma replayed_decision_counterexample :
  let first := CreateApproval sample.started (sample.approve 1 10) in
  let second := CreateApproval (fst first) (sample.approve 1 10) in
  is_ok (snd first) = true
  /\ is_ok (snd second) = true
  /\ node_status (fst first) 1
     = Some ApprovalNodeExecutionStatus_APPROVAL_NODE_EXECUTION_STATUS_IN_PROGRESS
  /\ node_status (fst second) 1
     = Some ApprovalNodeExecutionStatus_APPROVAL_NODE_EXECUTION_STATUS_APPROVED
  /\ List.length (stored_decisions (fst second) 1 10) = 2%nat.
Proof. vm_compute. repeat split. Qed.

(** User 11 completes the quorum of node execution 1 and then repeats the
    request. *)
Lemma replay_on_settled_node_keeps_statuses_witness :
  let s2 := fst (CreateApproval sample.approved_twice (sample.approve 1 11)) in
  snd (CreateApproval sample.approved_twice (sample.approve 1 11))
  = Ok (stored sample.approved_twice (sample.approve 1 11))
  /\ approval s2
     = approval sample.approved_once
       ++ [stored sample.approved_once (sample.approve 1 11);
           stored sample.approved_twice (sample.approve 1 11)]
  /\ (forall id, node_status s2 id = node_status sample.approved_twice id)
  /\ (forall id, flow_status s2 id = flow_status sample.approved_twice id).
Proof.
  apply (replay_on_settled_node_keeps_statuses sample.approved_once
           sample.approved_twice (sample.approve 1 11)
           (stored sample.approved_once (sample.approve 1 11))).
  - reflexivity.
  - reflexivity.
  - discriminate.
Defined.

(** C7 fails as stated: in [sample.rejected] the execution is REJECTED and
    node execution 2 is still PENDING.  An approval recorded on node execution
    2 succeeds, is stored, approves the node execution and turns the execution
    APPROVED; UpdateApprovalFlowExecution puts the rejected execution back to
    IN_PROGRESS. *)
Lemma terminal_execution_counterexample :
  let after := CreateApproval sample.rejected (sample.approve 2 12) in
  flow_status sample.rejected 1 = Some ApprovalFlowExecutionStatus_REJECTED
  /\ is_ok (snd after) = true
  /\ List.length (approval (fst after)) = S (List.length (approval sample.rejected))
  /\ node_status sample.rejected 2
     = Some ApprovalNodeExecutionStatus_APPROVAL_NODE_EXECUTION_STATUS_PENDING
  /\ node_status (fst after) 2
     = Some ApprovalNodeExecutionStatus_APPROVAL_NODE_EXECUTION_STATUS_APPROVED
  /\ flow_status (fst after) 1 = Some ApprovalFlowExecutionStatus_APPROVED
  /\ flow_status
       (fst (UpdateApprovalFlowExecution sample.rejected
               (sample.execution1 ApprovalFlowExecutionStatus_IN_PROGRESS))) 1
     = Some ApprovalFlowExecutionStatus_IN_PROGRESS.
Proof. vm_compute. repeat split. Qed.

(** C7, as the code has it.  The store does not freeze a terminal execution.
    CreateApproval never reads the status of a flow execution: whatever status
    an execution is given beforehand, the call returns the same result, stores
    the same approval rows and leaves the same node executions; a successful
    call appends the approval row it returns.  UpdateApprovalFlowExecution
    sets the status of every execution it finds to the requested one. *)
Theorem terminal_execution_is_not_frozen
    (s : DB) (st : ApprovalFlowExecutionStatus) (executionID : Z) :
  (forall create,
      let frozen := update_flow_execution_status st executionID s in
      snd (CreateApproval frozen create) = snd (CreateApproval s create)
      /\ approval (fst (CreateApproval frozen create))
         = approval (fst (CreateApproval s create))
      /\ approval_node_execution (fst (CreateApproval frozen create))
         = approval_node_execution (fst (CreateApproval s create)))
  /\ (forall create s1 a,
         CreateApproval s create = (s1, Ok a) -> approval s1 = approval s ++ [a])
  /\ (forall update,
         0 < ApprovalFlowExecution.ID update ->
         flow_status s (ApprovalFlowExecution.ID update) <> None ->
         is_ok (snd (UpdateApprovalFlowExecution s update)) = true
         /\ flow_status (fst (UpdateApprovalFlowExecution s update))
              (ApprovalFlowExecution.ID update)
            = Some (ApprovalFlowExecution.Status update)).
Proof.
  split; [|split].
  - intros create. apply CreateApproval_flow_blind.
  - intros create s1 a. apply CreateApproval_appends.
  - apply UpdateApprovalFlowExecution_overwrites.
Qed.

(** The rejected execution of the sample: an approval of node execution 2 is
    appended, and the execution is set back to IN_PROGRESS. *)
Lemma terminal_execution_is_not_frozen_witness :
  approval (fst (CreateApproval sample.rejected (sample.approve 2 12)))
  = approval sample.rejected ++ [stored sample.rejected (sample.approve 2 12)]
  /\ (is_ok (snd (UpdateApprovalFlowExecution sample.rejected
                    (sample.execution1 ApprovalFlowExecutionStatus_IN_PROGRESS))) = true
      /\ flow_status
           (fst (UpdateApprovalFlowExecution sample.rejected
                   (sample.execution1 ApprovalFlowExecutionStatus_IN_PROGRESS))) 1
         = Some ApprovalFlowExecutionStatus_IN_PROGRESS).
Proof.
  destruct (terminal_execution_is_not_frozen sample.rejected
              ApprovalFlowExecutionStatus_REJECTED 1) as (_ & Happend & Hupdate).
  split.
  - apply (Happend (sample.approve 2 12)
             (fst (CreateApproval sample.rejected (sample.approve 2 12)))).
    reflexivity.
  - apply (Hupdate (sample.execution1 ApprovalFlowExecutionStatus_IN_PROGRESS)).
    + reflexivity.
    + discriminate.
Defined.

(** C8 fails as stated: in [sample.started] node execution 1 is IN_PROGRESS and
    node execution 2, one position further, is PENDING.  A decision on node
    execution 2 is accepted, approves it and, no node following, turns the
    execution APPROVED while node execution 1 is still IN_PROGRESS. *)
Lemma decision_off_position_counterexample :
  let after := CreateApproval sample.started (sample.approve 2 12) in
  node_status sample.started 1
  = Some ApprovalNodeExecutionStatus_APPROVAL_NODE_EXECUTION_STATUS_IN_PROGRESS
  /\ node_status sample.started 2
     = Some ApprovalNodeExecutionStatus_APPROVAL_NODE_EXECUTION_STATUS_PENDING
  /\ is_ok (snd after) = true
  /\ node_status (fst after) 2
     = Some ApprovalNodeExecutionStatus_APPROVAL_NODE_EXECUTION_STATUS_APPROVED
  /\ node_status (fst after) 1
     = Some ApprovalNodeExecutionStatus_APPROVAL_NODE_EXECUTION_STATUS_IN_PROGRESS
  /\ flow_status (fst after) 1 = Some ApprovalFlowExecutionStatus_APPROVED.
Proof. vm_compute. repeat split. Qed.

(** C8, as the code has it.  CreateApproval addresses a node execution by its
    id and reads neither a position nor a status.  Whatever status a node
    execution is given beforehand, the call returns the same result, stores the
    same approval rows, leaves the same flow executions and, when it succeeds,
    the same status on the node execution it addresses.  Its errors are the
    three validation errors, the missing node execution, the missing node and
    the missing node execution of the next node. *)
Theorem decisions_are_not_gated_by_position
    (s : DB) (st : ApprovalNodeExecutionStatus) (nodeExecutionID : Z)
    (create : Approval.t) :
  let other := update_node_execution_status st nodeExecutionID s in
  snd (CreateApproval other create) = snd (CreateApproval s create)
  /\ approval (fst (CreateApproval other create))
     = approval (fst (CreateApproval s create))
  /\ approval_flow_execution (fst (CreateApproval other create))
     = approval_flow_execution (fst (CreateApproval s create))
  /\ (is_ok (snd (CreateApproval s create)) = true ->
      node_status (fst (CreateApproval other create)) (Approval.NodeExecutionID create)
      = node_status (fst (CreateApproval s create)) (Approval.NodeExecutionID create))
  /\ (forall e, snd (CreateApproval s create) = Err e -> In e CreateApproval_errors).
Proof.
  intros other.
  destruct (CreateApproval_node_blind s st nodeExecutionID create)
    as (H1 & H2 & H3 & H4).
  repeat split; try assumption.
  apply CreateApproval_error.
Qed.

(** Node execution 2 of the sample, PENDING or APPROVED beforehand, ends
    APPROVED alike; a request without a user fails with a validation error. *)
Lemma decisions_are_not_gated_by_position_witness :
  node_status
    (fst (CreateApproval
            (update_node_execution_status
               ApprovalNodeExecutionStatus_APPROVAL_NODE_EXECUTION_STATUS_APPROVED 2
               sample.started)
            (sample.approve 2 12))) 2
  = node_status (fst (CreateApproval sample.started (sample.approve 2 12))) 2
  /\ In "user ID is required"%string CreateApproval_errors.
Proof.
  split.
  - apply (decisions_are_not_gated_by_position sample.started
             ApprovalNodeExecutionStatus_APPROVAL_NODE_EXECUTION_STATUS_APPROVED 2
             (sample.approve 2 12)).
    reflexivity.
  - apply (decisions_are_not_gated_by_position sample.started
             ApprovalNodeExecutionStatus_APPROVAL_NODE_EXECUTION_STATUS_APPROVED 2
             (sample.approve 2 0)).
    reflexivity.
Defined.

(** *** Beginning an execution *)

Lemma insert_node_executions_frame (executionID : Z) (nodes l : list ApprovalNode.t)
    (create : ApprovalFlowExecution.t) (tx : DB) :
  approval_flow_execution (fold_left (insert_node_execution executionID nodes create) l tx)
  = approval_flow_execution tx.
Proof.
  revert tx. induction l as [|n l IH]; intros tx; simpl; [reflexivity|].
  rewrite IH. reflexivity.
Qed.


(** A failed CreateApprovalFlowExecution leaves the store as it was. *)
Lemma CreateApprovalFlowExecution_rollback (s : DB) (create : ApprovalFlowExecution.t) :
  is_ok (snd (CreateApprovalFlowExecution s create)) = false ->
  fst (CreateApprovalFlowExecution s create) = s.
Proof.
  unfold CreateApprovalFlowExecution. cbv zeta.
  destruct (ApprovalFlowExecution.FlowID create <=? 0); [reflexivity|].
  destruct (ApprovalFlowExecution.IssueID create <=? 0); [reflexivity|].
  destruct (ApprovalFlowExecution.SensitivityLevel create); [reflexivity| | |];
    (destruct (ApprovalFlowExecution.Status create); [reflexivity| | | | |]);
    (destruct (getApprovalFlowWithNodes s (ApprovalFlowExecution.FlowID create));
     [|reflexivity]);
    destruct (getApprovalFlowExecutionWithNodeExecutions _ _);
    (discriminate || reflexivity).
Qed.

(** In a store whose execution ids are positive int32 values every call of
    CreateApprovalFlowExecution fails and leaves the store as it was. *)
Lemma CreateApprovalFlowExecution_fails (s : DB) (create : ApprovalFlowExecution.t) :
  int32_ids ApprovalFlowExecution.ID (approval_flow_execution s) ->
  exists e, CreateApprovalFlowExecution s create = (s, Err e).
Proof.
  intros Hids. unfold CreateApprovalFlowExecution. cbv zeta.
  unfold getApprovalFlowExecutionWithNodeExecutions.
  rewrite (reread_misses_uncommitted_row ApprovalFlowExecution.ID _ Hids).
  destruct (ApprovalFlowExecution.FlowID create <=? 0); [eexists; reflexivity|].
  destruct (ApprovalFlowExecution.IssueID create <=? 0); [eexists; reflexivity|].
  destruct (ApprovalFlowExecution.SensitivityLevel create);
    [eexists; reflexivity| | |];
    (destruct (ApprovalFlowExecution.Status create); [eexists; reflexivity| | | | |]);
    destruct (getApprovalFlowWithNodes s (ApprovalFlowExecution.FlowID create));
    eexists; reflexivity.
Qed.


(** A successful CreateApprovalFlowExecution appends the execution row of the
    request. *)
Lemma CreateApprovalFlowExecution_appends (s : DB) (create : ApprovalFlowExecution.t) :
  is_ok (snd (CreateApprovalFlowExecution s create)) = true ->
  approval_flow_execution (fst (CreateApprovalFlowExecution s create))
  = approval_flow_execution s ++ [execution_row s create].
Proof.
  unfold CreateApprovalFlowExecution. cbv zeta.
  destruct (ApprovalFlowExecution.FlowID create <=? 0); [discriminate|].
  destruct (ApprovalFlowExecution.IssueID create <=? 0); [discriminate|].
  destruct (ApprovalFlowExecution.SensitivityLevel create) eqn:Hl; [discriminate| | |];
    (destruct (ApprovalFlowExecution.Status create) eqn:Hs; [discriminate| | | | |]);
    (destruct (getApprovalFlowWithNodes s (ApprovalFlowExecution.FlowID create));
     [|discriminate]);
    (destruct (getApprovalFlowExecutionWithNodeExecutions _ _); [|discriminate]);
    intros _; cbn [fst]; rewrite insert_node_executions_frame;
    unfold execution_row; rewrite Hl, Hs; reflexivity.
Qed.



End engine_facts.

(** ** The gate *)

Module gate_facts.
Import store engine store_facts plancheck.

(** The newest execution of an issue heads the list Check reads. *)
Lemma newest_execution_listed (s : DB) (issue : Issue.t)
    (before after : list ApprovalFlowExecution.t) (execution : ApprovalFlowExecution.t) :
  0 < Issue.ID issue ->
  approval_flow_execution s = before ++ execution :: after ->
  ApprovalFlowExecution.IssueID execution = Issue.ID issue ->
  (forall e, In e after -> ApprovalFlowExecution.IssueID e <> Issue.ID issue) ->
  exists rest,
    ListApprovalFlowExecutions s (issue_filter issue)
    = ApprovalFlowExecution.with_NodeExecutions
        (getApprovalNodeExecutions s (ApprovalFlowExecution.ID execution)) execution
      :: rest.
Proof.
  intros Hpos Htable Hissue Hafter.
  unfold ListApprovalFlowExecutions, filter_. rewrite Htable, filter_app.
  assert (Hp : execution_matches (issue_filter issue) execution = true).
  { unfold execution_matches, issue_filter. simpl.
    apply Z.ltb_lt in Hpos. rewrite Hpos, Hissue, Z.eqb_refl. reflexivity. }
  assert (Hnone : filter (execution_matches (issue_filter issue)) after = []).
  { clear Htable. induction after as [|e l IH]; cbn [filter]; [reflexivity|].
    replace (execution_matches (issue_filter issue) e) with false.
    - apply IH. intros x Hx. apply Hafter. now right.
    - symmetry. unfold execution_matches, issue_filter. simpl.
      apply Z.ltb_lt in Hpos. rewrite Hpos.
      replace (ApprovalFlowExecution.IssueID e =? Issue.ID issue) with false;
        [reflexivity|].
      symmetry. apply Z.eqb_neq. apply Hafter. now left. }
  cbn [filter]. rewrite Hp, Hnone, rev_app_distr. cbn [rev app map].
  eexists. reflexivity.
Qed.

(** When the switch on the newest execution decides nothing, as for a
    CANCELLED one, Check goes on as for an issue without execution: the stub
    parser and detector yield one change of level HIGH, and Check asks for an
    enabled flow of that level and for a new execution of it. *)
Lemma Check_cancelled_goes_on (GetIssue : Z -> result Issue.t) (s : DB) (plan : Plan.t)
    (issue : Issue.t) (execution : ApprovalFlowExecution.t)
    (rest : list ApprovalFlowExecution.t) :
  GetIssue (Plan.IssueID plan) = Ok issue ->
  ListApprovalFlowExecutions s (issue_filter issue) = execution :: rest ->
  ApprovalFlowExecution.Status execution = ApprovalFlowExecutionStatus_CANCELLED ->
  Check GetIssue s plan
  = match ListApprovalFlows s
            (Some (ListApprovalFlowsFilter.mk
                     SensitiveDataLevel_SENSITIVE_DATA_LEVEL_HIGH (Some true))) with
    | [] =>
      (s, Some ("no enabled approval flow found for sensitivity level "
                ++ "SENSITIVE_DATA_LEVEL_HIGH. Cannot execute the plan")%string)
    | flow0 :: _ =>
      match CreateApprovalFlowExecution s
              (ApprovalFlowExecution.mk 0 (ApprovalFlow.ID flow0)
                 (Issue.ID issue) SensitiveDataLevel_SENSITIVE_DATA_LEVEL_HIGH
                 ApprovalFlowExecutionStatus_IN_PROGRESS []
                 (Issue.CreatorID issue) (Issue.CreatorID issue)) with
      | (s', Err e) =>
        (s', Some ("failed to create approval flow execution: " ++ e)%string)
      | (s', Ok created) =>
        (s', Some ("sensitive data change requires approval. Approval flow "
                   ++ strings.fmt_d (ApprovalFlowExecution.ID created)
                   ++ " has been created and is currently in progress")%string)
      end
    end.
Proof.
  intros Hget Hlist Hst.
  unfold Check. rewrite Hget. fold (issue_filter issue). rewrite Hlist, Hst.
  reflexivity.
Qed.

(** C2 fails as stated: in both stores the execution of issue 5 is CANCELLED,
    and the verdicts differ.  With an enabled flow of level HIGH the gate tries
    to begin a new execution and reports that this failed; with no such flow
    it reports that no flow is enabled.  Neither verdict is the one of a
    cancelled execution. *)
Lemma cancelled_execution_counterexample :
  flow_status sample.cancelled 1 = Some ApprovalFlowExecutionStatus_CANCELLED
  /\ Check sample.GetIssue sample.cancelled sample.plan5
     = (sample.cancelled,
        Some ("failed to create approval flow execution: "
              ++ "failed to retrieve newly created approval flow execution: "
              ++ "approval flow execution not found")%string)
  /\ flow_status sample.cancelled_idle 1 = Some ApprovalFlowExecutionStatus_CANCELLED
  /\ Check sample.GetIssue sample.cancelled_idle sample.plan5
     = (sample.cancelled_idle,
        Some ("no enabled approval flow found for sensitivity level "
              ++ "SENSITIVE_DATA_LEVEL_HIGH. Cannot execute the plan")%string).
Proof. vm_compute. repeat split. Qed.

(** C2, as the code has it.  When the newest execution of the issue is not
    CANCELLED, the verdict is the one of its status and the store is left as
    it is: APPROVED admits, REJECTED denies, PENDING and IN_PROGRESS (and an
    unspecified status) block with the status in the reason.  A CANCELLED
    execution is none the switch knows: the check goes on as for an issue
    without execution.  It never admits the plan, and in a store whose
    execution ids are positive int32 values it creates no execution: without
    an enabled flow of level HIGH it reports that no flow is enabled, and with
    one it reports that the execution could not be created. *)
Theorem gate_verdict_follows_status
    (GetIssue : Z -> result Issue.t) (s : DB) (plan : Plan.t) (issue : Issue.t)
    (before after : list ApprovalFlowExecution.t) (execution : ApprovalFlowExecution.t) :
  GetIssue (Plan.IssueID plan) = Ok issue ->
  0 < Issue.ID issue ->
  approval_flow_execution s = before ++ execution :: after ->
  ApprovalFlowExecution.IssueID execution = Issue.ID issue ->
  (forall e, In e after -> ApprovalFlowExecution.IssueID e <> Issue.ID issue) ->
  (ApprovalFlowExecution.Status execution <> ApprovalFlowExecutionStatus_CANCELLED ->
   Check GetIssue s plan = (s, verdict (ApprovalFlowExecution.Status execution)))
  /\ (ApprovalFlowExecution.Status execution = ApprovalFlowExecutionStatus_CANCELLED ->
      snd (Check GetIssue s plan) <> None
      /\ (int32_ids ApprovalFlowExecution.ID (approval_flow_execution s) ->
          fst (Check GetIssue s plan) = s
          /\ (ListApprovalFlows s
                (Some (ListApprovalFlowsFilter.mk
                         SensitiveDataLevel_SENSITIVE_DATA_LEVEL_HIGH (Some true)))
              = [] ->
              snd (Check GetIssue s plan)
              = Some ("no enabled approval flow found for sensitivity level "
                      ++ "SENSITIVE_DATA_LEVEL_HIGH. Cannot execute the plan")%string)
          /\ (ListApprovalFlows s
                (Some (ListApprovalFlowsFilter.mk
                         SensitiveDataLevel_SENSITIVE_DATA_LEVEL_HIGH (Some true)))
              <> [] ->
              exists e,
                snd (Check GetIssue s plan)
                = Some ("failed to create approval flow execution: " ++ e)%string))).
Proof.
  intros Hget Hpos Htable Hissue Hafter.
  destruct (newest_execution_listed s issue before after execution)
    as [rest Hlist]; try assumption.
  split.
  - intros Hnot.
    unfold Check. rewrite Hget. fold (issue_filter issue). rewrite Hlist.
    cbn [ApprovalFlowExecution.Status ApprovalFlowExecution.with_NodeExecutions].
    destruct (ApprovalFlowExecution.Status execution); try reflexivity.
    congruence.
  - intros Hst.
    rewrite (Check_cancelled_goes_on GetIssue s plan issue _ _ Hget Hlist Hst).
    split.
    + destruct (ListApprovalFlows s _) as [|flow0 flows]; [discriminate|].
      destruct (CreateApprovalFlowExecution s _) as [s' [created|e]]; discriminate.
    + intros Hids.
      destruct (ListApprovalFlows s _) as [|flow0 flows].
      * cbn [fst snd]. split; [reflexivity|]. split; [reflexivity|congruence].
      * destruct (engine_facts.CreateApprovalFlowExecution_fails s
                    (ApprovalFlowExecution.mk 0 (ApprovalFlow.ID flow0)
                       (Issue.ID issue) SensitiveDataLevel_SENSITIVE_DATA_LEVEL_HIGH
                       ApprovalFlowExecutionStatus_IN_PROGRESS []
                       (Issue.CreatorID issue) (Issue.CreatorID issue)) Hids)
          as [e He].
        rewrite He. cbn [fst snd]. split; [reflexivity|].
        split; [discriminate|]. intros _. exists e. reflexivity.
Qed.

(** The gate on issue 5 of the sample while its execution is IN_PROGRESS. *)
Lemma gate_verdict_follows_status_witness :
  Check sample.GetIssue sample.started sample.plan5
  = (sample.started,
     Some ("sensitive data change requires approval. Approval flow is currently "
           ++ "IN_PROGRESS")%string).
Proof.
  refine (proj1 (gate_verdict_follows_status sample.GetIssue sample.started
                   sample.plan5 sample.issue5 []
                   [] (sample.execution1 ApprovalFlowExecutionStatus_IN_PROGRESS)
                   _ _ _ _ _) _).
  - reflexivity.
  - reflexivity.
  - reflexivity.
  - reflexivity.
  - intros e [].
  - discriminate.
Defined.

(** *** Flow selection *)

Lemma SensitiveDataLevel_eqb_eq (a b : SensitiveDataLevel) :
  SensitiveDataLevel_eqb a b = true <-> a = b.
Proof.
  unfold SensitiveDataLevel_eqb. rewrite Z.eqb_eq.
  split; [|now intros ->]. destruct a, b; simpl; congruence.
Qed.

Lemma select_flow_first (parent : string) (level : SensitiveDataLevel)
    (before after : list service.v1.ApprovalFlow.t) (flow : service.v1.ApprovalFlow.t) :
  service.v1.ApprovalFlow.Level flow = level ->
  (forall f, In f before -> service.v1.ApprovalFlow.Level f <> level) ->
  service.select_flow parent (before ++ flow :: after) level = Some flow.
Proof.
  intros Hlevel Hbefore. unfold service.select_flow.
  induction before as [|f l IH]; simpl.
  - apply SensitiveDataLevel_eqb_eq in Hlevel. now rewrite Hlevel.
  - destruct (SensitiveDataLevel_eqb (service.v1.ApprovalFlow.Level f) level) eqn:E.
    + apply SensitiveDataLevel_eqb_eq in E. exfalso. apply (Hbefore f); simpl; auto.
    + apply IH. intros x Hx. apply Hbefore. now right.
Qed.

Lemma select_flow_default (parent : string) (level : SensitiveDataLevel)
    (flows : list service.v1.ApprovalFlow.t) :
  (forall f, In f flows -> service.v1.ApprovalFlow.Level f <> level) ->
  service.select_flow parent flows level = service.getDefaultApprovalFlow parent level.
Proof.
  intros Hnone. unfold service.select_flow.
  destruct (find _ flows) as [f|] eqn:E; [|reflexivity].
  apply find_some in E as [Hin Hl]. apply SensitiveDataLevel_eqb_eq in Hl.
  exfalso. now apply (Hnone f).
Qed.

Lemma select_flow_level (parent : string) (level : SensitiveDataLevel)
    (flows : list service.v1.ApprovalFlow.t) (flow : service.v1.ApprovalFlow.t) :
  service.select_flow parent flows level = Some flow ->
  service.v1.ApprovalFlow.Level flow = level.
Proof.
  unfold service.select_flow.
  destruct (find _ flows) as [f|] eqn:E.
  - intros [= <-]. apply find_some in E as [_ Hl].
    now apply SensitiveDataLevel_eqb_eq.
  - destruct level; simpl; intros [= <-]; reflexivity.
Qed.

(** The flows the gate lists are enabled flows of the level it asks for. *)
Lemma ListApprovalFlows_enabled_level (s : DB) (level : SensitiveDataLevel)
    (flow0 : ApprovalFlow.t) :
  level <> SensitiveDataLevel_SENSITIVE_DATA_LEVEL_UNSPECIFIED ->
  In flow0 (ListApprovalFlows s (Some (ListApprovalFlowsFilter.mk level (Some true)))) ->
  exists flow,
    In flow (approval_flow s)
    /\ ApprovalFlow.ID flow = ApprovalFlow.ID flow0
    /\ ApprovalFlow.Enabled flow = true
    /\ ApprovalFlow.SensitivityLevel flow = level.
Proof.
  intros Hlevel Hin. unfold ListApprovalFlows, filter_ in Hin.
  apply in_map_iff in Hin as (f & <- & Hf).
  apply in_rev, filter_In in Hf as [Hf Hm].
  exists f. split; [assumption|]. split; [reflexivity|].
  unfold flow_matches in Hm. cbn [ListApprovalFlowsFilter.SensitivityLevel
                                   ListApprovalFlowsFilter.Enabled] in Hm.
  apply andb_true_iff in Hm as [Hl He].
  split.
  - destruct (ApprovalFlow.Enabled f); [reflexivity|discriminate].
  - destruct level; [congruence| | |]; now apply SensitiveDataLevel_eqb_eq in Hl.
Qed.

(** Check leaves the store as it is, or begins one execution of level HIGH on
    an enabled flow of level HIGH. *)
Lemma Check_begins_exact_level (GetIssue : Z -> result Issue.t) (s : DB) (plan : Plan.t) :
  fst (Check GetIssue s plan) = s
  \/ exists flow row,
       In flow (approval_flow s)
       /\ ApprovalFlow.Enabled flow = true
       /\ ApprovalFlow.SensitivityLevel flow
          = SensitiveDataLevel_SENSITIVE_DATA_LEVEL_HIGH
       /\ ApprovalFlowExecution.FlowID row = ApprovalFlow.ID flow
       /\ ApprovalFlowExecution.SensitivityLevel row
          = SensitiveDataLevel_SENSITIVE_DATA_LEVEL_HIGH
       /\ approval_flow_execution (fst (Check GetIssue s plan))
          = approval_flow_execution s ++ [row].
Proof.
  unfold Check.
  destruct (GetIssue (Plan.IssueID plan)) as [issue|]; [|now left].
  cbv zeta beta.
  assert (Hnew :
    forall flows,
      flows = ListApprovalFlows s
                (Some (ListApprovalFlowsFilter.mk
                         SensitiveDataLevel_SENSITIVE_DATA_LEVEL_HIGH (Some true))) ->
      forall r : DB * option string,
      r = match flows with
          | [] =>
            (s, Some ("no enabled approval flow found for sensitivity level "
                      ++ SensitiveDataLevel_String
                           SensitiveDataLevel_SENSITIVE_DATA_LEVEL_HIGH
                      ++ ". Cannot execute the plan")%string)
          | flow0 :: _ =>
            match CreateApprovalFlowExecution s
                    (ApprovalFlowExecution.mk 0 (ApprovalFlow.ID flow0)
                       (Issue.ID issue) SensitiveDataLevel_SENSITIVE_DATA_LEVEL_HIGH
                       ApprovalFlowExecutionStatus_IN_PROGRESS []
                       (Issue.CreatorID issue) (Issue.CreatorID issue)) with
            | (s', Err e) =>
              (s', Some ("failed to create approval flow execution: " ++ e)%string)
            | (s', Ok execution) =>
              (s', Some ("sensitive data change requires approval. Approval flow "
                         ++ strings.fmt_d (ApprovalFlowExecution.ID execution)
                         ++ " has been created and is currently in progress")%string)
            end
          end ->
      fst r = s
      \/ exists flow row,
           In flow (approval_flow s)
           /\ ApprovalFlow.Enabled flow = true
           /\ ApprovalFlow.SensitivityLevel flow
              = SensitiveDataLevel_SENSITIVE_DATA_LEVEL_HIGH
           /\ ApprovalFlowExecution.FlowID row = ApprovalFlow.ID flow
           /\ ApprovalFlowExecution.SensitivityLevel row
              = SensitiveDataLevel_SENSITIVE_DATA_LEVEL_HIGH
           /\ approval_flow_execution (fst r) = approval_flow_execution s ++ [row]).
  { intros flows Hflows r ->. destruct flows as [|flow0 rest]; [now left|].
    set (create := ApprovalFlowExecution.mk 0 (ApprovalFlow.ID flow0) (Issue.ID issue)
                     SensitiveDataLevel_SENSITIVE_DATA_LEVEL_HIGH
                     ApprovalFlowExecutionStatus_IN_PROGRESS []
                     (Issue.CreatorID issue) (Issue.CreatorID issue)).
    pose proof (engine_facts.CreateApprovalFlowExecution_appends s create) as Hrow.
    pose proof (engine_facts.CreateApprovalFlowExecution_rollback s create) as Hback.
    destruct (CreateApprovalFlowExecution s create) as [s' [execution|e]]; cbn [fst snd] in *.
    - right.
      destruct (ListApprovalFlows_enabled_level s
                  SensitiveDataLevel_SENSITIVE_DATA_LEVEL_HIGH flow0)
        as (flow & Hin & Hid & Hen & Hl); [discriminate|rewrite <- Hflows; now left|].
      exists flow, (execution_row s create).
      repeat split; try assumption; [now symmetry|].
      now apply Hrow.
    - left. now apply Hback. }
  destruct (ListApprovalFlowExecutions s _) as [|execution rest].
  - eapply Hnew; reflexivity.
  - destruct (ApprovalFlowExecution.Status execution); try (now left).
    eapply Hnew; reflexivity.
Qed.

Lemma filter_none {A} (p : A -> bool) (l : list A) :
  (forall x, In x l -> p x = false) -> filter p l = [].
Proof.
  induction l as [|x l IH]; simpl; [reflexivity|].
  intros H. rewrite (H x) by now left. apply IH. intros y Hy. apply H. now right.
Qed.

(** With no execution for the issue and no enabled flow of level HIGH the gate
    blocks the plan: it tries no other level and builds no default. *)
Lemma Check_no_flow (GetIssue : Z -> result Issue.t) (s : DB) (plan : Plan.t)
    (issue : Issue.t) :
  GetIssue (Plan.IssueID plan) = Ok issue ->
  0 < Issue.ID issue ->
  (forall e, In e (approval_flow_execution s) ->
             ApprovalFlowExecution.IssueID e <> Issue.ID issue) ->
  (forall f, In f (approval_flow s) -> ApprovalFlow.Enabled f = true ->
             ApprovalFlow.SensitivityLevel f
             <> SensitiveDataLevel_SENSITIVE_DATA_LEVEL_HIGH) ->
  Check GetIssue s plan
  = (s, Some ("no enabled approval flow found for sensitivity level "
              ++ "SENSITIVE_DATA_LEVEL_HIGH. Cannot execute the plan")%string).
Proof.
  intros Hget Hpos Hnone Hflows.
  assert (Hnil : ListApprovalFlows s
                   (Some (ListApprovalFlowsFilter.mk
                            SensitiveDataLevel_SENSITIVE_DATA_LEVEL_HIGH (Some true)))
                 = []).
  { unfold ListApprovalFlows, filter_.
    rewrite (filter_none _ (approval_flow s)); [reflexivity|].
    intros f Hf. unfold flow_matches.
    cbn [ListApprovalFlowsFilter.SensitivityLevel ListApprovalFlowsFilter.Enabled].
    destruct (ApprovalFlow.Enabled f) eqn:He; [|apply andb_false_r].
    specialize (Hflows f Hf He).
    destruct (ApprovalFlow.SensitivityLevel f); try reflexivity. congruence. }
  unfold Check. rewrite Hget.
  unfold ListApprovalFlowExecutions, filter_.
  rewrite (filter_none _ (approval_flow_execution s)).
  - cbv zeta beta. cbn [rev map].
    cbn -[ListApprovalFlows CreateApprovalFlowExecution String.append strings.fmt_d].
    rewrite Hnil. reflexivity.
  - intros e He. unfold execution_matches. simpl.
    apply Z.ltb_lt in Hpos. rewrite Hpos.
    replace (ApprovalFlowExecution.IssueID e =? Issue.ID issue) with false;
      [reflexivity|].
    symmetry. apply Z.eqb_neq. now apply Hnone.
Qed.

Section ServiceFacts.

Variable regexp_MatchString : string -> string -> bool.
Variable extractTablesAndFields : string -> result (list string * list string).
Variable ListSensitiveDataRules : string -> result (list service.v1.SensitiveDataRule.t).
Variable ListApprovalFlows : string -> result (list service.v1.ApprovalFlow.t).

(** The flow EvaluateSensitiveDataChange answers with is the one [select_flow]
    picks among the flows of the project, and none for an unspecified level. *)
Lemma EvaluateSensitiveDataChange_selects
    (request : service.v1.EvaluateSensitiveDataChangeRequest.t)
    (response : service.v1.EvaluateSensitiveDataChangeResponse.t) :
  service.EvaluateSensitiveDataChange regexp_MatchString extractTablesAndFields
    ListSensitiveDataRules ListApprovalFlows request = service.RpcOk response ->
  match service.v1.EvaluateSensitiveDataChangeResponse.HighestSensitiveLevel response with
  | SensitiveDataLevel_SENSITIVE_DATA_LEVEL_UNSPECIFIED =>
    service.v1.EvaluateSensitiveDataChangeResponse.RequiredApprovalFlow response = None
  | level =>
    exists flows,
      ListApprovalFlows (service.v1.EvaluateSensitiveDataChangeRequest.Parent request)
      = Ok flows
      /\ service.v1.EvaluateSensitiveDataChangeResponse.RequiredApprovalFlow response
         = service.select_flow
             (service.v1.EvaluateSensitiveDataChangeRequest.Parent request) flows level
  end.
Proof.
  unfold service.EvaluateSensitiveDataChange. cbv zeta.
  destruct (String.eqb _ _); [discriminate|].
  destruct (service.v1.EvaluateSensitiveDataChangeRequest.Change_Sql request)
    as [sql|]; [|discriminate].
  destruct (String.eqb sql ""); [discriminate|].
  destruct (service.v1.EvaluateSensitiveDataChangeRequest.Database_Name request)
    as [name|]; [|discriminate].
  destruct (String.eqb name ""); [discriminate|].
  destruct (extractTablesAndFields sql) as [[tables fields]|]; [|discriminate].
  destruct (ListSensitiveDataRules _) as [rules|]; [|discriminate].
  destruct (service.match_rules _ _ _ _) as [matchingRules highestLevel].
  destruct highestLevel; try (intros [= <-]; reflexivity);
    (destruct (ListApprovalFlows _) as [flows|]; [|discriminate]);
    intros [= <-]; exists flows; split; reflexivity.
Qed.

End ServiceFacts.

(** C1 fails as stated: the project configured a flow for level MEDIUM alone
    and the change is of level HIGH.  The service does not fall back to the
    MEDIUM flow but answers with the built-in default for HIGH; the gate, with
    an enabled MEDIUM flow and no flow of level HIGH, begins no execution and
    blocks the plan for want of a flow. *)
Lemma flow_selection_counterexample :
  service.v1.ApprovalFlow.Level sample.medium_v1
  = SensitiveDataLevel_SENSITIVE_DATA_LEVEL_MEDIUM
  /\ service.select_flow "projects/p" [sample.medium_v1]
       SensitiveDataLevel_SENSITIVE_DATA_LEVEL_HIGH
     <> Some sample.medium_v1
  /\ service.select_flow "projects/p" [sample.medium_v1]
       SensitiveDataLevel_SENSITIVE_DATA_LEVEL_HIGH
     = service.getDefaultApprovalFlow "projects/p"
         SensitiveDataLevel_SENSITIVE_DATA_LEVEL_HIGH
  /\ ListApprovalFlows sample.medium_only
       (Some (ListApprovalFlowsFilter.mk SensitiveDataLevel_SENSITIVE_DATA_LEVEL_MEDIUM
                (Some true)))
     <> []
  /\ Check sample.GetIssue sample.medium_only sample.plan5
     = (sample.medium_only,
        Some ("no enabled approval flow found for sensitivity level "
              ++ "SENSITIVE_DATA_LEVEL_HIGH. Cannot execute the plan")%string).
Proof. vm_compute. repeat split; discriminate. Qed.

(** C1, as the code has it.  For a highest level other than UNSPECIFIED the
    service answers with the first listed flow of exactly that level and, when
    there is none, with the built-in default of that level: security-admin
    then dba for HIGH, dba for MEDIUM, self for LOW, each step of type ALL.
    The flow it answers with is always of that level.  The gate begins
    executions only on an enabled flow of level HIGH, the level it computes,
    and without one it blocks the plan. *)
Theorem flow_selection_uses_exact_level :
  (forall parent level before flow after,
      service.v1.ApprovalFlow.Level flow = level ->
      (forall f, In f before -> service.v1.ApprovalFlow.Level f <> level) ->
      service.select_flow parent (before ++ flow :: after) level = Some flow)
  /\ (forall parent level flows,
         (forall f, In f flows -> service.v1.ApprovalFlow.Level f <> level) ->
         service.select_flow parent flows level
         = service.getDefaultApprovalFlow parent level)
  /\ (forall parent,
         option_map service.v1.ApprovalFlow.Steps
           (service.getDefaultApprovalFlow parent
              SensitiveDataLevel_SENSITIVE_DATA_LEVEL_HIGH)
         = Some [service.v1.ApprovalStep.mk 1 ["roles/security-admin"%string]
                   service.v1.ApprovalStep_APPROVAL_TYPE_ALL;
                 service.v1.ApprovalStep.mk 2 ["roles/dba"%string]
                   service.v1.ApprovalStep_APPROVAL_TYPE_ALL]
         /\ option_map service.v1.ApprovalFlow.Steps
              (service.getDefaultApprovalFlow parent
                 SensitiveDataLevel_SENSITIVE_DATA_LEVEL_MEDIUM)
            = Some [service.v1.ApprovalStep.mk 1 ["roles/dba"%string]
                      service.v1.ApprovalStep_APPROVAL_TYPE_ALL]
         /\ option_map service.v1.ApprovalFlow.Steps
              (service.getDefaultApprovalFlow parent
                 SensitiveDataLevel_SENSITIVE_DATA_LEVEL_LOW)
            = Some [service.v1.ApprovalStep.mk 1 ["self"%string]
                      service.v1.ApprovalStep_APPROVAL_TYPE_ALL])
  /\ (forall parent level flows flow,
         service.select_flow parent flows level = Some flow ->
         service.v1.ApprovalFlow.Level flow = level)
  /\ (forall regexp_MatchString extractTablesAndFields ListSensitiveDataRules
             ListApprovalFlows request response,
         service.EvaluateSensitiveDataChange regexp_MatchString extractTablesAndFields
           ListSensitiveDataRules ListApprovalFlows request = service.RpcOk response ->
         match service.v1.EvaluateSensitiveDataChangeResponse.HighestSensitiveLevel
                 response with
         | SensitiveDataLevel_SENSITIVE_DATA_LEVEL_UNSPECIFIED =>
           service.v1.EvaluateSensitiveDataChangeResponse.RequiredApprovalFlow response
           = None
         | level =>
           exists flows,
             ListApprovalFlows
               (service.v1.EvaluateSensitiveDataChangeRequest.Parent request)
             = Ok flows
             /\ service.v1.EvaluateSensitiveDataChangeResponse.RequiredApprovalFlow
                  response
                = service.select_flow
                    (service.v1.EvaluateSensitiveDataChangeRequest.Parent request)
                    flows level
         end)
  /\ (forall GetIssue s plan,
         fst (Check GetIssue s plan) = s
         \/ exists flow row,
              In flow (approval_flow s)
              /\ ApprovalFlow.Enabled flow = true
              /\ ApprovalFlow.SensitivityLevel flow
                 = SensitiveDataLevel_SENSITIVE_DATA_LEVEL_HIGH
              /\ ApprovalFlowExecution.FlowID row = ApprovalFlow.ID flow
              /\ ApprovalFlowExecution.SensitivityLevel row
                 = SensitiveDataLevel_SENSITIVE_DATA_LEVEL_HIGH
              /\ approval_flow_execution (fst (Check GetIssue s plan))
                 = approval_flow_execution s ++ [row])
  /\ (forall GetIssue s plan issue,
         GetIssue (Plan.IssueID plan) = Ok issue ->
         0 < Issue.ID issue ->
         (forall e, In e (approval_flow_execution s) ->
                    ApprovalFlowExecution.IssueID e <> Issue.ID issue) ->
         (forall f, In f (approval_flow s) -> ApprovalFlow.Enabled f = true ->
                    ApprovalFlow.SensitivityLevel f
                    <> SensitiveDataLevel_SENSITIVE_DATA_LEVEL_HIGH) ->
         Check GetIssue s plan
         = (s, Some ("no enabled approval flow found for sensitivity level "
                     ++ "SENSITIVE_DATA_LEVEL_HIGH. Cannot execute the plan")%string)).
Proof.
  split; [|split; [|split; [|split; [|split; [|split]]]]].
  - intros. now apply select_flow_first.
  - intros. now apply select_flow_default.
  - intros parent. repeat split.
  - intros parent level flows flow. apply select_flow_level.
  - apply EvaluateSensitiveDataChange_selects.
  - apply Check_begins_exact_level.
  - apply Check_no_flow.
Qed.

(** A project with a MEDIUM flow alone: the flow is selected for MEDIUM, the
    default for HIGH; the gate on a store without executions and with an
    enabled MEDIUM flow alone blocks the plan. *)
Lemma flow_selection_uses_exact_level_witness :
  service.select_flow "projects/p" ([] ++ sample.medium_v1 :: [])
    SensitiveDataLevel_SENSITIVE_DATA_LEVEL_MEDIUM = Some sample.medium_v1
  /\ service.select_flow "projects/p" [sample.medium_v1]
       SensitiveDataLevel_SENSITIVE_DATA_LEVEL_HIGH
     = service.getDefaultApprovalFlow "projects/p"
         SensitiveDataLevel_SENSITIVE_DATA_LEVEL_HIGH
  /\ Check sample.GetIssue sample.medium_only sample.plan5
     = (sample.medium_only,
        Some ("no enabled approval flow found for sensitivity level "
              ++ "SENSITIVE_DATA_LEVEL_HIGH. Cannot execute the plan")%string).
Proof.
  destruct flow_selection_uses_exact_level
    as (Hfirst & Hdefault & _ & _ & _ & _ & Hgate).
  split; [|split].
  - apply Hfirst; [reflexivity|intros f []].
  - apply Hdefault. intros f [<-|[]]. discriminate.
  - apply (Hgate sample.GetIssue sample.medium_only sample.plan5 sample.issue5).
    + reflexivity.
    + reflexivity.
    + intros e [].
    + intros f [<-|[]] _. discriminate.
Defined.

End gate_facts.

(** ** The rule matchers *)

Module matcher_facts.

(** C9 fails as stated: a rule for the table "Users" does not match a change
    to the table "users", in the service and in the advisor alike, while it
    matches a change to "Users". *)
Lemma table_match_counterexample :
  service.isRuleMatch sample.match_all sample.users_rule_v1 "users" "email" = false
  /\ service.isRuleMatch sample.match_all sample.users_rule_v1 "Users" "email" = true
  /\ advisor.rule_matches sample.compile_none "users" "email" sample.users_rule = false
  /\ advisor.rule_matches sample.compile_none "Users" "email" sample.users_rule = true.
Proof. vm_compute. repeat split. Qed.

Section Matchers.

Variable regexp_MatchString : string -> string -> bool.
Variable regexp_Compile : string -> option (string -> bool).

(** The table name a rule of the service is compared by: the last segment of
    its table resource name. *)
Lemma isRuleMatch_table (rule : service.v1.SensitiveDataRule.t) (table field : string) :
  service.v1.SensitiveDataRule.Table rule <> ""%string ->
  service.isRuleMatch regexp_MatchString rule table field = true ->
  last (strings.Split (service.v1.SensitiveDataRule.Table rule) "/"%char) ""%string
  = table.
Proof.
  intros Hne. unfold service.isRuleMatch.
  apply String.eqb_neq in Hne. rewrite Hne. cbn [negb andb].
  destruct (String.eqb _ table) eqn:E; [|discriminate].
  intros _. now apply String.eqb_eq.
Qed.

Lemma isRuleMatch_table_accepts (rule : service.v1.SensitiveDataRule.t)
    (table field : string) :
  last (strings.Split (service.v1.SensitiveDataRule.Table rule) "/"%char) ""%string
  = table ->
  service.v1.SensitiveDataRule.FieldPattern rule = ""%string ->
  service.isRuleMatch regexp_MatchString rule table field = true.
Proof.
  intros Ht Hf. unfold service.isRuleMatch.
  rewrite Ht, Hf, String.eqb_refl. cbn [negb]. rewrite andb_false_r. reflexivity.
Qed.

Lemma isRuleMatch_any_table (rule : service.v1.SensitiveDataRule.t)
    (table table' field : string) :
  service.v1.SensitiveDataRule.Table rule = ""%string ->
  service.isRuleMatch regexp_MatchString rule table field
  = service.isRuleMatch regexp_MatchString rule table' field.
Proof.
  intros He. unfold service.isRuleMatch. rewrite He. reflexivity.
Qed.

Lemma rule_matches_table (rule : advisor.Rule.t) (table column : string) :
  advisor.Rule.TableName rule <> ""%string ->
  advisor.rule_matches regexp_Compile table column rule = true ->
  advisor.Rule.TableName rule = table.
Proof.
  intros Hne. unfold advisor.rule_matches.
  apply String.eqb_neq in Hne. rewrite Hne. cbn [negb andb].
  destruct (String.eqb _ table) eqn:E; [|discriminate].
  intros _. now apply String.eqb_eq.
Qed.

Lemma rule_matches_any_table (rule : advisor.Rule.t) (table table' column : string) :
  advisor.Rule.TableName rule = ""%string ->
  advisor.rule_matches regexp_Compile table column rule
  = advisor.rule_matches regexp_Compile table' column rule.
Proof.
  intros He. unfold advisor.rule_matches. rewrite He. reflexivity.
Qed.

Lemma rule_matches_table_accepts (rule : advisor.Rule.t) (table column : string) :
  advisor.Rule.TableName rule = table ->
  advisor.rule_matches regexp_Compile table column rule
  = existsb (advisor.field_matches regexp_Compile column) (advisor.Rule.Fields rule).
Proof.
  intros He. unfold advisor.rule_matches.
  rewrite He, String.eqb_refl. cbn [negb]. rewrite andb_false_r. reflexivity.
Qed.

End Matchers.

(** C9, as the code has it.  A rule with a non-empty table pattern matches a
    (table, field) pair only if the table is equal, character for character,
    to the table name of the rule: in the service the last segment of the
    rule's table resource name, in the advisor the rule's table name.  When it
    is equal the table check passes and the fields decide.  A rule with an
    empty table pattern matches without regard to the table. *)
Theorem table_match_is_exact
    (regexp_MatchString : string -> string -> bool)
    (regexp_Compile : string -> option (string -> bool)) :
  (forall rule table field,
      service.v1.SensitiveDataRule.Table rule <> ""%string ->
      service.isRuleMatch regexp_MatchString rule table field = true ->
      last (strings.Split (service.v1.SensitiveDataRule.Table rule) "/"%char) ""%string
      = table)
  /\ (forall rule table field,
         last (strings.Split (service.v1.SensitiveDataRule.Table rule) "/"%char)
              ""%string = table ->
         service.v1.SensitiveDataRule.FieldPattern rule = ""%string ->
         service.isRuleMatch regexp_MatchString rule table field = true)
  /\ (forall rule table table' field,
         service.v1.SensitiveDataRule.Table rule = ""%string ->
         service.isRuleMatch regexp_MatchString rule table field
         = service.isRuleMatch regexp_MatchString rule table' field)
  /\ (forall rule table column,
         advisor.Rule.TableName rule <> ""%string ->
         advisor.rule_matches regexp_Compile table column rule = true ->
         advisor.Rule.TableName rule = table)
  /\ (forall rule table column,
         advisor.Rule.TableName rule = table ->
         advisor.rule_matches regexp_Compile table column rule
         = existsb (advisor.field_matches regexp_Compile column)
             (advisor.Rule.Fields rule))
  /\ (forall rule table table' column,
         advisor.Rule.TableName rule = ""%string ->
         advisor.rule_matches regexp_Compile table column rule
         = advisor.rule_matches regexp_Compile table' column rule).
Proof.
  split; [|split; [|split; [|split; [|split]]]].
  - apply isRuleMatch_table.
  - apply isRuleMatch_table_accepts.
  - apply isRuleMatch_any_table.
  - apply rule_matches_table.
  - apply rule_matches_table_accepts.
  - apply rule_matches_any_table.
Qed.

(** The rules for "Users" on the table "Users". *)
Lemma table_match_is_exact_witness :
  service.isRuleMatch sample.match_all sample.users_rule_v1 "Users" "email" = true
  /\ advisor.Rule.TableName sample.users_rule = "Users"%string.
Proof.
  destruct (table_match_is_exact sample.match_all sample.compile_none)
    as (_ & Haccept & _ & Htable & _).
  split.
  - apply Haccept; reflexivity.
  - apply (Htable sample.users_rule "Users"%string "email"%string).
    + discriminate.
    + reflexivity.
Defined.

End matcher_facts.

(** ** Notifications *)

Module notification_facts.
Import store engine.

Lemma apply_notification_update_frame (update : Notification.t (option bool))
    (n : Notification.t bool) :
  frame (apply_notification_update update n) = frame n.
Proof.
  unfold apply_notification_update.
  destruct (Notification.Read update); destruct (0 <? Notification.UpdaterID update);
    reflexivity.
Qed.

Lemma update_rows_frame (update : Notification.t (option bool))
    (l : list (Notification.t bool)) :
  map frame
    (map (fun n => if Notification.ID n =? Notification.ID update
                   then apply_notification_update update n else n) l)
  = map frame l.
Proof.
  induction l as [|n l IH]; simpl; [reflexivity|].
  rewrite IH. destruct (Notification.ID n =? Notification.ID update);
    [rewrite apply_notification_update_frame|]; reflexivity.
Qed.

Lemma update_rows_others (update : Notification.t (option bool))
    (l : list (Notification.t bool)) :
  filter (fun n => negb (Notification.ID n =? Notification.ID update))
    (map (fun n => if Notification.ID n =? Notification.ID update
                   then apply_notification_update update n else n) l)
  = filter (fun n => negb (Notification.ID n =? Notification.ID update)) l.
Proof.
  induction l as [|n l IH]; simpl; [reflexivity|].
  destruct (Notification.ID n =? Notification.ID update) eqn:E.
  - assert (Hid : Notification.ID (apply_notification_update update n)
                  = Notification.ID n).
    { unfold apply_notification_update.
      destruct (Notification.Read update);
        destruct (0 <? Notification.UpdaterID update); reflexivity. }
    rewrite Hid, E. simpl. exact IH.
  - rewrite E. simpl. now rewrite IH.
Qed.

(** C10.  UpdateNotification changes nothing but the read flag and the updater
    of the notification it addresses: in every stored notification the id, the
    type, the title, the content, the recipient, the three correlation ids, the
    creator and the create time are as before, the notifications with another
    id are untouched, and so are the other tables. *)
Theorem UpdateNotification_frame (s : DB) (update : Notification.t (option bool)) :
  let s' := fst (UpdateNotification s update) in
  map frame (notification s') = map frame (notification s)
  /\ filter (fun n => negb (Notification.ID n =? Notification.ID update))
            (notification s')
     = filter (fun n => negb (Notification.ID n =? Notification.ID update))
              (notification s)
  /\ set_notification (notification s) s' = s.
Proof.
  unfold UpdateNotification. cbv zeta.
  assert (Hs : set_notification (notification s) s = s) by (destruct s; reflexivity).
  destruct (Notification.ID update <=? 0); [repeat split; assumption|].
  destruct (List.length _ =? 0)%nat; [repeat split; assumption|].
  destruct (List.length (filter_ _ _) =? 0)%nat;
    [|destruct (getNotification _ _)];
    cbn [fst notification set_notification];
    (split; [apply update_rows_frame|]; split; [apply update_rows_others|]);
    destruct s; reflexivity.
Qed.

End notification_facts.

(** ** Tables: keys, fresh ids and ordered reads *)

Module table_facts.

Lemma max_id_nonneg {A} (key : A -> Z) (l : list A) :
  0 <= fold_right Z.max 0 (map key l).
Proof. induction l as [|y l IH]; simpl; lia. Qed.

Lemma max_id_app {A} (key : A -> Z) (l l' : list A) :
  fold_right Z.max 0 (map key (l ++ l'))
  = Z.max (fold_right Z.max 0 (map key l)) (fold_right Z.max 0 (map key l')).
Proof.
  induction l as [|x l IH]; simpl.
  - assert (0 <= fold_right Z.max 0 (map key l')).
    { induction l' as [|y l' IH']; simpl; lia. }
    lia.
  - rewrite IH. lia.
Qed.

(** The id after an insert is the next one. *)
Lemma LastInsertId_next {A} (key : A -> Z) (table : list A) (x : A) :
  key x = LastInsertId key table ->
  LastInsertId key (table ++ [x]) = LastInsertId key table + 1.
Proof.
  unfold LastInsertId. intros Hx. rewrite max_id_app. simpl.
  pose proof (max_id_nonneg key table). lia.
Qed.

Lemma LastInsertId_pos {A} (key : A -> Z) (table : list A) :
  0 < LastInsertId key table.
Proof.
  unfold LastInsertId.
  assert (0 <= fold_right Z.max 0 (map key table)).
  { induction table as [|y l IH]; simpl; lia. }
  lia.
Qed.

Lemma LastInsertId_above {A} (key : A -> Z) (table : list A) (x : A) :
  In x table -> key x < LastInsertId key table.
Proof.
  unfold LastInsertId. induction table as [|y l IH]; simpl; [tauto|].
  intros [->|Hin]; [lia|]. specialize (IH Hin). lia.
Qed.

(** A lookup by a key no row carries finds nothing. *)
Lemma find_absent {A} (key : A -> Z) (id : Z) (l : list A) :
  (forall x, In x l -> key x <> id) -> find (fun x => key x =? id) l = None.
Proof.
  induction l as [|x l IH]; simpl; [reflexivity|].
  intros H. destruct (key x =? id) eqn:E.
  - apply Z.eqb_eq in E. exfalso. apply (H x); auto.
  - apply IH. intros y Hy. apply H. auto.
Qed.

(** A lookup by the fresh id finds the row just appended. *)
Lemma find_appended {A} (key : A -> Z) (id : Z) (l : list A) (x : A) :
  (forall y, In y l -> key y <> id) -> key x = id ->
  find (fun y => key y =? id) (l ++ [x]) = Some x.
Proof.
  intros Hl Hx. induction l as [|y l IH]; simpl.
  - rewrite Hx, Z.eqb_refl. reflexivity.
  - destruct (key y =? id) eqn:E.
    + apply Z.eqb_eq in E. exfalso. apply (Hl y); simpl; auto.
    + apply IH. intros z Hz. apply Hl. simpl. auto.
Qed.

(** A lookup by another id does not see the row appended. *)
Lemma find_app_other {A} (key : A -> Z) (id : Z) (l l' : list A) :
  (forall y, In y l' -> key y <> id) ->
  find (fun y => key y =? id) (l ++ l') = find (fun y => key y =? id) l.
Proof.
  intros Hl'. induction l as [|y l IH]; simpl.
  - now apply find_absent.
  - destruct (key y =? id); auto.
Qed.

Lemma filter_nothing {A} (p : A -> bool) (l : list A) :
  (forall x, In x l -> p x = false) -> filter p l = [].
Proof.
  induction l as [|x l IH]; simpl; [reflexivity|].
  intros H. rewrite (H x) by now left. apply IH. intros y Hy. apply H. now right.
Qed.

Lemma filter_all {A} (p : A -> bool) (l : list A) :
  (forall x, In x l -> p x = true) -> filter p l = l.
Proof.
  induction l as [|x l IH]; simpl; [reflexivity|].
  intros H. rewrite (H x) by now left. f_equal. apply IH. intros y Hy. apply H. now right.
Qed.

(** [ORDER BY key] leaves a list in place whose keys already increase. *)
Lemma order_by_sorted {A} (key : A -> Z) (l : list A) :
  StronglySorted (fun x y => key x < key y) l -> order_by key l = l.
Proof.
  induction 1 as [|x l Hs IH Hall]; simpl; [reflexivity|].
  rewrite IH. destruct l as [|y l']; simpl; [reflexivity|].
  apply Forall_inv in Hall. apply Z.ltb_lt in Hall. now rewrite Hall.
Qed.

Lemma insert_by_Permutation {A} (key : A -> Z) (x : A) (l : list A) :
  Permutation (x :: l) (insert_by key x l).
Proof.
  induction l as [|y l IH]; simpl; [reflexivity|].
  destruct (key x <? key y); [reflexivity|].
  rewrite perm_swap. now constructor.
Qed.

Lemma order_by_Permutation {A} (key : A -> Z) (l : list A) :
  Permutation l (order_by key l).
Proof.
  induction l as [|x l IH]; simpl; [reflexivity|].
  rewrite <- insert_by_Permutation. now constructor.
Qed.

Lemma insert_by_sorted {A} (key : A -> Z) (x : A) (l : list A) :
  StronglySorted (fun a b => key a <= key b) l ->
  StronglySorted (fun a b => key a <= key b) (insert_by key x l).
Proof.
  induction 1 as [|y l Hs IH Hall]; simpl.
  - repeat constructor.
  - destruct (key x <? key y) eqn:E.
    + apply Z.ltb_lt in E. constructor; [now constructor|].
      constructor; [lia|]. eapply Forall_impl; [|exact Hall]. simpl. intros; lia.
    + apply Z.ltb_ge in E. constructor; [exact IH|].
      apply (Permutation_Forall (insert_by_Permutation key x l)).
      constructor; assumption.
Qed.

(** [ORDER BY key] orders. *)
Lemma order_by_ordered {A} (key : A -> Z) (l : list A) :
  StronglySorted (fun a b => key a <= key b) (order_by key l).
Proof.
  induction l as [|x l IH]; simpl; [constructor|].
  now apply insert_by_sorted.
Qed.

(** An ordered list without repeated keys increases. *)
Lemma ordered_NoDup_increasing {A} (key : A -> Z) (l : list A) :
  StronglySorted (fun a b => key a <= key b) l -> NoDup (map key l) ->
  StronglySorted (fun a b => key a < key b) l.
Proof.
  induction 1 as [|x l Hs IH Hall]; simpl; intros Hnd; [constructor|].
  inversion Hnd as [|? ? Hnotin Hnd']; subst.
  constructor; [auto|].
  rewrite Forall_forall in *. intros y Hy. specialize (Hall y Hy).
  assert (key x <> key y).
  { intros Heq. apply Hnotin. rewrite Heq. now apply in_map. }
  lia.
Qed.

(** The rows a WHERE clause selects keep their keys distinct. *)
Lemma selected_keys_distinct {A K : Type} (key : A -> K) (keep : A -> bool)
    (table : list A) :
  NoDup (map key table) -> NoDup (map key (filter keep table)).
Proof.
  intros Hkeys. induction table as [|row table IH]; cbn [filter map] in *.
  - constructor.
  - inversion Hkeys as [|? ? Hfresh Hrest]; subst.
    destruct (keep row); cbn [map]; [|now apply IH].
    constructor; [|now apply IH].
    intros Hin. apply Hfresh. apply in_map_iff in Hin as (y & Hy & Hin).
    apply filter_In in Hin as [Hin _]. rewrite <- Hy. now apply in_map.
Qed.

Lemma Forall_filter {A} (P : A -> Prop) (p : A -> bool) (l : list A) :
  Forall P l -> Forall P (filter p l).
Proof.
  rewrite !Forall_forall. intros H x Hx. apply filter_In in Hx as [Hx _]. auto.
Qed.

End table_facts.

(** ** Texts *)

Module text_facts.
Import gostrings.

Lemma append_empty (s : string) : (s ++ EmptyString)%string = s.
Proof. induction s as [|c s IH]; simpl; [reflexivity|]. now rewrite IH. Qed.

Lemma append_associative (a b c : string) :
  ((a ++ b) ++ c)%string = (a ++ (b ++ c))%string.
Proof. induction a as [|d a IH]; simpl; [reflexivity|]. now rewrite IH. Qed.

Lemma contains_count (c : Ascii.ascii) (s : string) :
  contains c s = false <-> Count s c = 0%nat.
Proof.
  induction s as [|d s IH]; simpl; [tauto|].
  destruct (Ascii.eqb d c); simpl; [split; [discriminate|lia]|exact IH].
Qed.

Lemma count_append (c : Ascii.ascii) (a b : string) :
  Count (a ++ b)%string c = (Count a c + Count b c)%nat.
Proof. induction a as [|d a IH]; simpl; [reflexivity|]. rewrite IH. lia. Qed.

(** The text collected so far heads the first part. *)
Lemma Split_from_cur (sep : Ascii.ascii) (cur s : string) :
  strings.Split_from sep cur s
  = match strings.Split_from sep EmptyString s with
    | [] => []
    | x :: r => (cur ++ x)%string :: r
    end.
Proof.
  revert cur. induction s as [|c s IH]; intros cur; simpl.
  - now rewrite append_empty.
  - destruct (Ascii.eqb c sep).
    + now rewrite append_empty.
    + rewrite IH. rewrite (IH (String c EmptyString)).
      destruct (strings.Split_from sep EmptyString s) as [|x r]; [reflexivity|].
      f_equal. rewrite append_associative. reflexivity.
Qed.

Lemma Split_length (sep : Ascii.ascii) (cur s : string) :
  List.length (strings.Split_from sep cur s) = S (Count s sep).
Proof.
  revert cur. induction s as [|c s IH]; intros cur; simpl; [reflexivity|].
  destruct (Ascii.eqb c sep); simpl; rewrite IH; reflexivity.
Qed.

(** A text without the separator is one part. *)
Lemma Split_one (sep : Ascii.ascii) (x : string) :
  contains sep x = false -> strings.Split x sep = [x].
Proof.
  unfold strings.Split. induction x as [|c x IH]; simpl; [reflexivity|].
  destruct (Ascii.eqb c sep); simpl; [discriminate|].
  intros H. rewrite Split_from_cur, (IH H). reflexivity.
Qed.

(** A text without the separator, the separator and a rest: the text is the
    first part. *)
Lemma Split_cons (sep : Ascii.ascii) (x rest : string) :
  contains sep x = false ->
  strings.Split (x ++ String sep rest) sep = x :: strings.Split rest sep.
Proof.
  unfold strings.Split. induction x as [|c x IH]; simpl.
  - rewrite Ascii.eqb_refl. reflexivity.
  - destruct (Ascii.eqb c sep); simpl; [discriminate|].
    intros H. rewrite Split_from_cur, (IH H). reflexivity.
Qed.

Lemma Join_cons (x y : string) (l : list string) (sep : string) :
  Join (x :: y :: l) sep = (x ++ sep ++ Join (y :: l) sep)%string.
Proof. reflexivity. Qed.

Lemma Split_Join (sep : Ascii.ascii) (l : list string) :
  l <> [] -> Forall (fun x => contains sep x = false) l ->
  strings.Split (Join l (String sep EmptyString)) sep = l.
Proof.
  induction l as [|x l IH]; [congruence|]. intros _ Hall.
  inversion Hall as [|? ? Hx Hl]; subst.
  destruct l as [|y l].
  - now apply Split_one.
  - rewrite Join_cons. cbn [String.append]. rewrite Split_cons by assumption.
    f_equal. apply IH; [discriminate|assumption].
Qed.

Lemma count_Join (sep : Ascii.ascii) (l : list string) :
  l <> [] ->
  Count (Join l (String sep EmptyString)) sep
  = (fold_right (fun x n => Count x sep + n) 0 l + (List.length l - 1))%nat.
Proof.
  induction l as [|x l IH]; [congruence|]. intros _.
  destruct l as [|y l].
  - simpl. lia.
  - rewrite Join_cons, count_append. cbn [String.append Count].
    rewrite Ascii.eqb_refl.
    rewrite IH by discriminate. cbn [fold_right List.length]. lia.
Qed.

Lemma no_count_Forall (sep : Ascii.ascii) (l : list string) :
  fold_right (fun x n => Count x sep + n)%nat 0%nat l = 0%nat ->
  Forall (fun x => contains sep x = false) l.
Proof.
  induction l as [|x l IH]; simpl; constructor.
  - apply contains_count. lia.
  - apply IH. lia.
Qed.

Lemma Join_empty (sep : string) (l : list string) :
  Join l sep = EmptyString -> sep <> EmptyString -> l = [] \/ l = [EmptyString].
Proof.
  destruct l as [|x [|y l]]; cbn [Join]; intros H Hsep.
  - now left.
  - right. now rewrite H.
  - exfalso. destruct x; simpl in H; [|discriminate].
    destruct sep; [congruence|simpl in H; discriminate].
Qed.

End text_facts.

(** ** Configuring flows *)

Module flow_store_facts.
Import store flow_store notions table_facts.

Lemma set_approval_node_twice (l l' : list ApprovalNode.t) (s : DB) :
  set_approval_node l (set_approval_node l' s) = set_approval_node l s.
Proof. reflexivity. Qed.

Lemma set_approval_node_same (s : DB) : set_approval_node (approval_node s) s = s.
Proof. destruct s; reflexivity. Qed.

(** The node loop appends the rows of the nodes, with consecutive ids. *)
Lemma insert_nodes_rows (flowID creatorID updaterID : Z) (nodes : list ApprovalNode.t)
    (tx : DB) :
  fold_left (insert_node flowID creatorID updaterID) nodes tx
  = set_approval_node
      (approval_node tx
       ++ node_rows (LastInsertId ApprovalNode.ID (approval_node tx))
            flowID creatorID updaterID nodes) tx.
Proof.
  revert tx. induction nodes as [|n rest IH]; intros tx; simpl.
  - rewrite app_nil_r. symmetry. apply set_approval_node_same.
  - rewrite IH. unfold insert_node.
    cbn [approval_node set_approval_node].
    rewrite LastInsertId_next by reflexivity.
    rewrite <- app_assoc. reflexivity.
Qed.

Lemma node_rows_ids (id flowID creatorID updaterID : Z) (nodes : list ApprovalNode.t)
    (n : ApprovalNode.t) :
  In n (node_rows id flowID creatorID updaterID nodes) ->
  id <= ApprovalNode.ID n /\ ApprovalNode.FlowID n = flowID.
Proof.
  revert id. induction nodes as [|x rest IH]; intros id; simpl; [tauto|].
  intros [<-|Hin]; [simpl; split; [lia|reflexivity]|].
  apply IH in Hin. split; [lia|tauto].
Qed.

Lemma node_rows_increasing (id flowID creatorID updaterID : Z)
    (nodes : list ApprovalNode.t) :
  StronglySorted (fun a b => ApprovalNode.ID a < ApprovalNode.ID b)
    (node_rows id flowID creatorID updaterID nodes).
Proof.
  revert id. induction nodes as [|x rest IH]; intros id; simpl; constructor.
  - apply IH.
  - apply Forall_forall. intros n Hn. apply node_rows_ids in Hn. simpl. lia.
Qed.

Lemma node_rows_payload (id id' flowID creatorID updaterID : Z)
    (nodes : list ApprovalNode.t) :
  map node_payload (node_rows id flowID creatorID updaterID nodes)
  = map node_payload (node_rows id' flowID creatorID updaterID nodes).
Proof.
  revert id id'. induction nodes as [|x rest IH]; intros id id'; simpl; [reflexivity|].
  f_equal. apply IH.
Qed.

(** The nodes a flow is read with, once its rows are the only ones of the
    flow. *)
Lemma getApprovalNodes_rows (s : DB) (old : list ApprovalNode.t)
    (id flowID creatorID updaterID : Z) (nodes : list ApprovalNode.t) :
  (forall n, In n old -> ApprovalNode.FlowID n <> flowID) ->
  approval_node s = old ++ node_rows id flowID creatorID updaterID nodes ->
  getApprovalNodes s flowID = node_rows id flowID creatorID updaterID nodes.
Proof.
  intros Hold Hs. unfold getApprovalNodes. rewrite Hs, filter_app.
  rewrite (filter_nothing _ old).
  - rewrite filter_all.
    + apply order_by_sorted, node_rows_increasing.
    + intros n Hn. apply node_rows_ids in Hn as [_ ->]. apply Z.eqb_refl.
  - intros n Hn. apply Z.eqb_neq. now apply Hold.
Qed.

(** The nodes of another flow are read as before. *)
Lemma getApprovalNodes_other (s s' : DB) (kept : list ApprovalNode.t)
    (id flowID creatorID updaterID id' : Z) (nodes : list ApprovalNode.t) :
  id' <> flowID ->
  filter (fun n => ApprovalNode.FlowID n =? id') kept
  = filter (fun n => ApprovalNode.FlowID n =? id') (approval_node s) ->
  approval_node s' = kept ++ node_rows id flowID creatorID updaterID nodes ->
  getApprovalNodes s' id' = getApprovalNodes s id'.
Proof.
  intros Hne Hkept Hs'. unfold getApprovalNodes. rewrite Hs', filter_app, Hkept.
  rewrite (filter_nothing _ (node_rows _ _ _ _ _)); [now rewrite app_nil_r|].
  intros n Hn. apply node_rows_ids in Hn as [_ ->]. apply Z.eqb_neq. congruence.
Qed.

(** X1.  In a store whose flow ids are positive int32 values
    CreateApprovalFlow creates no flow: every call returns an error and leaves
    the store as it was.  A request that passes the validation, for a level
    no flow has, fails at the closing re-read, which goes through the store
    handle and does not see the rows of the open transaction; the flow and
    its nodes are rolled back. *)
Theorem CreateApprovalFlow_is_rolled_back (s : DB) (create : ApprovalFlow.t) :
  int32_ids ApprovalFlow.ID (approval_flow s) ->
  fst (CreateApprovalFlow s create) = s
  /\ is_ok (snd (CreateApprovalFlow s create)) = false
  /\ (ApprovalFlow.Title create <> EmptyString ->
      ApprovalFlow.SensitivityLevel create
      <> SensitiveDataLevel_SENSITIVE_DATA_LEVEL_UNSPECIFIED ->
      ApprovalFlow.Nodes create <> [] ->
      existing_flow s (ApprovalFlow.SensitivityLevel create) <= 0 ->
      snd (CreateApprovalFlow s create)
      = Err (Wrap "approval flow not found"
               "failed to retrieve newly created approval flow")).
Proof.
  intros Hids.
  assert (Hread : getApprovalFlowWithNodes s
                    (wrap32 (LastInsertId ApprovalFlow.ID (approval_flow s)))
                  = Err "approval flow not found").
  { unfold getApprovalFlowWithNodes.
    now rewrite (reread_misses_uncommitted_row ApprovalFlow.ID _ Hids). }
  unfold CreateApprovalFlow. cbv zeta. rewrite Hread.
  destruct (String.eqb (ApprovalFlow.Title create) "") eqn:Ht.
  { apply String.eqb_eq in Ht. repeat split. intros H. congruence. }
  destruct (ApprovalFlow.SensitivityLevel create) eqn:Hl;
    [repeat split; intros _ H; congruence| | |];
    (destruct (ApprovalFlow.Nodes create) as [|node nodes] eqn:Hn;
     [repeat split; intros _ _ H; congruence|]);
    cbn [List.length Nat.eqb];
    (destruct (0 <? existing_flow s _) eqn:He;
     [apply Z.ltb_lt in He; repeat split; intros _ _ _ H; lia|]);
    repeat split.
Qed.

(** A flow of level MEDIUM requested in the store that holds the flow of
    level HIGH. *)
Lemma CreateApprovalFlow_is_rolled_back_witness :
  fst (CreateApprovalFlow sample.configured sample_more.medium_flow) = sample.configured
  /\ is_ok (snd (CreateApprovalFlow sample.configured sample_more.medium_flow)) = false
  /\ snd (CreateApprovalFlow sample.configured sample_more.medium_flow)
     = Err (Wrap "approval flow not found"
              "failed to retrieve newly created approval flow").
Proof.
  destruct (flow_store_facts.CreateApprovalFlow_is_rolled_back sample.configured
              sample_more.medium_flow)
    as (Hstore & Hfails & Herror); [repeat constructor|].
  split; [exact Hstore|]. split; [exact Hfails|].
  apply Herror; (discriminate || (vm_compute; discriminate)).
Defined.

(** *** One flow per level *)

Lemma insert_nodes_flows (flowID creatorID updaterID : Z) (nodes : list ApprovalNode.t)
    (tx : DB) :
  approval_flow (fold_left (insert_node flowID creatorID updaterID) nodes tx)
  = approval_flow tx.
Proof. rewrite insert_nodes_rows. reflexivity. Qed.

(** What CreateApprovalFlow does to the table of flows. *)
Lemma CreateApprovalFlow_flows (s : DB) (create : ApprovalFlow.t) :
  fst (CreateApprovalFlow s create) = s
  \/ (existing_flow s (ApprovalFlow.SensitivityLevel create) <= 0
      /\ exists row,
           ApprovalFlow.ID row = LastInsertId ApprovalFlow.ID (approval_flow s)
           /\ ApprovalFlow.SensitivityLevel row = ApprovalFlow.SensitivityLevel create
           /\ approval_flow (fst (CreateApprovalFlow s create))
              = approval_flow s ++ [row]).
Proof.
  unfold CreateApprovalFlow. cbv zeta.
  destruct (String.eqb (ApprovalFlow.Title create) ""); [now left|].
  destruct (ApprovalFlow.SensitivityLevel create) eqn:Hl; [now left| | |];
    (destruct (List.length (ApprovalFlow.Nodes create) =? 0)%nat; [now left|]);
    (destruct (0 <? existing_flow s _) eqn:He; [now left|]);
    apply Z.ltb_ge in He;
    (destruct (getApprovalFlowWithNodes _ _); [|now left]);
    right; (split; [exact He|]); eexists; cbn [fst];
    rewrite insert_nodes_flows; cbn [approval_flow set_approval_flow];
    (split; [|split; [|reflexivity]]); reflexivity.
Qed.

(** What UpdateApprovalFlow does to the table of flows. *)
Lemma UpdateApprovalFlow_flows (s : DB) (update : ApprovalFlow.t) :
  fst (UpdateApprovalFlow s update) = s
  \/ (other_flow s (ApprovalFlow.SensitivityLevel update) (ApprovalFlow.ID update) <= 0
      /\ approval_flow (fst (UpdateApprovalFlow s update))
         = map (update_flow_row update) (approval_flow s)).
Proof.
  unfold UpdateApprovalFlow. cbv zeta.
  destruct (ApprovalFlow.ID update <=? 0); [now left|].
  destruct (getApprovalFlowWithNodes s (ApprovalFlow.ID update)); [|now left].
  destruct (0 <? other_flow s _ _) eqn:He; [now left|].
  apply Z.ltb_ge in He.
  right. split; [exact He|]. cbn [fst]. rewrite insert_nodes_flows. reflexivity.
Qed.

(** What DeleteApprovalFlow does to the table of flows. *)
Lemma DeleteApprovalFlow_flows (s : DB) (id : Z) :
  fst (DeleteApprovalFlow s id) = s
  \/ approval_flow (fst (DeleteApprovalFlow s id))
     = filter (fun f => negb (ApprovalFlow.ID f =? id)) (approval_flow s).
Proof.
  unfold DeleteApprovalFlow. cbv zeta.
  destruct (id <=? 0); [now left|].
  destruct (getApprovalFlowWithNodes s id); [|now left].
  right. reflexivity.
Qed.

Lemma update_flow_row_ID (update f : ApprovalFlow.t) :
  ApprovalFlow.ID (update_flow_row update f) = ApprovalFlow.ID f.
Proof.
  unfold update_flow_row. destruct (ApprovalFlow.ID f =? ApprovalFlow.ID update);
    reflexivity.
Qed.

Lemma update_flow_rows_ID (update : ApprovalFlow.t) (l : list ApprovalFlow.t) :
  map ApprovalFlow.ID (map (update_flow_row update) l) = map ApprovalFlow.ID l.
Proof.
  rewrite map_map. apply map_ext. intros f. apply update_flow_row_ID.
Qed.

(** Rewriting the row of one id keeps the levels apart when no other row
    carries the new level. *)
Lemma update_flow_rows_levels (update : ApprovalFlow.t) (l : list ApprovalFlow.t) :
  NoDup (map ApprovalFlow.ID l) ->
  NoDup (map ApprovalFlow.SensitivityLevel l) ->
  (forall f, In f l -> ApprovalFlow.ID f <> ApprovalFlow.ID update ->
             ApprovalFlow.SensitivityLevel f <> ApprovalFlow.SensitivityLevel update) ->
  NoDup (map ApprovalFlow.SensitivityLevel (map (update_flow_row update) l)).
Proof.
  induction l as [|f l IH]; simpl; [constructor|].
  intros Hid Hlv Hother.
  inversion Hid as [|? ? Hidf Hid']; subst.
  inversion Hlv as [|? ? Hlvf Hlv']; subst.
  constructor.
  - intros Hin. apply in_map_iff in Hin as (g' & Hg' & Hin).
    apply in_map_iff in Hin as (g & <- & Hg).
    unfold update_flow_row in Hg'.
    assert (Hfg : ApprovalFlow.ID f <> ApprovalFlow.ID g).
    { intros Heq. apply Hidf. rewrite Heq. now apply in_map. }
    destruct (ApprovalFlow.ID g =? ApprovalFlow.ID update) eqn:Eg;
      destruct (ApprovalFlow.ID f =? ApprovalFlow.ID update) eqn:Ef;
      cbn [ApprovalFlow.SensitivityLevel] in Hg'.
    + apply Z.eqb_eq in Eg, Ef. congruence.
    + apply Z.eqb_neq in Ef. apply (Hother f); auto.
    + apply Z.eqb_neq in Eg. apply (Hother g); auto.
    + apply Hlvf. rewrite <- Hg'. now apply in_map.
  - apply IH; auto.
Qed.

(** X2.  The three writers of the table of flows keep at most one flow per
    sensitivity level, and keep the ids of the flows positive and distinct,
    whether they succeed or fail. *)
Theorem flow_writers_keep_one_flow_per_level (s : DB) :
  primary_key ApprovalFlow.ID (approval_flow s) ->
  one_flow_per_level s ->
  (forall create,
      primary_key ApprovalFlow.ID (approval_flow (fst (CreateApprovalFlow s create)))
      /\ one_flow_per_level (fst (CreateApprovalFlow s create)))
  /\ (forall update,
         primary_key ApprovalFlow.ID (approval_flow (fst (UpdateApprovalFlow s update)))
         /\ one_flow_per_level (fst (UpdateApprovalFlow s update)))
  /\ (forall id,
         primary_key ApprovalFlow.ID (approval_flow (fst (DeleteApprovalFlow s id)))
         /\ one_flow_per_level (fst (DeleteApprovalFlow s id))).
Proof.
  intros [Hnd Hpos] Hlv. unfold one_flow_per_level, primary_key in *.
  split; [|split].
  - intros create.
    destruct (CreateApprovalFlow_flows s create)
      as [->|(Hex & row & Hid & Hl & ->)]; [auto|].
    assert (Hnone : forall f, In f (approval_flow s) ->
                      ApprovalFlow.SensitivityLevel f
                      <> ApprovalFlow.SensitivityLevel create).
    { intros f Hf Heq. unfold existing_flow in Hex.
      destruct (find _ (approval_flow s)) as [g|] eqn:E.
      - apply find_some in E as [Hg _].
        rewrite Forall_forall in Hpos. specialize (Hpos g Hg). lia.
      - apply (find_none _ _ E) in Hf.
        rewrite Heq in Hf. unfold SensitiveDataLevel_eqb in Hf.
        rewrite Z.eqb_refl in Hf. discriminate. }
    rewrite !map_app. simpl. repeat split.
    + apply NoDup_app; [assumption|repeat constructor; simpl; tauto|].
      intros x Hx [<-|[]]. apply in_map_iff in Hx as (f & Hfx & Hf).
      apply (LastInsertId_above ApprovalFlow.ID) in Hf. lia.
    + apply Forall_app. split; [assumption|]. constructor; [|constructor].
      rewrite Hid. apply LastInsertId_pos.
    + apply NoDup_app; [assumption|repeat constructor; simpl; tauto|].
      intros x Hx [<-|[]]. apply in_map_iff in Hx as (f & Hfx & Hf).
      apply (Hnone f Hf). congruence.
  - intros update.
    destruct (UpdateApprovalFlow_flows s update) as [->|(Hother & ->)]; [auto|].
    rewrite update_flow_rows_ID. repeat split.
    + assumption.
    + rewrite Forall_forall in *. intros f' Hf'.
      apply in_map_iff in Hf' as (f & <- & Hf).
      rewrite update_flow_row_ID. auto.
    + apply update_flow_rows_levels; try assumption.
      intros f Hf Hne Heq. unfold other_flow in Hother.
      destruct (find _ (approval_flow s)) as [g|] eqn:E.
      * apply find_some in E as [Hg _].
        rewrite Forall_forall in Hpos. specialize (Hpos g Hg). lia.
      * apply (find_none _ _ E) in Hf.
        rewrite Heq in Hf. unfold SensitiveDataLevel_eqb in Hf.
        rewrite Z.eqb_refl in Hf. apply Z.eqb_neq in Hne. rewrite Hne in Hf.
        discriminate.
  - intros id.
    destruct (DeleteApprovalFlow_flows s id) as [->| ->]; [auto|].
    repeat split.
    + now apply selected_keys_distinct.
    + now apply Forall_filter.
    + now apply selected_keys_distinct.
Qed.

(** The store with the flow of level HIGH, after a flow of level MEDIUM was
    created. *)
Lemma flow_writers_keep_one_flow_per_level_witness :
  one_flow_per_level (fst (CreateApprovalFlow sample.configured sample_more.medium_flow)).
Proof.
  apply (flow_store_facts.flow_writers_keep_one_flow_per_level sample.configured).
  - split; [repeat constructor; intros []|repeat constructor].
  - repeat constructor. intros [].
Defined.

(** *** Rewriting and deleting a flow *)

Lemma find_update_flow_row (update : ApprovalFlow.t) (id : Z) (l : list ApprovalFlow.t) :
  find (fun f => ApprovalFlow.ID f =? id) (map (update_flow_row update) l)
  = option_map (update_flow_row update) (find (fun f => ApprovalFlow.ID f =? id) l).
Proof.
  induction l as [|f l IH]; simpl; [reflexivity|].
  rewrite update_flow_row_ID. destruct (ApprovalFlow.ID f =? id); auto.
Qed.

Lemma filter_other_flow (id id' : Z) (l : list ApprovalNode.t) :
  id' <> id ->
  filter (fun n => ApprovalNode.FlowID n =? id')
    (filter (fun n => negb (ApprovalNode.FlowID n =? id)) l)
  = filter (fun n => ApprovalNode.FlowID n =? id') l.
Proof.
  intros Hne. induction l as [|n l IH]; simpl; [reflexivity|].
  destruct (ApprovalNode.FlowID n =? id) eqn:E; simpl.
  - apply Z.eqb_eq in E.
    replace (ApprovalNode.FlowID n =? id') with false; [exact IH|].
    symmetry. apply Z.eqb_neq. congruence.
  - rewrite IH. reflexivity.
Qed.

Lemma deleted_nodes_gone (id : Z) (l : list ApprovalNode.t) (n : ApprovalNode.t) :
  In n (filter (fun n => negb (ApprovalNode.FlowID n =? id)) l) ->
  ApprovalNode.FlowID n <> id.
Proof.
  intros Hin. apply filter_In in Hin as [_ Hn].
  apply negb_true_iff, Z.eqb_neq in Hn. exact Hn.
Qed.

(** X3.  UpdateApprovalFlow succeeds exactly when the id is positive, a flow
    carries it and no other flow has the requested level: it validates
    neither the title, nor the level, nor the nodes of the request.  On
    success the flow it returns is the flow as it was before the update, for
    the closing re-read does not see the rows of the open transaction.  The
    store holds the update: the flow is then read with the title,
    description, level, enabled flag and updater of the request and the
    creator it had; its nodes are those of the request, in order, stamped with
    the creator and updater of the request; every other flow is read as
    before. *)
Theorem UpdateApprovalFlow_rewrites_one_flow (s : DB) (update : ApprovalFlow.t) :
  (is_ok (snd (UpdateApprovalFlow s update)) = true
   <-> 0 < ApprovalFlow.ID update
       /\ is_ok (getApprovalFlowWithNodes s (ApprovalFlow.ID update)) = true
       /\ other_flow s (ApprovalFlow.SensitivityLevel update) (ApprovalFlow.ID update)
          <= 0)
  /\ (forall old,
         getApprovalFlowWithNodes s (ApprovalFlow.ID update) = Ok old ->
         is_ok (snd (UpdateApprovalFlow s update)) = true ->
         snd (UpdateApprovalFlow s update) = Ok old
         /\ (exists flow,
                GetApprovalFlow (fst (UpdateApprovalFlow s update))
                  (ApprovalFlow.ID update)
                = Ok flow
                /\ (ApprovalFlow.ID flow, ApprovalFlow.Title flow,
                    ApprovalFlow.Description flow, ApprovalFlow.SensitivityLevel flow,
                    ApprovalFlow.Enabled flow, ApprovalFlow.CreatorID flow,
                    ApprovalFlow.UpdaterID flow)
                   = (ApprovalFlow.ID update, ApprovalFlow.Title update,
                      ApprovalFlow.Description update,
                      ApprovalFlow.SensitivityLevel update,
                      ApprovalFlow.Enabled update, ApprovalFlow.CreatorID old,
                      ApprovalFlow.UpdaterID update)
                /\ map node_payload (ApprovalFlow.Nodes flow)
                   = map node_payload
                       (node_rows 0 (ApprovalFlow.ID update)
                          (ApprovalFlow.CreatorID update)
                          (ApprovalFlow.UpdaterID update) (ApprovalFlow.Nodes update)))
         /\ (forall id, id <> ApprovalFlow.ID update ->
                        getApprovalFlowWithNodes (fst (UpdateApprovalFlow s update)) id
                        = getApprovalFlowWithNodes s id)).
Proof.
  unfold UpdateApprovalFlow. cbv zeta.
  destruct (ApprovalFlow.ID update <=? 0) eqn:Hid.
  { apply Z.leb_le in Hid. split.
    - split; [discriminate|]. intros [H _]. lia.
    - intros old _ H. discriminate. }
  apply Z.leb_gt in Hid.
  destruct (getApprovalFlowWithNodes s (ApprovalFlow.ID update)) as [old0|e] eqn:Hold.
  2:{ split.
      - split; [discriminate|]. intros (_ & H & _). discriminate.
      - intros old H. discriminate. }
  destruct (0 <? other_flow s _ _) eqn:Hother.
  { apply Z.ltb_lt in Hother. split.
    - split; [discriminate|]. intros (_ & _ & H). lia.
    - intros old _ H. discriminate. }
  apply Z.ltb_ge in Hother.
  rewrite insert_nodes_rows.
  set (kept := filter (fun n => negb (ApprovalNode.FlowID n =? ApprovalFlow.ID update))
                 (approval_node s)).
  set (rows := node_rows _ _ _ _ _).
  assert (Hfound : exists f, find (fun f => ApprovalFlow.ID f =? ApprovalFlow.ID update)
                               (approval_flow s) = Some f
                             /\ ApprovalFlow.CreatorID f = ApprovalFlow.CreatorID old0).
  { unfold getApprovalFlowWithNodes in Hold.
    destruct (find _ (approval_flow s)) as [f|]; [|discriminate].
    exists f. split; [reflexivity|]. injection Hold as <-. reflexivity. }
  destruct Hfound as (f & Hf & Hcreator).
  pose proof (find_key_eq _ _ _ _ Hf) as [Hfid _].
  assert (Hnodes :
    getApprovalNodes
      (set_approval_node (kept ++ rows)
         (delete_nodes (ApprovalFlow.ID update)
            (set_approval_flow (map (update_flow_row update) (approval_flow s)) s)))
      (ApprovalFlow.ID update) = rows).
  { eapply getApprovalNodes_rows; [|reflexivity].
    intros n Hn. now apply deleted_nodes_gone in Hn. }
  assert (Hread :
    getApprovalFlowWithNodes
      (set_approval_node (kept ++ rows)
         (delete_nodes (ApprovalFlow.ID update)
            (set_approval_flow (map (update_flow_row update) (approval_flow s)) s)))
      (ApprovalFlow.ID update)
    = Ok (ApprovalFlow.mk (ApprovalFlow.ID f) (ApprovalFlow.Title update)
            (ApprovalFlow.Description update) (ApprovalFlow.SensitivityLevel update)
            rows (ApprovalFlow.Enabled update) (ApprovalFlow.CreatorID f)
            (ApprovalFlow.UpdaterID update))).
  { unfold getApprovalFlowWithNodes at 1. rewrite Hnodes.
    cbn [approval_flow set_approval_node delete_nodes set_approval_flow].
    rewrite find_update_flow_row, Hf. cbn [option_map].
    unfold update_flow_row. rewrite Hfid, Z.eqb_refl. reflexivity. }
  cbn [approval_node delete_nodes set_approval_node set_approval_flow] in *.
  fold kept. fold kept in Hread.
  cbn [fst snd is_ok]. split.
  - split; [intros _; repeat split; assumption|reflexivity].
  - intros old [= <-] _.
    split; [reflexivity|]. split.
    + eexists. split; [|split].
      * unfold GetApprovalFlow. apply Z.leb_gt in Hid. rewrite Hid. exact Hread.
      * cbn. rewrite Hfid, Hcreator. reflexivity.
      * cbn [ApprovalFlow.Nodes]. apply node_rows_payload.
    + intros id Hne. unfold getApprovalFlowWithNodes.
      unfold delete_nodes.
      cbn [fst approval_flow set_approval_node set_approval_flow].
      rewrite find_update_flow_row.
      destruct (find (fun f0 => ApprovalFlow.ID f0 =? id) (approval_flow s))
        as [g|] eqn:Hg; cbn [option_map]; [|reflexivity].
      pose proof (find_key_eq _ _ _ _ Hg) as [Hgid _].
      unfold update_flow_row. replace (ApprovalFlow.ID g =? ApprovalFlow.ID update)
        with false by (symmetry; apply Z.eqb_neq; congruence).
      f_equal. f_equal.
      eapply getApprovalNodes_other; [exact Hne| |reflexivity].
      now apply filter_other_flow.
Qed.

Lemma find_filter_ID (id id' : Z) (l : list ApprovalFlow.t) :
  find (fun f => ApprovalFlow.ID f =? id')
    (filter (fun f => negb (ApprovalFlow.ID f =? id)) l)
  = if id' =? id then None else find (fun f => ApprovalFlow.ID f =? id') l.
Proof.
  induction l as [|f l IH]; simpl; [now destruct (id' =? id)|].
  destruct (ApprovalFlow.ID f =? id) eqn:E; simpl.
  - rewrite IH. apply Z.eqb_eq in E.
    destruct (id' =? id) eqn:E'; [reflexivity|].
    replace (ApprovalFlow.ID f =? id') with false; [reflexivity|].
    symmetry. apply Z.eqb_neq. apply Z.eqb_neq in E'. congruence.
  - destruct (ApprovalFlow.ID f =? id') eqn:E'.
    + apply Z.eqb_eq in E'. apply Z.eqb_neq in E.
      replace (id' =? id) with false; [reflexivity|].
      symmetry. apply Z.eqb_neq. congruence.
    + exact IH.
Qed.

(** X4.  DeleteApprovalFlow succeeds exactly when the id is positive and a
    flow carries it, and otherwise leaves the store as it is.  On success the
    flow is no longer found and has no node left, every other flow is read
    as before, and the executions, node executions and approvals are not
    touched: executions of the deleted flow stay in the store. *)
Theorem DeleteApprovalFlow_removes_flow_and_nodes (s : DB) (id : Z) :
  (snd (DeleteApprovalFlow s id) = None
   <-> 0 < id /\ is_ok (getApprovalFlowWithNodes s id) = true)
  /\ (snd (DeleteApprovalFlow s id) <> None -> fst (DeleteApprovalFlow s id) = s)
  /\ (snd (DeleteApprovalFlow s id) = None ->
      GetApprovalFlow (fst (DeleteApprovalFlow s id)) id = Err "approval flow not found"
      /\ getApprovalNodes (fst (DeleteApprovalFlow s id)) id = []
      /\ (forall id', id' <> id ->
                      getApprovalFlowWithNodes (fst (DeleteApprovalFlow s id)) id'
                      = getApprovalFlowWithNodes s id')
      /\ approval_flow_execution (fst (DeleteApprovalFlow s id))
         = approval_flow_execution s
      /\ approval_node_execution (fst (DeleteApprovalFlow s id))
         = approval_node_execution s
      /\ approval (fst (DeleteApprovalFlow s id)) = approval s).
Proof.
  unfold DeleteApprovalFlow. cbv zeta.
  destruct (id <=? 0) eqn:Hid.
  { apply Z.leb_le in Hid. cbn [fst snd]. split; [|split].
    - split; [discriminate|]. intros [H _]. lia.
    - reflexivity.
    - discriminate. }
  destruct (getApprovalFlowWithNodes s id) as [old|e] eqn:Hold; cbn [fst snd is_ok].
  2:{ split; [|split].
      - split; [discriminate|]. intros [_ H]. discriminate.
      - reflexivity.
      - discriminate. }
  apply Z.leb_gt in Hid. split; [|split].
  - split; [intros _; split; [assumption|reflexivity]|reflexivity].
  - congruence.
  - intros _. split; [|split; [|split; [|repeat split]]].
    + unfold GetApprovalFlow, getApprovalFlowWithNodes.
      apply Z.leb_gt in Hid. rewrite Hid.
      cbn [approval_flow set_approval_flow delete_nodes set_approval_node].
      rewrite find_filter_ID, Z.eqb_refl. reflexivity.
    + unfold getApprovalNodes.
      cbn [approval_node set_approval_flow delete_nodes set_approval_node].
      rewrite filter_nothing; [reflexivity|].
      intros n Hn. apply deleted_nodes_gone in Hn. now apply Z.eqb_neq.
    + intros id' Hne. unfold getApprovalFlowWithNodes, getApprovalNodes.
      cbn [approval_flow approval_node set_approval_flow delete_nodes set_approval_node].
      rewrite find_filter_ID.
      replace (id' =? id) with false by (symmetry; now apply Z.eqb_neq).
      rewrite filter_other_flow by assumption. reflexivity.
Qed.

(** X5.  The approver ids of a node are read back from the column
    approver_ids as they were written exactly when no id holds a comma and the
    list is not the single empty id: an id with a comma comes back in parts,
    and the list of one empty id comes back empty. *)
Theorem approver_ids_round_trip (ids : list string) :
  scan_approver_ids (gostrings.Join ids ",") = ids
  <-> Forall (fun id => gostrings.contains ","%char id = false) ids
      /\ ids <> [EmptyString].
Proof.
  unfold scan_approver_ids. split.
  - destruct (String.eqb (gostrings.Join ids ",") "") eqn:E.
    + intros <-. split; [constructor|discriminate].
    + intros Hsplit. apply String.eqb_neq in E.
      assert (Hne : ids <> []) by (intros ->; apply E; reflexivity).
      split.
      * apply text_facts.no_count_Forall.
        pose proof (text_facts.Split_length ","%char EmptyString
                      (gostrings.Join ids ",")) as Hlen.
        fold (strings.Split (gostrings.Join ids ",") ","%char) in Hlen.
        rewrite Hsplit, text_facts.count_Join in Hlen by assumption.
        destruct ids; [congruence|]. simpl in Hlen. simpl. lia.
      * intros ->. apply E. reflexivity.
  - intros [Hall Hne].
    destruct (String.eqb (gostrings.Join ids ",") "") eqn:E.
    + apply String.eqb_eq in E.
      apply text_facts.Join_empty in E as [->| ->]; [reflexivity|congruence|discriminate].
    + apply text_facts.Split_Join; [|assumption].
      intros ->. discriminate.
Qed.

End flow_store_facts.

(** ** Executions and approvals *)

Module execution_store_facts.
Import store flow_store notions table_facts engine.

(** X7.  UpdateApprovalFlowExecution on a stored execution always succeeds,
    whatever the old and the new status: it overwrites the status and the
    updater of that execution and nothing else.  The execution is then read
    with its other fields and its node executions as before, every other
    execution is read as before, and no other table changes. *)
Theorem UpdateApprovalFlowExecution_overwrites_status_and_updater
    (s : DB) (update old : ApprovalFlowExecution.t) :
  0 < ApprovalFlowExecution.ID update ->
  getApprovalFlowExecutionWithNodeExecutions s (ApprovalFlowExecution.ID update) = Ok old ->
  snd (UpdateApprovalFlowExecution s update)
  = Ok (ApprovalFlowExecution.with_Status_Updater
          (ApprovalFlowExecution.Status update) (ApprovalFlowExecution.UpdaterID update)
          old)
  /\ GetApprovalFlowExecution (fst (UpdateApprovalFlowExecution s update))
       (ApprovalFlowExecution.ID update)
     = snd (UpdateApprovalFlowExecution s update)
  /\ (forall id, id <> ApprovalFlowExecution.ID update ->
                 getApprovalFlowExecutionWithNodeExecutions
                   (fst (UpdateApprovalFlowExecution s update)) id
                 = getApprovalFlowExecutionWithNodeExecutions s id)
  /\ set_approval_flow_execution (approval_flow_execution s)
       (fst (UpdateApprovalFlowExecution s update)) = s.
Proof.
  intros Hid Hold. unfold UpdateApprovalFlowExecution.
  pose proof Hid as Hid'. apply Z.leb_gt in Hid'. rewrite Hid', Hold.
  set (s1 := set_approval_flow_execution _ s).
  assert (Hget : forall id,
    getApprovalFlowExecutionWithNodeExecutions s1 id
    = match getApprovalFlowExecutionWithNodeExecutions s id with
      | Ok e =>
        Ok (if ApprovalFlowExecution.ID e =? ApprovalFlowExecution.ID update
            then ApprovalFlowExecution.with_Status_Updater
                   (ApprovalFlowExecution.Status update)
                   (ApprovalFlowExecution.UpdaterID update) e
            else e)
      | Err e => Err e
      end).
  { intros id. unfold getApprovalFlowExecutionWithNodeExecutions, s1.
    cbn [approval_flow_execution set_approval_flow_execution].
    rewrite (find_map_update ApprovalFlowExecution.ID) by reflexivity.
    change (getApprovalNodeExecutions (set_approval_flow_execution ?l s) id)
      with (getApprovalNodeExecutions s id).
    destruct (find _ (approval_flow_execution s)) as [e|]; cbn [option_map];
      [|reflexivity].
    cbn [ApprovalFlowExecution.ID ApprovalFlowExecution.with_NodeExecutions].
    destruct (ApprovalFlowExecution.ID e =? ApprovalFlowExecution.ID update);
      reflexivity. }
  assert (Holdid : ApprovalFlowExecution.ID old = ApprovalFlowExecution.ID update).
  { unfold getApprovalFlowExecutionWithNodeExecutions in Hold.
    destruct (find _ (approval_flow_execution s)) as [e|] eqn:E; [|discriminate].
    apply find_key_eq in E as [He _]. injection Hold as <-. exact He. }
  rewrite (Hget (ApprovalFlowExecution.ID update)), Hold, Holdid, Z.eqb_refl.
  cbn [fst snd]. split; [reflexivity|]. split; [|split].
  - unfold GetApprovalFlowExecution. rewrite Hid', Hget, Hold, Holdid, Z.eqb_refl.
    reflexivity.
  - intros id Hne. rewrite Hget.
    destruct (getApprovalFlowExecutionWithNodeExecutions s id) as [e|] eqn:E;
      [|reflexivity].
    assert (ApprovalFlowExecution.ID e = id).
    { unfold getApprovalFlowExecutionWithNodeExecutions in E.
      destruct (find _ (approval_flow_execution s)) as [e0|] eqn:E0; [|discriminate].
      apply find_key_eq in E0 as [He _]. injection E as <-. exact He. }
    replace (ApprovalFlowExecution.ID e =? ApprovalFlowExecution.ID update) with false;
      [reflexivity|].
    symmetry. apply Z.eqb_neq. congruence.
  - unfold s1. destruct s; reflexivity.
Qed.

(** The execution of issue 5, IN_PROGRESS, set to REJECTED. *)
Lemma UpdateApprovalFlowExecution_overwrites_status_and_updater_witness :
  snd (UpdateApprovalFlowExecution sample.started
         (sample.execution1 ApprovalFlowExecutionStatus_REJECTED))
  = Ok (ApprovalFlowExecution.with_Status_Updater ApprovalFlowExecutionStatus_REJECTED 9
          sample_more.execution5).
Proof.
  apply (execution_store_facts.UpdateApprovalFlowExecution_overwrites_status_and_updater
           sample.started (sample.execution1 ApprovalFlowExecutionStatus_REJECTED)
           sample_more.execution5).
  - reflexivity.
  - reflexivity.
Defined.

(** X8.  An approval CreateApproval recorded carries a fresh id and the node
    execution, user, decision and comment of the request; GetApproval then
    returns it under its id, it heads the approvals of its node execution,
    which are otherwise as before, and the approvals of every other node
    execution are as before. *)
Theorem CreateApproval_round_trip (s s' : DB) (create a : Approval.t) :
  CreateApproval s create = (s', Ok a) ->
  a = stored s create
  /\ flow_store.GetApproval s' (Approval.ID a) = Ok a
  /\ getApprovals s' (Approval.NodeExecutionID create)
     = a :: getApprovals s (Approval.NodeExecutionID create)
  /\ (forall id, id <> Approval.NodeExecutionID create ->
                 getApprovals s' id = getApprovals s id).
Proof.
  intros Hcreate.
  assert (Hrows : a = stored s create /\ approval s' = approval s ++ [a]).
  { revert Hcreate. unfold CreateApproval, getApprovalNodeExecution, stored. cbv zeta.
    destruct (Approval.NodeExecutionID create <=? 0); [discriminate|].
    destruct (Approval.UserID create <=? 0); [discriminate|].
    destruct (Approval.Status create); [discriminate| |];
      (destruct (find _ (approval_node_execution s)) as [ne|]; [|discriminate]);
      (destruct (countApprovals _) as [x r]);
      (destruct (required_approvals _ _) as [req|]; [|discriminate]);
      destruct (decide_status x r req);
      try (destruct (0 <? next_node_id _ _ _);
           [destruct (node_execution_of _ _ _); [|discriminate]|]);
      intros [= <- <-]; split; reflexivity. }
  destruct Hrows as [Ha Hrows]. split; [exact Ha|].
  assert (Hid : Approval.ID a = LastInsertId Approval.ID (approval s))
    by (rewrite Ha; reflexivity).
  assert (Hne : Approval.NodeExecutionID a = Approval.NodeExecutionID create)
    by (rewrite Ha; reflexivity).
  split; [|split].
  - unfold flow_store.GetApproval.
    pose proof (LastInsertId_pos Approval.ID (approval s)) as Hpos.
    rewrite <- Hid in Hpos. apply Z.leb_gt in Hpos. rewrite Hpos, Hrows.
    rewrite (find_appended Approval.ID); [reflexivity| |reflexivity].
    intros y Hy. apply (LastInsertId_above Approval.ID) in Hy. lia.
  - unfold getApprovals. rewrite Hrows, filter_app. cbn [filter].
    rewrite Hne, Z.eqb_refl, rev_app_distr. reflexivity.
  - intros id Hother. unfold getApprovals. rewrite Hrows, filter_app. cbn [filter].
    replace (Approval.NodeExecutionID a =? id) with false
      by (symmetry; apply Z.eqb_neq; congruence).
    now rewrite app_nil_r.
Qed.

(** The approval of user 10 on node execution 1. *)
Lemma CreateApproval_round_trip_witness :
  getApprovals sample.approved_once 1
  = stored sample.started (sample.approve 1 10) :: getApprovals sample.started 1.
Proof.
  apply (execution_store_facts.CreateApproval_round_trip sample.started
           sample.approved_once (sample.approve 1 10)
           (stored sample.started (sample.approve 1 10))).
  reflexivity.
Defined.

(** X9.  When CreateApproval returns an error, the error tells what was
    stored.  A request that fails the validation, or names no node execution,
    leaves the store as it is.  The two errors raised after the insert keep
    it: when the node of the node execution is not found the decision is
    stored and nothing else changes, and when the next node has no node
    execution the decision is stored and the node execution is APPROVED. *)
Theorem CreateApproval_error_tells_what_is_stored
    (s : DB) (create : Approval.t) (e : string) :
  snd (CreateApproval s create) = Err e ->
  (In e ["node execution ID is required"%string; "user ID is required"%string;
         "status is required"%string; "approval node execution not found"%string]
   /\ fst (CreateApproval s create) = s)
  \/ (e = Wrap ErrNoRows "failed to get required approvals for node"
      /\ fst (CreateApproval s create)
         = set_approval (approval s ++ [stored s create]) s)
  \/ (e = Wrap ErrNoRows "failed to get next approval node execution"
      /\ fst (CreateApproval s create)
         = update_node_execution_status
             ApprovalNodeExecutionStatus_APPROVAL_NODE_EXECUTION_STATUS_APPROVED
             (Approval.NodeExecutionID create)
             (set_approval (approval s ++ [stored s create]) s)).
Proof.
  unfold CreateApproval, getApprovalNodeExecution, stored. cbv zeta.
  destruct (Approval.NodeExecutionID create <=? 0);
    [intros [= <-]; left; simpl; auto|].
  destruct (Approval.UserID create <=? 0); [intros [= <-]; left; simpl; auto|].
  destruct (Approval.Status create); [intros [= <-]; left; simpl; auto| |];
    (destruct (find _ (approval_node_execution s)) as [ne|];
     [|intros [= <-]; left; simpl; auto 10]);
    (destruct (countApprovals _) as [a r]);
    (destruct (required_approvals _ _) as [req|];
     [|intros [= <-]; right; left; split; reflexivity]);
    destruct (decide_status a r req); try discriminate;
    destruct (0 <? next_node_id _ _ _); try discriminate;
    destruct (node_execution_of _ _ _); try discriminate;
    intros [= <-]; right; right; split; reflexivity.
Qed.

(** An approval on a node execution whose node is no longer stored. *)
Lemma CreateApproval_error_tells_what_is_stored_witness :
  (In (Wrap ErrNoRows "failed to get required approvals for node")
      ["node execution ID is required"%string; "user ID is required"%string;
       "status is required"%string; "approval node execution not found"%string]
   /\ fst (CreateApproval sample_more.orphaned (sample.approve 1 10))
      = sample_more.orphaned)
  \/ (Wrap ErrNoRows "failed to get required approvals for node"
      = Wrap ErrNoRows "failed to get required approvals for node"
      /\ fst (CreateApproval sample_more.orphaned (sample.approve 1 10))
         = set_approval (approval sample_more.orphaned
                         ++ [stored sample_more.orphaned (sample.approve 1 10)])
             sample_more.orphaned)
  \/ (Wrap ErrNoRows "failed to get required approvals for node"
      = Wrap ErrNoRows "failed to get next approval node execution"
      /\ fst (CreateApproval sample_more.orphaned (sample.approve 1 10))
         = update_node_execution_status
             ApprovalNodeExecutionStatus_APPROVAL_NODE_EXECUTION_STATUS_APPROVED 1
             (set_approval (approval sample_more.orphaned
                            ++ [stored sample_more.orphaned (sample.approve 1 10)])
                sample_more.orphaned)).
Proof.
  apply (execution_store_facts.CreateApproval_error_tells_what_is_stored
           sample_more.orphaned (sample.approve 1 10)).
  reflexivity.
Defined.

End execution_store_facts.

(** ** Sensitive data rules *)

Module rule_store_facts.
Import store rule_store notions table_facts.

Lemma update_rule_row_ID (update r : SensitiveDataRule.t) :
  SensitiveDataRule.ID (update_rule_row update r) = SensitiveDataRule.ID r.
Proof.
  unfold update_rule_row.
  destruct (SensitiveDataRule.ID r =? SensitiveDataRule.ID update); reflexivity.
Qed.

Lemma find_update_rule_row (update : SensitiveDataRule.t) (id : Z)
    (l : list SensitiveDataRule.t) :
  find (fun r => SensitiveDataRule.ID r =? id) (map (update_rule_row update) l)
  = option_map (update_rule_row update)
      (find (fun r => SensitiveDataRule.ID r =? id) l).
Proof.
  induction l as [|r l IH]; simpl; [reflexivity|].
  rewrite update_rule_row_ID. destruct (SensitiveDataRule.ID r =? id); auto.
Qed.

(** What the three writers do to the table of rules. *)
Lemma CreateSensitiveDataRule_rules (s : DB) (create : SensitiveDataRule.t) :
  fst (CreateSensitiveDataRule s create) = s
  \/ (existing_rule s (SensitiveDataRule.Title create) <= 0
      /\ fst (CreateSensitiveDataRule s create)
         = set_sensitive_data_rule
             (sensitive_data_rule s
              ++ [rule_row (LastInsertId SensitiveDataRule.ID (sensitive_data_rule s))
                    create]) s).
Proof.
  unfold CreateSensitiveDataRule. cbv zeta.
  destruct (String.eqb (SensitiveDataRule.Title create) ""); [now left|].
  destruct (SensitiveDataRule.Level create); [now left| | |];
    (destruct (0 <? existing_rule s _) eqn:He; [now left|]);
    apply Z.ltb_ge in He; right; (split; [exact He|]); reflexivity.
Qed.

(** While the new id is an int32 value, a rule that passes the checks is read
    back as it was inserted. *)
Lemma CreateSensitiveDataRule_read_back (s : DB) (create : SensitiveDataRule.t) :
  LastInsertId SensitiveDataRule.ID (sensitive_data_rule s) < 2 ^ 31 ->
  is_ok (snd (CreateSensitiveDataRule s create)) = false
  \/ CreateSensitiveDataRule s create
     = (set_sensitive_data_rule
          (sensitive_data_rule s
           ++ [rule_row (LastInsertId SensitiveDataRule.ID (sensitive_data_rule s))
                 create]) s,
        Ok (rule_row (LastInsertId SensitiveDataRule.ID (sensitive_data_rule s))
              create)).
Proof.
  intros Hfits. unfold CreateSensitiveDataRule. cbv zeta.
  destruct (String.eqb (SensitiveDataRule.Title create) ""); [now left|].
  pose proof (LastInsertId_pos SensitiveDataRule.ID (sensitive_data_rule s)) as Hpos.
  rewrite (wrap32_small (LastInsertId SensitiveDataRule.ID (sensitive_data_rule s)))
    by lia.
  assert (Hget :
    GetSensitiveDataRule
      (set_sensitive_data_rule
         (sensitive_data_rule s
          ++ [rule_row (LastInsertId SensitiveDataRule.ID (sensitive_data_rule s))
                create]) s)
      (LastInsertId SensitiveDataRule.ID (sensitive_data_rule s))
    = Ok (rule_row (LastInsertId SensitiveDataRule.ID (sensitive_data_rule s)) create)).
  { unfold GetSensitiveDataRule.
    apply Z.leb_gt in Hpos. rewrite Hpos.
    cbn [sensitive_data_rule set_sensitive_data_rule].
    rewrite (find_appended SensitiveDataRule.ID); [reflexivity| |reflexivity].
    intros y Hy. apply (LastInsertId_above SensitiveDataRule.ID) in Hy. lia. }
  destruct (SensitiveDataRule.Level create); [now left| | |];
    (destruct (0 <? existing_rule s _) eqn:He; [now left|]);
    right; rewrite Hget; reflexivity.
Qed.

Lemma UpdateSensitiveDataRule_rules (s : DB) (update : SensitiveDataRule.t) :
  fst (UpdateSensitiveDataRule s update) = s
  \/ (other_rule s (SensitiveDataRule.Title update) (SensitiveDataRule.ID update) <= 0
      /\ sensitive_data_rule (fst (UpdateSensitiveDataRule s update))
         = map (update_rule_row update) (sensitive_data_rule s)).
Proof.
  unfold UpdateSensitiveDataRule. cbv zeta.
  destruct (SensitiveDataRule.ID update <=? 0); [now left|].
  destruct (GetSensitiveDataRule s (SensitiveDataRule.ID update)); [|now left].
  destruct (0 <? other_rule s _ _) eqn:He; [now left|].
  apply Z.ltb_ge in He. right. split; [exact He|reflexivity].
Qed.

Lemma DeleteSensitiveDataRule_rules (s : DB) (id : Z) :
  fst (DeleteSensitiveDataRule s id) = s
  \/ sensitive_data_rule (fst (DeleteSensitiveDataRule s id))
     = filter (fun r => negb (SensitiveDataRule.ID r =? id)) (sensitive_data_rule s).
Proof.
  unfold DeleteSensitiveDataRule.
  destruct (id <=? 0); [now left|].
  destruct (GetSensitiveDataRule s id); [|now left].
  right. reflexivity.
Qed.

Lemma update_rule_rows_titles (update : SensitiveDataRule.t)
    (l : list SensitiveDataRule.t) :
  NoDup (map SensitiveDataRule.ID l) ->
  NoDup (map SensitiveDataRule.Title l) ->
  (forall r, In r l -> SensitiveDataRule.ID r <> SensitiveDataRule.ID update ->
             SensitiveDataRule.Title r <> SensitiveDataRule.Title update) ->
  NoDup (map SensitiveDataRule.Title (map (update_rule_row update) l)).
Proof.
  induction l as [|f l IH]; simpl; [constructor|].
  intros Hid Hlv Hother.
  inversion Hid as [|? ? Hidf Hid']; subst.
  inversion Hlv as [|? ? Hlvf Hlv']; subst.
  constructor.
  - intros Hin. apply in_map_iff in Hin as (g' & Hg' & Hin).
    apply in_map_iff in Hin as (g & <- & Hg).
    unfold update_rule_row in Hg'.
    assert (Hfg : SensitiveDataRule.ID f <> SensitiveDataRule.ID g).
    { intros Heq. apply Hidf. rewrite Heq. now apply in_map. }
    destruct (SensitiveDataRule.ID g =? SensitiveDataRule.ID update) eqn:Eg;
      destruct (SensitiveDataRule.ID f =? SensitiveDataRule.ID update) eqn:Ef;
      cbn [SensitiveDataRule.Title] in Hg'.
    + apply Z.eqb_eq in Eg, Ef. congruence.
    + apply Z.eqb_neq in Ef. apply (Hother f); auto.
    + apply Z.eqb_neq in Eg. apply (Hother g); auto.
    + apply Hlvf. rewrite <- Hg'. now apply in_map.
  - apply IH; auto.
Qed.

(** X10.  The three writers of the table of rules keep the titles of the
    rules distinct, and keep the ids of the rules positive and distinct,
    whether they succeed or fail. *)
Theorem rule_writers_keep_titles_distinct (s : DB) :
  primary_key SensitiveDataRule.ID (sensitive_data_rule s) ->
  one_rule_per_title s ->
  (forall create,
      primary_key SensitiveDataRule.ID
        (sensitive_data_rule (fst (CreateSensitiveDataRule s create)))
      /\ one_rule_per_title (fst (CreateSensitiveDataRule s create)))
  /\ (forall update,
         primary_key SensitiveDataRule.ID
           (sensitive_data_rule (fst (UpdateSensitiveDataRule s update)))
         /\ one_rule_per_title (fst (UpdateSensitiveDataRule s update)))
  /\ (forall id,
         primary_key SensitiveDataRule.ID
           (sensitive_data_rule (fst (DeleteSensitiveDataRule s id)))
         /\ one_rule_per_title (fst (DeleteSensitiveDataRule s id))).
Proof.
  intros [Hnd Hpos] Hlv. unfold one_rule_per_title, primary_key in *.
  split; [|split].
  - intros create.
    destruct (CreateSensitiveDataRule_rules s create) as [->|(Hex & ->)]; [auto|].
    cbn [fst sensitive_data_rule set_sensitive_data_rule].
    assert (Hnone : forall r, In r (sensitive_data_rule s) ->
                      SensitiveDataRule.Title r <> SensitiveDataRule.Title create).
    { intros r Hr Heq. unfold existing_rule in Hex.
      destruct (find _ (sensitive_data_rule s)) as [g|] eqn:E.
      - apply find_some in E as [Hg _].
        rewrite Forall_forall in Hpos. specialize (Hpos g Hg). lia.
      - apply (find_none _ _ E) in Hr. rewrite Heq, String.eqb_refl in Hr.
        discriminate. }
    rewrite !map_app. simpl. repeat split.
    + apply NoDup_app; [assumption|repeat constructor; simpl; tauto|].
      intros x Hx [<-|[]]. apply in_map_iff in Hx as (f & Hfx & Hf).
      apply (LastInsertId_above SensitiveDataRule.ID) in Hf. lia.
    + apply Forall_app. split; [assumption|]. constructor; [|constructor].
      apply LastInsertId_pos.
    + apply NoDup_app; [assumption|repeat constructor; simpl; tauto|].
      intros x Hx [<-|[]]. apply in_map_iff in Hx as (f & Hfx & Hf).
      apply (Hnone f Hf). congruence.
  - intros update.
    destruct (UpdateSensitiveDataRule_rules s update) as [->|(Hother & ->)]; [auto|].
    repeat split.
    + rewrite map_map. erewrite map_ext; [exact Hnd|].
      intros r. apply update_rule_row_ID.
    + rewrite Forall_forall in *. intros r' Hr'.
      apply in_map_iff in Hr' as (r & <- & Hr).
      rewrite update_rule_row_ID. auto.
    + apply update_rule_rows_titles; try assumption.
      intros r Hr Hne Heq. unfold other_rule in Hother.
      destruct (find _ (sensitive_data_rule s)) as [g|] eqn:E.
      * apply find_some in E as [Hg _].
        rewrite Forall_forall in Hpos. specialize (Hpos g Hg). lia.
      * apply (find_none _ _ E) in Hr.
        rewrite Heq, String.eqb_refl in Hr. apply Z.eqb_neq in Hne.
        rewrite Hne in Hr. discriminate.
  - intros id.
    destruct (DeleteSensitiveDataRule_rules s id) as [->| ->]; [auto|].
    repeat split.
    + now apply selected_keys_distinct.
    + now apply Forall_filter.
    + now apply selected_keys_distinct.
Qed.

(** The store with the rule email, after the rule phone was created. *)
Lemma rule_writers_keep_titles_distinct_witness :
  one_rule_per_title
    (fst (CreateSensitiveDataRule sample_more.ruled (sample_more.phone_rule 0))).
Proof.
  apply (rule_store_facts.rule_writers_keep_titles_distinct sample_more.ruled).
  - split; [repeat constructor; intros []|repeat constructor].
  - repeat constructor. intros [].
Defined.

Lemma filter_appended_out (id : Z) (l : list SensitiveDataRule.t)
    (x : SensitiveDataRule.t) :
  (forall r, In r l -> SensitiveDataRule.ID r <> id) -> SensitiveDataRule.ID x = id ->
  filter (fun r => negb (SensitiveDataRule.ID r =? id)) (l ++ [x]) = l.
Proof.
  intros Hl Hx. rewrite filter_app. simpl. rewrite Hx, Z.eqb_refl. simpl.
  rewrite app_nil_r. apply filter_all. intros r Hr.
  apply negb_true_iff, Z.eqb_neq. now apply Hl.
Qed.

(** X11.  While the id of the new row is an int32 value, a rule
    CreateSensitiveDataRule created is the request under a fresh id;
    GetSensitiveDataRule returns it under that id, it heads the unfiltered
    list of rules, which is otherwise as before, and deleting it again leaves
    every table as it was.  The bound is needed because the rule is read back
    under the id converted to int32. *)
Theorem CreateSensitiveDataRule_round_trip
    (s s' : DB) (create rule : SensitiveDataRule.t) :
  LastInsertId SensitiveDataRule.ID (sensitive_data_rule s) < 2 ^ 31 ->
  CreateSensitiveDataRule s create = (s', Ok rule) ->
  rule = rule_row (LastInsertId SensitiveDataRule.ID (sensitive_data_rule s)) create
  /\ GetSensitiveDataRule s' (SensitiveDataRule.ID rule) = Ok rule
  /\ ListSensitiveDataRules s' None = rule :: ListSensitiveDataRules s None
  /\ DeleteSensitiveDataRule s' (SensitiveDataRule.ID rule) = (s, None).
Proof.
  intros Hfits Hcreate.
  destruct (CreateSensitiveDataRule_read_back s create Hfits) as [Hfail|Heq].
  { rewrite Hcreate in Hfail. discriminate. }
  rewrite Hcreate in Heq. injection Heq as -> ->.
  set (id := LastInsertId SensitiveDataRule.ID (sensitive_data_rule s)).
  assert (Hfresh : forall r, In r (sensitive_data_rule s) ->
                     SensitiveDataRule.ID r <> id).
  { intros y Hy. apply (LastInsertId_above SensitiveDataRule.ID) in Hy.
    unfold id. lia. }
  assert (Hget :
    GetSensitiveDataRule
      (set_sensitive_data_rule (sensitive_data_rule s ++ [rule_row id create]) s) id
    = Ok (rule_row id create)).
  { unfold GetSensitiveDataRule.
    pose proof (LastInsertId_pos SensitiveDataRule.ID (sensitive_data_rule s)) as Hpos.
    apply Z.leb_gt in Hpos. fold id in Hpos. rewrite Hpos.
    cbn [sensitive_data_rule set_sensitive_data_rule].
    rewrite (find_appended SensitiveDataRule.ID); [reflexivity|exact Hfresh|reflexivity]. }
  split; [reflexivity|]. split; [exact Hget|]. split.
  - unfold ListSensitiveDataRules, filter_.
    cbn [sensitive_data_rule set_sensitive_data_rule].
    rewrite filter_app, rev_app_distr. reflexivity.
  - unfold DeleteSensitiveDataRule.
    change (SensitiveDataRule.ID (rule_row id create)) with id.
    rewrite Hget.
    pose proof (LastInsertId_pos SensitiveDataRule.ID (sensitive_data_rule s)) as Hpos.
    apply Z.leb_gt in Hpos. fold id in Hpos. rewrite Hpos.
    cbn [sensitive_data_rule set_sensitive_data_rule].
    rewrite filter_appended_out by (auto; reflexivity).
    destruct s; reflexivity.
Qed.

(** The rule phone, created and deleted again. *)
Lemma CreateSensitiveDataRule_round_trip_witness :
  DeleteSensitiveDataRule
    (fst (CreateSensitiveDataRule sample_more.ruled (sample_more.phone_rule 0))) 2
  = (sample_more.ruled, None).
Proof.
  apply (rule_store_facts.CreateSensitiveDataRule_round_trip sample_more.ruled
           (fst (CreateSensitiveDataRule sample_more.ruled (sample_more.phone_rule 0)))
           (sample_more.phone_rule 0) (sample_more.phone_rule 2)).
  - reflexivity.
  - reflexivity.
Defined.

(** X12.  UpdateSensitiveDataRule succeeds exactly when the id is positive,
    a rule carries it and no other rule has the requested title; it
    validates neither the title nor the level of the request.  On success
    the rule is read back as the request, with the id and the creator it
    had; every other rule is read as before and no other table changes. *)
Theorem UpdateSensitiveDataRule_rewrites_one_rule
    (s : DB) (update : SensitiveDataRule.t) :
  (is_ok (snd (UpdateSensitiveDataRule s update)) = true
   <-> is_ok (GetSensitiveDataRule s (SensitiveDataRule.ID update)) = true
       /\ other_rule s (SensitiveDataRule.Title update) (SensitiveDataRule.ID update)
          <= 0)
  /\ (forall old,
         GetSensitiveDataRule s (SensitiveDataRule.ID update) = Ok old ->
         is_ok (snd (UpdateSensitiveDataRule s update)) = true ->
         snd (UpdateSensitiveDataRule s update)
         = Ok (SensitiveDataRule.mk (SensitiveDataRule.ID update)
                 (SensitiveDataRule.Title update)
                 (SensitiveDataRule.Description update)
                 (SensitiveDataRule.Level update)
                 (SensitiveDataRule.DatabaseType update)
                 (SensitiveDataRule.TablePattern update)
                 (SensitiveDataRule.ColumnPattern update)
                 (SensitiveDataRule.DataType update)
                 (SensitiveDataRule.RegexPattern update)
                 (SensitiveDataRule.Enabled update)
                 (SensitiveDataRule.CreatorID old)
                 (SensitiveDataRule.UpdaterID update))
         /\ GetSensitiveDataRule (fst (UpdateSensitiveDataRule s update))
              (SensitiveDataRule.ID update)
            = snd (UpdateSensitiveDataRule s update)
         /\ (forall id, id <> SensitiveDataRule.ID update ->
                        GetSensitiveDataRule (fst (UpdateSensitiveDataRule s update)) id
                        = GetSensitiveDataRule s id)
         /\ set_sensitive_data_rule (sensitive_data_rule s)
              (fst (UpdateSensitiveDataRule s update)) = s).
Proof.
  unfold UpdateSensitiveDataRule. cbv zeta.
  destruct (SensitiveDataRule.ID update <=? 0) eqn:Hid.
  { assert (Hget : GetSensitiveDataRule s (SensitiveDataRule.ID update)
                   = Err "invalid sensitive data rule ID").
    { unfold GetSensitiveDataRule. now rewrite Hid. }
    rewrite Hget. split.
    - split; [discriminate|]. intros [H _]. discriminate.
    - intros old H. discriminate. }
  destruct (GetSensitiveDataRule s (SensitiveDataRule.ID update)) as [old0|e] eqn:Hold.
  2:{ split.
      - split; [discriminate|]. intros [H _]. discriminate.
      - intros old H. discriminate. }
  destruct (0 <? other_rule s _ _) eqn:Hother.
  { apply Z.ltb_lt in Hother. split.
    - split; [discriminate|]. intros [_ H]. lia.
    - intros old _ H. discriminate. }
  apply Z.ltb_ge in Hother. cbn [fst snd].
  assert (Hfound : find (fun r => SensitiveDataRule.ID r =? SensitiveDataRule.ID update)
                     (sensitive_data_rule s) = Some old0).
  { unfold GetSensitiveDataRule in Hold. rewrite Hid in Hold.
    destruct (find _ (sensitive_data_rule s)); congruence. }
  pose proof (find_key_eq _ _ _ _ Hfound) as [Holdid _].
  assert (Hget : forall id,
    GetSensitiveDataRule
      (set_sensitive_data_rule (map (update_rule_row update) (sensitive_data_rule s)) s)
      id
    = match GetSensitiveDataRule s id with
      | Ok r => Ok (update_rule_row update r)
      | Err e => Err e
      end).
  { intros id. unfold GetSensitiveDataRule.
    destruct (id <=? 0); [reflexivity|].
    cbn [sensitive_data_rule set_sensitive_data_rule].
    rewrite find_update_rule_row.
    destruct (find (fun r => SensitiveDataRule.ID r =? id) (sensitive_data_rule s));
      reflexivity. }
  rewrite (Hget (SensitiveDataRule.ID update)), Hold. split.
  - split; [intros _; split; [reflexivity|assumption]|reflexivity].
  - intros old [= <-] _. split; [|split; [|split]].
    + unfold update_rule_row. rewrite Holdid, Z.eqb_refl. reflexivity.
    + reflexivity.
    + intros id Hne. rewrite Hget.
      destruct (GetSensitiveDataRule s id) as [r|] eqn:Hr; [|reflexivity].
      assert (SensitiveDataRule.ID r = id).
      { unfold GetSensitiveDataRule in Hr. destruct (id <=? 0); [discriminate|].
        destruct (find (fun r => SensitiveDataRule.ID r =? id) (sensitive_data_rule s))
          as [r0|] eqn:E; [|discriminate].
        apply find_key_eq in E as [He _]. injection Hr as <-. exact He. }
      unfold update_rule_row.
      replace (SensitiveDataRule.ID r =? SensitiveDataRule.ID update) with false;
        [reflexivity|].
      symmetry. apply Z.eqb_neq. congruence.
    + destruct s; reflexivity.
Qed.

End rule_store_facts.

(** ** The notification store *)

Module notification_store_facts.
Import store notification_store notions table_facts.

Lemma set_notification_same (s : DB) : set_notification (notification s) s = s.
Proof. destruct s; reflexivity. Qed.

Lemma find_filter_notification (id id' : Z) (l : list (Notification.t bool)) :
  find (fun n => Notification.ID n =? id')
    (filter (fun n => negb (Notification.ID n =? id)) l)
  = if id' =? id then None else find (fun n => Notification.ID n =? id') l.
Proof.
  induction l as [|f l IH]; simpl; [now destruct (id' =? id)|].
  destruct (Notification.ID f =? id) eqn:E; simpl.
  - rewrite IH. apply Z.eqb_eq in E.
    destruct (id' =? id) eqn:E'; [reflexivity|].
    replace (Notification.ID f =? id') with false; [reflexivity|].
    symmetry. apply Z.eqb_neq. apply Z.eqb_neq in E'. congruence.
  - destruct (Notification.ID f =? id') eqn:E'.
    + apply Z.eqb_eq in E'. apply Z.eqb_neq in E.
      replace (id' =? id) with false; [reflexivity|].
      symmetry. apply Z.eqb_neq. congruence.
    + exact IH.
Qed.

(** X13.  DeleteNotification succeeds exactly when the id is positive and
    a notification carries it, and otherwise leaves the store as it is.  On
    success the notification is no longer found, every other notification is
    read as before, and no other table changes. *)
Theorem DeleteNotification_removes_one_notification (s : DB) (id : Z) :
  (snd (DeleteNotification s id) = None <-> is_ok (getNotification s id) = true)
  /\ (snd (DeleteNotification s id) <> None -> fst (DeleteNotification s id) = s)
  /\ (snd (DeleteNotification s id) = None ->
      getNotification (fst (DeleteNotification s id)) id = Err "notification not found"
      /\ (forall id', id' <> id ->
                      getNotification (fst (DeleteNotification s id)) id'
                      = getNotification s id')
      /\ set_notification (notification s) (fst (DeleteNotification s id)) = s).
Proof.
  unfold DeleteNotification, getNotification. cbv zeta.
  destruct (id <=? 0) eqn:Hid; cbn [fst snd].
  { split; [split; discriminate|]. split; [reflexivity|discriminate]. }
  destruct (find (fun n => Notification.ID n =? id) (notification s)) as [n|] eqn:E.
  - assert (Hrows : Nat.eqb (List.length (filter (fun n => Notification.ID n =? id)
                                            (notification s))) 0 = false).
    { apply Nat.eqb_neq. apply find_some in E as [Hin Hn].
      assert (Hf : In n (filter (fun n => Notification.ID n =? id) (notification s)))
        by (apply filter_In; auto).
      destruct (filter _ (notification s)); [destruct Hf|discriminate]. }
    rewrite Hrows. cbn [fst snd is_ok]. split; [tauto|]. split; [congruence|].
    intros _. cbn [notification set_notification]. split; [|split].
    + rewrite find_filter_notification, Z.eqb_refl. reflexivity.
    + intros id' Hne. destruct (id' <=? 0); [reflexivity|].
      rewrite find_filter_notification.
      replace (id' =? id) with false by (symmetry; now apply Z.eqb_neq).
      reflexivity.
    + destruct s; reflexivity.
  - assert (Hnone : forall x, In x (notification s) ->
                      (Notification.ID x =? id) = false).
    { intros x Hx. apply (find_none _ _ E x Hx). }
    rewrite (filter_nothing _ _ Hnone). cbn [List.length Nat.eqb fst snd is_ok].
    split; [split; discriminate|]. split; [|discriminate].
    intros _. rewrite filter_all; [apply set_notification_same|].
    intros x Hx. rewrite (Hnone x Hx). reflexivity.
Qed.

(** X14.  While the id of the new row is an int32 value, a notification
    CreateNotification created is the request under a fresh id, with the two
    times the database assigned; it is stored unread or read as the request
    says, getNotification returns it under its id, and deleting it again
    leaves every table as it was.  The bound is needed because the
    notification is read back under the id converted to int32. *)
Theorem CreateNotification_round_trip
    (createTime updateTime : Z) (s s' : DB) (create n : Notification.t bool) :
  LastInsertId Notification.ID (notification s) < 2 ^ 31 ->
  CreateNotification createTime updateTime s create = (s', Ok n) ->
  n = Notification.mk (LastInsertId Notification.ID (notification s))
        (Notification.Type_ create) (Notification.Title create)
        (Notification.Content create) (Notification.RecipientID create)
        (Notification.ApprovalFlowExecutionID create)
        (Notification.ApprovalNodeExecutionID create) (Notification.ApprovalID create)
        (Notification.Read create) (Notification.CreatorID create)
        (Notification.UpdaterID create) createTime updateTime
  /\ getNotification s' (Notification.ID n) = Ok n
  /\ DeleteNotification s' (Notification.ID n) = (s, None).
Proof.
  intros Hfits. unfold CreateNotification. cbv zeta.
  destruct (String.eqb (Notification.Type_ create) ""); [discriminate|].
  destruct (String.eqb (Notification.Title create) ""); [discriminate|].
  destruct (Notification.RecipientID create <=? 0); [discriminate|].
  rewrite (wrap32_small (LastInsertId Notification.ID (notification s)))
    by (pose proof (LastInsertId_pos Notification.ID (notification s)); lia).
  clear Hfits.
  set (id := LastInsertId Notification.ID (notification s)).
  set (row := Notification.mk id _ _ _ _ _ _ _ _ _ _ _ _).
  assert (Hfresh : forall r, In r (notification s) -> Notification.ID r <> id).
  { intros y Hy. apply (LastInsertId_above Notification.ID) in Hy. unfold id. lia. }
  pose proof (LastInsertId_pos Notification.ID (notification s)) as Hpos.
  apply Z.leb_gt in Hpos. fold id in Hpos.
  assert (Hget : getNotification (set_notification (notification s ++ [row]) s) id
                 = Ok row).
  { unfold getNotification. rewrite Hpos. cbn [notification set_notification].
    rewrite (find_appended Notification.ID); [reflexivity|exact Hfresh|reflexivity]. }
  rewrite Hget. intros [= <- <-]. split; [reflexivity|]. split; [exact Hget|].
  unfold DeleteNotification. cbv zeta. change (Notification.ID row) with id.
  rewrite Hpos. cbn [notification set_notification].
  rewrite !filter_app. cbn [filter]. change (Notification.ID row) with id.
  rewrite Z.eqb_refl. cbn [negb].
  rewrite (filter_nothing (fun n => Notification.ID n =? id));
    [|intros x Hx; apply Z.eqb_neq; now apply Hfresh].
  rewrite filter_all;
    [|intros x Hx; apply negb_true_iff, Z.eqb_neq; now apply Hfresh].
  cbn [app List.length Nat.eqb]. rewrite app_nil_r. f_equal.
  clear Hfresh Hpos Hget. subst row id. destruct s; reflexivity.
Qed.

(** A third notification for user 10, created and deleted again. *)
Lemma CreateNotification_round_trip_witness :
  DeleteNotification
    (fst (CreateNotification 300 300 sample_more.notified (sample_more.note 0 0))) 3
  = (sample_more.notified, None).
Proof.
  apply (notification_store_facts.CreateNotification_round_trip 300 300
           sample_more.notified
           (fst (CreateNotification 300 300 sample_more.notified (sample_more.note 0 0)))
           (sample_more.note 0 0) (sample_more.note 3 300)).
  - reflexivity.
  - reflexivity.
Defined.

Lemma sorted_by_time (l : list (Notification.t bool)) :
  StronglySorted
    (fun a b => - Notification.CreateTime a <= - Notification.CreateTime b) l ->
  StronglySorted (fun a b => Notification.CreateTime b <= Notification.CreateTime a) l.
Proof.
  induction 1 as [|x l Hs IH Hall]; constructor; [assumption|].
  eapply Forall_impl; [|exact Hall]. simpl. intros; lia.
Qed.

(** X15.  ListNotifications fails for a recipient id that is not positive.
    Otherwise it lists exactly the stored notifications of the recipient,
    restricted to the read or the unread ones when the flag is given, latest
    create time first. *)
Theorem ListNotifications_lists_recipient_newest_first
    (s : DB) (recipientID : Z) (read : option bool) :
  (recipientID <= 0 ->
   ListNotifications s recipientID read = Err "recipient ID is required")
  /\ (0 < recipientID ->
      exists l,
        ListNotifications s recipientID read = Ok l
        /\ (forall n, In n l
                      <-> In n (notification s)
                          /\ Notification.RecipientID n = recipientID
                          /\ (forall b, read = Some b -> Notification.Read n = b))
        /\ StronglySorted
             (fun a b => Notification.CreateTime b <= Notification.CreateTime a) l).
Proof.
  unfold ListNotifications. split.
  - intros H. apply Z.leb_le in H. now rewrite H.
  - intros H. apply Z.leb_gt in H. rewrite H. eexists. split; [reflexivity|]. split.
    + intros n. rewrite order_by_In, filter_In. unfold notification_matches.
      rewrite andb_true_iff, Z.eqb_eq.
      destruct read as [b|].
      * rewrite Bool.eqb_true_iff. split.
        -- intros (Hin & Hr & Hb). repeat split; try assumption.
           intros b' [= <-]. exact Hb.
        -- intros (Hin & Hr & Hb). repeat split; auto.
      * split.
        -- intros (Hin & Hr & _). repeat split; try assumption. discriminate.
        -- intros (Hin & Hr & _). auto.
    + apply sorted_by_time, order_by_ordered.
Qed.

Lemma apply_notification_update_ID (update : Notification.t (option bool))
    (n : Notification.t bool) :
  Notification.ID (apply_notification_update update n) = Notification.ID n
  /\ Notification.RecipientID (apply_notification_update update n)
     = Notification.RecipientID n.
Proof.
  unfold apply_notification_update.
  destruct (Notification.Read update); destruct (0 <? Notification.UpdaterID update);
    split; reflexivity.
Qed.

Lemma apply_notification_update_Read (update : Notification.t (option bool))
    (n : Notification.t bool) (b : bool) :
  Notification.Read update = Some b ->
  Notification.Read (apply_notification_update update n) = b.
Proof.
  unfold apply_notification_update. intros ->.
  destruct (0 <? Notification.UpdaterID update); reflexivity.
Qed.

(** X16.  Once UpdateNotification has marked a notification as read, the
    notification is in the unread list of no recipient, and the unread lists
    hold the same other notifications as before. *)
Theorem read_notification_leaves_the_unread_lists
    (s : DB) (update : Notification.t (option bool)) (recipientID : Z)
    (before : list (Notification.t bool)) :
  Notification.Read update = Some true ->
  is_ok (snd (UpdateNotification s update)) = true ->
  ListNotifications s recipientID (Some false) = Ok before ->
  exists after,
    ListNotifications (fst (UpdateNotification s update)) recipientID (Some false)
    = Ok after
    /\ (forall n, In n after
                  <-> In n before /\ Notification.ID n <> Notification.ID update).
Proof.
  intros Hread Hok. unfold ListNotifications.
  destruct (recipientID <=? 0); [discriminate|]. intros [= <-].
  eexists. split; [reflexivity|].
  assert (Hrows : notification (fst (UpdateNotification s update))
                  = map (fun n => if Notification.ID n =? Notification.ID update
                                  then apply_notification_update update n else n)
                        (notification s)).
  { revert Hok. unfold UpdateNotification. cbv zeta.
    destruct (Notification.ID update <=? 0); [discriminate|].
    destruct (List.length _ =? 0)%nat; [discriminate|].
    destruct (List.length (filter_ _ _) =? 0)%nat; [discriminate|].
    destruct (getNotification _ _); reflexivity. }
  intros n. rewrite !order_by_In, !filter_In, Hrows, in_map_iff.
  unfold notification_matches. split.
  - intros ((r & Hr & Hin) & Hm).
    destruct (Notification.ID r =? Notification.ID update) eqn:E.
    + subst n. rewrite (apply_notification_update_Read update r true Hread) in Hm.
      rewrite andb_false_r in Hm. discriminate.
    + subst n. apply Z.eqb_neq in E. auto.
  - intros ((Hin & Hm) & Hne). split; [|exact Hm].
    exists n. split; [|exact Hin].
    apply Z.eqb_neq in Hne. now rewrite Hne.
Qed.

(** User 10 reads the first of two unread notifications. *)
Lemma read_notification_leaves_the_unread_lists_witness :
  exists after,
    ListNotifications (fst (UpdateNotification sample_more.notified sample_more.mark_read))
      10 (Some false)
    = Ok after
    /\ (forall n, In n after
                  <-> In n [sample_more.note 2 200; sample_more.note 1 100]
                      /\ Notification.ID n <> Notification.ID sample_more.mark_read).
Proof.
  apply (notification_store_facts.read_notification_leaves_the_unread_lists
           sample_more.notified sample_more.mark_read 10
           [sample_more.note 2 200; sample_more.note 1 100]).
  - reflexivity.
  - reflexivity.
  - reflexivity.
Defined.

End notification_store_facts.

(** ** The gate, once more *)

Module gate_more_facts.
Import store engine plancheck table_facts.

(** The loop that finds the highest level, from any starting level. *)
Lemma highest_from (changes : list SensitiveDataChange.t) (start : SensitiveDataLevel) :
  let highest :=
    fold_left
      (fun highestSensitivityLevel change =>
         if SensitiveDataLevel_number highestSensitivityLevel
            <? SensitiveDataLevel_number (SensitiveDataChange.SensitivityLevel change)
         then SensitiveDataChange.SensitivityLevel change
         else highestSensitivityLevel)
      changes start in
  SensitiveDataLevel_number start <= SensitiveDataLevel_number highest
  /\ (forall c, In c changes ->
                SensitiveDataLevel_number (SensitiveDataChange.SensitivityLevel c)
                <= SensitiveDataLevel_number highest)
  /\ (highest = start
      \/ exists c, In c changes /\ SensitiveDataChange.SensitivityLevel c = highest).
Proof.
  revert start. induction changes as [|x l IH]; intros start; cbn [fold_left].
  - cbv zeta. split; [lia|]. split; [intros c []|now left].
  - specialize (IH (if SensitiveDataLevel_number start
                       <? SensitiveDataLevel_number
                            (SensitiveDataChange.SensitivityLevel x)
                    then SensitiveDataChange.SensitivityLevel x else start)).
    cbv zeta in *. destruct IH as (Hge & Hall & Hex).
    destruct (SensitiveDataLevel_number start
              <? SensitiveDataLevel_number (SensitiveDataChange.SensitivityLevel x))
      eqn:E; [apply Z.ltb_lt in E|apply Z.ltb_ge in E].
    + split; [lia|]. split.
      * intros c [<-|Hc]; [exact Hge|auto].
      * right. destruct Hex as [->|(c & Hc & Hl)].
        -- exists x. split; [now left|reflexivity].
        -- exists c. split; [now right|exact Hl].
    + split; [lia|]. split.
      * intros c [<-|Hc]; [lia|auto].
      * destruct Hex as [->|(c & Hc & Hl)]; [now left|].
        right. exists c. split; [now right|exact Hl].
Qed.

(** X17.  The level Check asks a flow for is the highest level among the
    detected changes: no change has a higher level, and the level is the one
    of some change, or UNSPECIFIED when no change has a level above it. *)
Theorem highest_level_is_the_maximum (changes : list SensitiveDataChange.t) :
  (forall c, In c changes ->
             SensitiveDataLevel_number (SensitiveDataChange.SensitivityLevel c)
             <= SensitiveDataLevel_number (highest_level changes))
  /\ (highest_level changes = SensitiveDataLevel_SENSITIVE_DATA_LEVEL_UNSPECIFIED
      \/ exists c, In c changes
                   /\ SensitiveDataChange.SensitivityLevel c = highest_level changes).
Proof.
  unfold highest_level.
  pose proof (highest_from changes SensitiveDataLevel_SENSITIVE_DATA_LEVEL_UNSPECIFIED)
    as H.
  cbv zeta in H. destruct H as (_ & Hall & Hex). split; assumption.
Qed.

(** The outcomes of Check: the store is left as it is and the plan is blocked,
    or the newest execution of the issue is APPROVED and the plan admitted, or
    an execution was begun for the issue and the plan is blocked. *)
Lemma Check_cases (GetIssue : Z -> result Issue.t) (s : DB) (plan : Plan.t) :
  (fst (Check GetIssue s plan) = s /\ snd (Check GetIssue s plan) <> None)
  \/ (exists issue execution rest,
        GetIssue (Plan.IssueID plan) = Ok issue
        /\ ListApprovalFlowExecutions s (issue_filter issue) = execution :: rest
        /\ ApprovalFlowExecution.Status execution = ApprovalFlowExecutionStatus_APPROVED
        /\ Check GetIssue s plan = (s, None))
  \/ (exists issue flowID,
        GetIssue (Plan.IssueID plan) = Ok issue
        /\ is_ok (snd (CreateApprovalFlowExecution s
                         (ApprovalFlowExecution.mk 0 flowID (Issue.ID issue)
                            SensitiveDataLevel_SENSITIVE_DATA_LEVEL_HIGH
                            ApprovalFlowExecutionStatus_IN_PROGRESS []
                            (Issue.CreatorID issue) (Issue.CreatorID issue)))) = true
        /\ fst (Check GetIssue s plan)
           = fst (CreateApprovalFlowExecution s
                    (ApprovalFlowExecution.mk 0 flowID (Issue.ID issue)
                       SensitiveDataLevel_SENSITIVE_DATA_LEVEL_HIGH
                       ApprovalFlowExecutionStatus_IN_PROGRESS []
                       (Issue.CreatorID issue) (Issue.CreatorID issue)))
        /\ snd (Check GetIssue s plan) <> None).
Proof.
  unfold Check.
  destruct (GetIssue (Plan.IssueID plan)) as [issue|] eqn:Hget;
    [|left; split; [reflexivity|discriminate]].
  fold (issue_filter issue). cbv zeta beta.
  assert (Hnew :
    forall flows (r : DB * option string),
      r = match flows with
          | [] =>
            (s, Some ("no enabled approval flow found for sensitivity level "
                      ++ SensitiveDataLevel_String
                           SensitiveDataLevel_SENSITIVE_DATA_LEVEL_HIGH
                      ++ ". Cannot execute the plan")%string)
          | flow0 :: _ =>
            match CreateApprovalFlowExecution s
                    (ApprovalFlowExecution.mk 0 (ApprovalFlow.ID flow0)
                       (Issue.ID issue) SensitiveDataLevel_SENSITIVE_DATA_LEVEL_HIGH
                       ApprovalFlowExecutionStatus_IN_PROGRESS []
                       (Issue.CreatorID issue) (Issue.CreatorID issue)) with
            | (s', Err e) =>
              (s', Some ("failed to create approval flow execution: " ++ e)%string)
            | (s', Ok execution) =>
              (s', Some ("sensitive data change requires approval. Approval flow "
                         ++ strings.fmt_d (ApprovalFlowExecution.ID execution)
                         ++ " has been created and is currently in progress")%string)
            end
          end ->
      (fst r = s /\ snd r <> None)
      \/ (exists flowID,
            is_ok (snd (CreateApprovalFlowExecution s
                          (ApprovalFlowExecution.mk 0 flowID (Issue.ID issue)
                             SensitiveDataLevel_SENSITIVE_DATA_LEVEL_HIGH
                             ApprovalFlowExecutionStatus_IN_PROGRESS []
                             (Issue.CreatorID issue) (Issue.CreatorID issue)))) = true
            /\ fst r
               = fst (CreateApprovalFlowExecution s
                        (ApprovalFlowExecution.mk 0 flowID (Issue.ID issue)
                           SensitiveDataLevel_SENSITIVE_DATA_LEVEL_HIGH
                           ApprovalFlowExecutionStatus_IN_PROGRESS []
                           (Issue.CreatorID issue) (Issue.CreatorID issue)))
            /\ snd r <> None)).
  { intros flows r ->. destruct flows as [|flow0 rest];
      [left; split; [reflexivity|discriminate]|].
    pose proof (engine_facts.CreateApprovalFlowExecution_rollback s
                  (ApprovalFlowExecution.mk 0 (ApprovalFlow.ID flow0) (Issue.ID issue)
                     SensitiveDataLevel_SENSITIVE_DATA_LEVEL_HIGH
                     ApprovalFlowExecutionStatus_IN_PROGRESS []
                     (Issue.CreatorID issue) (Issue.CreatorID issue))) as Hback.
    destruct (CreateApprovalFlowExecution s _) as [s' [execution|e]] eqn:Hc;
      cbn [fst snd is_ok] in *.
    - right. exists (ApprovalFlow.ID flow0). rewrite Hc. cbn [fst snd is_ok].
      repeat split. discriminate.
    - left. split; [now apply Hback|discriminate]. }
  assert (Hbegin :
    forall r : DB * option string,
      r = match ListApprovalFlows s
                  (Some (ListApprovalFlowsFilter.mk
                           SensitiveDataLevel_SENSITIVE_DATA_LEVEL_HIGH (Some true))) with
          | [] =>
            (s, Some ("no enabled approval flow found for sensitivity level "
                      ++ SensitiveDataLevel_String
                           SensitiveDataLevel_SENSITIVE_DATA_LEVEL_HIGH
                      ++ ". Cannot execute the plan")%string)
          | flow0 :: _ =>
            match CreateApprovalFlowExecution s
                    (ApprovalFlowExecution.mk 0 (ApprovalFlow.ID flow0)
                       (Issue.ID issue) SensitiveDataLevel_SENSITIVE_DATA_LEVEL_HIGH
                       ApprovalFlowExecutionStatus_IN_PROGRESS []
                       (Issue.CreatorID issue) (Issue.CreatorID issue)) with
            | (s', Err e) =>
              (s', Some ("failed to create approval flow execution: " ++ e)%string)
            | (s', Ok execution) =>
              (s', Some ("sensitive data change requires approval. Approval flow "
                         ++ strings.fmt_d (ApprovalFlowExecution.ID execution)
                         ++ " has been created and is currently in progress")%string)
            end
          end ->
      forall P : Prop,
      (fst r = s /\ snd r <> None)
      \/ P
      \/ (exists issue0 flowID,
            Ok issue = Ok issue0
            /\ is_ok (snd (CreateApprovalFlowExecution s
                             (ApprovalFlowExecution.mk 0 flowID (Issue.ID issue0)
                                SensitiveDataLevel_SENSITIVE_DATA_LEVEL_HIGH
                                ApprovalFlowExecutionStatus_IN_PROGRESS []
                                (Issue.CreatorID issue0) (Issue.CreatorID issue0))))
               = true
            /\ fst r
               = fst (CreateApprovalFlowExecution s
                        (ApprovalFlowExecution.mk 0 flowID (Issue.ID issue0)
                           SensitiveDataLevel_SENSITIVE_DATA_LEVEL_HIGH
                           ApprovalFlowExecutionStatus_IN_PROGRESS []
                           (Issue.CreatorID issue0) (Issue.CreatorID issue0)))
            /\ snd r <> None)).
  { intros r Hr P. destruct (Hnew _ r Hr) as [H|(flowID & H)]; [now left|].
    right. right. exists issue, flowID. split; [reflexivity|exact H]. }
  destruct (ListApprovalFlowExecutions s (issue_filter issue)) as [|execution rest]
    eqn:Hlist.
  - apply Hbegin. reflexivity.
  - destruct (ApprovalFlowExecution.Status execution) eqn:Hst;
      try (left; split; [reflexivity|discriminate]).
    + right. left. exists issue, execution, rest.
      repeat split; (assumption || reflexivity).
    + apply Hbegin. reflexivity.
Qed.

(** X18.  Check admits a plan only when the newest execution listed for the
    issue is APPROVED, and then it leaves the store as it is.  A plan whose
    issue has no execution is never admitted: the checker finds a sensitive
    change of level HIGH in every statement. *)
Theorem Check_admits_only_approved
    (GetIssue : Z -> result Issue.t) (s : DB) (plan : Plan.t) :
  snd (Check GetIssue s plan) = None ->
  fst (Check GetIssue s plan) = s
  /\ exists issue execution rest,
       GetIssue (Plan.IssueID plan) = Ok issue
       /\ ListApprovalFlowExecutions s (issue_filter issue) = execution :: rest
       /\ ApprovalFlowExecution.Status execution = ApprovalFlowExecutionStatus_APPROVED.
Proof.
  intros Hnone.
  destruct (Check_cases GetIssue s plan)
    as [[_ H]|[(issue & execution & rest & Hget & Hlist & Hst & Hc)
              |(issue & flowID & _ & _ & _ & H)]];
    try congruence.
  rewrite Hc. split; [reflexivity|]. exists issue, execution, rest. auto.
Qed.

(** The plan of issue 5 once its execution is APPROVED. *)
Lemma Check_admits_only_approved_witness :
  fst (Check sample.GetIssue sample_more.approved sample.plan5) = sample_more.approved
  /\ exists issue execution rest,
       sample.GetIssue (Plan.IssueID sample.plan5) = Ok issue
       /\ ListApprovalFlowExecutions sample_more.approved (issue_filter issue)
          = execution :: rest
       /\ ApprovalFlowExecution.Status execution = ApprovalFlowExecutionStatus_APPROVED.
Proof.
  apply (gate_more_facts.Check_admits_only_approved sample.GetIssue
           sample_more.approved sample.plan5).
  reflexivity.
Defined.



(** For an issue without execution Check asks for an enabled flow of level
    HIGH, the level of the change its stub detector reports, and for a new
    execution of it. *)
Lemma Check_without_execution (GetIssue : Z -> result Issue.t) (s : DB) (plan : Plan.t)
    (issue : Issue.t) :
  GetIssue (Plan.IssueID plan) = Ok issue ->
  ListApprovalFlowExecutions s (issue_filter issue) = [] ->
  Check GetIssue s plan
  = match ListApprovalFlows s
            (Some (ListApprovalFlowsFilter.mk
                     SensitiveDataLevel_SENSITIVE_DATA_LEVEL_HIGH (Some true))) with
    | [] =>
      (s, Some ("no enabled approval flow found for sensitivity level "
                ++ "SENSITIVE_DATA_LEVEL_HIGH. Cannot execute the plan")%string)
    | flow0 :: _ =>
      match CreateApprovalFlowExecution s
              (ApprovalFlowExecution.mk 0 (ApprovalFlow.ID flow0)
                 (Issue.ID issue) SensitiveDataLevel_SENSITIVE_DATA_LEVEL_HIGH
                 ApprovalFlowExecutionStatus_IN_PROGRESS []
                 (Issue.CreatorID issue) (Issue.CreatorID issue)) with
      | (s', Err e) =>
        (s', Some ("failed to create approval flow execution: " ++ e)%string)
      | (s', Ok created) =>
        (s', Some ("sensitive data change requires approval. Approval flow "
                   ++ strings.fmt_d (ApprovalFlowExecution.ID created)
                   ++ " has been created and is currently in progress")%string)
      end
    end.
Proof.
  intros Hget Hlist.
  unfold Check. rewrite Hget. fold (issue_filter issue). rewrite Hlist.
  reflexivity.
Qed.

(** X6.  In a store whose execution ids are positive int32 values Check
    begins no execution: whatever the issue and the plan, it leaves the store
    as it was.  For an issue without execution and with an enabled flow of
    level HIGH the plan is blocked with the error of the creation that
    failed, and so it is on every later check. *)
Theorem Check_begins_no_execution
    (GetIssue : Z -> result Issue.t) (s : DB) (plan : Plan.t) :
  int32_ids ApprovalFlowExecution.ID (approval_flow_execution s) ->
  fst (Check GetIssue s plan) = s
  /\ (forall issue flow0 flows,
        GetIssue (Plan.IssueID plan) = Ok issue ->
        ListApprovalFlowExecutions s (issue_filter issue) = [] ->
        ListApprovalFlows s
          (Some (ListApprovalFlowsFilter.mk
                   SensitiveDataLevel_SENSITIVE_DATA_LEVEL_HIGH (Some true)))
        = flow0 :: flows ->
        exists e,
          Check GetIssue s plan
          = (s, Some ("failed to create approval flow execution: " ++ e)%string)
          /\ Check GetIssue (fst (Check GetIssue s plan)) plan = Check GetIssue s plan).
Proof.
  intros Hids.
  assert (Hstore : fst (Check GetIssue s plan) = s).
  { destruct (Check_cases GetIssue s plan)
      as [[Hs _]|[(issue & execution & rest & _ & _ & _ & Hc)
                 |(issue & flowID & _ & Hok & _ & _)]].
    - exact Hs.
    - now rewrite Hc.
    - destruct (engine_facts.CreateApprovalFlowExecution_fails s
                  (ApprovalFlowExecution.mk 0 flowID (Issue.ID issue)
                     SensitiveDataLevel_SENSITIVE_DATA_LEVEL_HIGH
                     ApprovalFlowExecutionStatus_IN_PROGRESS []
                     (Issue.CreatorID issue) (Issue.CreatorID issue)) Hids)
        as [e He].
      rewrite He in Hok. discriminate. }
  split; [exact Hstore|].
  intros issue flow0 flows Hget Hlist Hflows.
  destruct (engine_facts.CreateApprovalFlowExecution_fails s
              (ApprovalFlowExecution.mk 0 (ApprovalFlow.ID flow0) (Issue.ID issue)
                 SensitiveDataLevel_SENSITIVE_DATA_LEVEL_HIGH
                 ApprovalFlowExecutionStatus_IN_PROGRESS []
                 (Issue.CreatorID issue) (Issue.CreatorID issue)) Hids)
    as [e He].
  exists e. rewrite Hstore. split; [|reflexivity].
  rewrite (Check_without_execution GetIssue s plan issue Hget Hlist).
  rewrite Hflows, He. reflexivity.
Qed.

(** The gate on issue 5 while it has no execution: the flow of level HIGH is
    enabled, and the plan is blocked on the failed creation. *)
Lemma Check_begins_no_execution_witness :
  fst (Check sample.GetIssue sample.configured sample.plan5) = sample.configured
  /\ snd (Check sample.GetIssue sample.configured sample.plan5)
     = Some ("failed to create approval flow execution: "
             ++ "failed to retrieve newly created approval flow execution: "
             ++ "approval flow execution not found")%string.
Proof.
  destruct (gate_more_facts.Check_begins_no_execution sample.GetIssue
              sample.configured sample.plan5)
    as [Hstore _]; [constructor|].
  split; [exact Hstore|reflexivity].
Defined.

End gate_more_facts.

(** ** The service: matching rules, extracting names, approving and rejecting *)

Module service_more_facts.
Import service.

Section MatchRules.

Variable regexp_MatchString : string -> string -> bool.

(** The loop over the rules, for one table and one field. *)
Lemma rule_loop (table field : string) (rules matchingRules : list v1.SensitiveDataRule.t)
    (highestLevel : SensitiveDataLevel) :
  fold_left
    (fun '(matchingRules, highestLevel) rule =>
       if isRuleMatch regexp_MatchString rule table field then
         (matchingRules ++ [rule],
          if SensitiveDataLevel_number highestLevel
             <? SensitiveDataLevel_number (v1.SensitiveDataRule.Level rule)
          then v1.SensitiveDataRule.Level rule else highestLevel)
       else (matchingRules, highestLevel))
    rules (matchingRules, highestLevel)
  = (matchingRules
     ++ filter (fun rule => isRuleMatch regexp_MatchString rule table field) rules,
     fold_left
       (fun highestLevel rule =>
          if SensitiveDataLevel_number highestLevel
             <? SensitiveDataLevel_number (v1.SensitiveDataRule.Level rule)
          then v1.SensitiveDataRule.Level rule else highestLevel)
       (filter (fun rule => isRuleMatch regexp_MatchString rule table field) rules)
       highestLevel).
Proof.
  revert matchingRules highestLevel.
  induction rules as [|rule rules IH]; intros matchingRules highestLevel.
  - cbn. now rewrite app_nil_r.
  - cbn [fold_left filter].
    destruct (isRuleMatch regexp_MatchString rule table field).
    + rewrite IH. cbn [fold_left]. now rewrite <- app_assoc.
    + apply IH.
Qed.

(** The loop over the fields, for one table. *)
Lemma field_loop (table : string) (rules : list v1.SensitiveDataRule.t)
    (fields : list string) (matchingRules : list v1.SensitiveDataRule.t)
    (highestLevel : SensitiveDataLevel) :
  fold_left
    (fun acc field =>
       fold_left
         (fun '(matchingRules, highestLevel) rule =>
            if isRuleMatch regexp_MatchString rule table field then
              (matchingRules ++ [rule],
               if SensitiveDataLevel_number highestLevel
                  <? SensitiveDataLevel_number (v1.SensitiveDataRule.Level rule)
               then v1.SensitiveDataRule.Level rule else highestLevel)
            else (matchingRules, highestLevel))
         rules acc)
    fields (matchingRules, highestLevel)
  = (matchingRules
     ++ flat_map
          (fun field =>
             filter (fun rule => isRuleMatch regexp_MatchString rule table field) rules)
          fields,
     fold_left
       (fun highestLevel rule =>
          if SensitiveDataLevel_number highestLevel
             <? SensitiveDataLevel_number (v1.SensitiveDataRule.Level rule)
          then v1.SensitiveDataRule.Level rule else highestLevel)
       (flat_map
          (fun field =>
             filter (fun rule => isRuleMatch regexp_MatchString rule table field) rules)
          fields)
       highestLevel).
Proof.
  revert matchingRules highestLevel.
  induction fields as [|field fields IH]; intros matchingRules highestLevel.
  - cbn. now rewrite app_nil_r.
  - cbn [fold_left flat_map]. rewrite rule_loop, IH.
    now rewrite fold_left_app, <- app_assoc.
Qed.

(** The loop over the tables. *)
Lemma table_loop (rules : list v1.SensitiveDataRule.t) (tables fields : list string)
    (matchingRules : list v1.SensitiveDataRule.t) (highestLevel : SensitiveDataLevel) :
  fold_left
    (fun acc table =>
       fold_left
         (fun acc field =>
            fold_left
              (fun '(matchingRules, highestLevel) rule =>
                 if isRuleMatch regexp_MatchString rule table field then
                   (matchingRules ++ [rule],
                    if SensitiveDataLevel_number highestLevel
                       <? SensitiveDataLevel_number (v1.SensitiveDataRule.Level rule)
                    then v1.SensitiveDataRule.Level rule else highestLevel)
                 else (matchingRules, highestLevel))
              rules acc)
         fields acc)
    tables (matchingRules, highestLevel)
  = (matchingRules
     ++ flat_map
          (fun table =>
             flat_map
               (fun field =>
                  filter (fun rule => isRuleMatch regexp_MatchString rule table field)
                         rules)
               fields)
          tables,
     fold_left
       (fun highestLevel rule =>
          if SensitiveDataLevel_number highestLevel
             <? SensitiveDataLevel_number (v1.SensitiveDataRule.Level rule)
          then v1.SensitiveDataRule.Level rule else highestLevel)
       (flat_map
          (fun table =>
             flat_map
               (fun field =>
                  filter (fun rule => isRuleMatch regexp_MatchString rule table field)
                         rules)
               fields)
          tables)
       highestLevel).
Proof.
  revert matchingRules highestLevel.
  induction tables as [|table tables IH]; intros matchingRules highestLevel.
  - cbn. now rewrite app_nil_r.
  - cbn [fold_left flat_map]. rewrite field_loop, IH.
    now rewrite fold_left_app, <- app_assoc.
Qed.

(** The level the loops end with, from any starting level. *)
Lemma highest_rule_level_from (rules : list v1.SensitiveDataRule.t)
    (start : SensitiveDataLevel) :
  let highest :=
    fold_left
      (fun highestLevel rule =>
         if SensitiveDataLevel_number highestLevel
            <? SensitiveDataLevel_number (v1.SensitiveDataRule.Level rule)
         then v1.SensitiveDataRule.Level rule else highestLevel)
      rules start in
  SensitiveDataLevel_number start <= SensitiveDataLevel_number highest
  /\ (forall rule, In rule rules ->
                   SensitiveDataLevel_number (v1.SensitiveDataRule.Level rule)
                   <= SensitiveDataLevel_number highest)
  /\ (highest = start
      \/ exists rule, In rule rules /\ v1.SensitiveDataRule.Level rule = highest).
Proof.
  revert start. induction rules as [|x l IH]; intros start; cbn [fold_left].
  - cbv zeta. split; [lia|]. split; [intros c []|now left].
  - specialize (IH (if SensitiveDataLevel_number start
                       <? SensitiveDataLevel_number (v1.SensitiveDataRule.Level x)
                    then v1.SensitiveDataRule.Level x else start)).
    cbv zeta in *. destruct IH as (Hge & Hall & Hex).
    destruct (SensitiveDataLevel_number start
              <? SensitiveDataLevel_number (v1.SensitiveDataRule.Level x))
      eqn:E; [apply Z.ltb_lt in E|apply Z.ltb_ge in E].
    + split; [lia|]. split.
      * intros c [<-|Hc]; [exact Hge|auto].
      * right. destruct Hex as [->|(c & Hc & Hl)].
        -- exists x. split; [now left|reflexivity].
        -- exists c. split; [now right|exact Hl].
    + split; [exact Hge|]. split.
      * intros c [<-|Hc]; [lia|auto].
      * destruct Hex as [->|(c & Hc & Hl)]; [now left|].
        right. exists c. split; [now right|exact Hl].
Qed.

(** X20.  The matching rules of EvaluateSensitiveDataChange are, table by
    table and field by field, the rules that match the pair, in the order of
    the rule list: a rule is listed once for each pair it matches.  The
    highest level is the greatest level among the listed rules, and
    UNSPECIFIED when no rule matches. *)
Theorem match_rules_lists_each_match_and_the_highest_level
    (rules : list v1.SensitiveDataRule.t) (tables fields : list string) :
  fst (match_rules regexp_MatchString rules tables fields)
  = flat_map
      (fun table =>
         flat_map
           (fun field =>
              filter (fun rule => isRuleMatch regexp_MatchString rule table field) rules)
           fields)
      tables
  /\ (forall rule,
        In rule (fst (match_rules regexp_MatchString rules tables fields)) ->
        SensitiveDataLevel_number (v1.SensitiveDataRule.Level rule)
        <= SensitiveDataLevel_number
             (snd (match_rules regexp_MatchString rules tables fields)))
  /\ (snd (match_rules regexp_MatchString rules tables fields)
      = SensitiveDataLevel_SENSITIVE_DATA_LEVEL_UNSPECIFIED
      \/ exists rule,
           In rule (fst (match_rules regexp_MatchString rules tables fields))
           /\ v1.SensitiveDataRule.Level rule
              = snd (match_rules regexp_MatchString rules tables fields)).
Proof.
  unfold match_rules. rewrite table_loop. cbn [fst snd app].
  split; [reflexivity|].
  pose proof (highest_rule_level_from
                (flat_map
                   (fun table =>
                      flat_map
                        (fun field =>
                           filter (fun rule =>
                                     isRuleMatch regexp_MatchString rule table field)
                                  rules)
                        fields)
                   tables)
                SensitiveDataLevel_SENSITIVE_DATA_LEVEL_UNSPECIFIED) as H.
  cbv zeta in H. destruct H as (_ & Hall & Hex). split; assumption.
Qed.

End MatchRules.

End service_more_facts.

Module sql_extract_facts.
Import sql_extract.

(** The loop that removes duplicates, from any map and list whose keys agree. *)
Lemma remove_duplicates_from (l unique : list string) (seen : string -> bool) :
  (forall x, seen x = true <-> In x unique) ->
  NoDup unique ->
  let out :=
    snd (fold_left
           (fun '(seen, unique) x =>
              if (seen x : bool) then (seen, unique)
              else ((fun y => String.eqb y x || seen y), unique ++ [x]))
           l (seen, unique)) in
  NoDup out
  /\ (forall x, In x out <-> In x unique \/ In x l)
  /\ (NoDup l -> (forall x, In x l -> ~ In x unique) -> out = unique ++ l).
Proof.
  revert unique seen. induction l as [|a l IH]; intros unique seen Hseen Hnd.
  - cbn. split; [exact Hnd|]. split; [tauto|]. intros _ _. now rewrite app_nil_r.
  - cbn [fold_left]. destruct (seen a) eqn:Ha.
    + specialize (IH unique seen Hseen Hnd). cbv zeta in *.
      destruct IH as (H1 & H2 & H3). split; [exact H1|]. split.
      * intros x. rewrite H2. cbn [In]. apply Hseen in Ha.
        split; [tauto|]. intros [H|[<-|H]]; auto.
      * intros _ Hfresh. apply Hseen in Ha. exfalso.
        apply (Hfresh a); [now left|exact Ha].
    + assert (Hnot : ~ In a unique).
      { intros Hin. apply Hseen in Hin. congruence. }
      specialize (IH (unique ++ [a]) (fun y => String.eqb y a || seen y)).
      cbv zeta in *.
      destruct IH as (H1 & H2 & H3).
      * intros x. rewrite in_app_iff, orb_true_iff, String.eqb_eq, Hseen.
        cbn [In]. split; [intros [->|H]; auto|intros [H|[->|[]]]; auto].
      * apply NoDup_app; [exact Hnd|repeat constructor; intros []|].
        intros x Hx [<-|[]]. exact (Hnot Hx).
      * split; [exact H1|]. split.
        -- intros x. rewrite H2, in_app_iff. cbn [In]. tauto.
        -- intros Hl Hfresh. inversion Hl as [|? ? Hal Hl']; subst.
           rewrite H3; [now rewrite <- app_assoc|exact Hl'|].
           intros x Hx. rewrite in_app_iff. cbn [In].
           intros [H|[<-|[]]]; [|exact (Hal Hx)].
           apply (Hfresh x); [now right|exact H].
Qed.

(** The names left by the removal of duplicates: each name of the list,
    once; a list without duplicates is left as it is. *)
Lemma remove_duplicates_keeps_each_name_once (l : list string) :
  NoDup (remove_duplicates l)
  /\ (forall x, In x (remove_duplicates l) <-> In x l)
  /\ (NoDup l -> remove_duplicates l = l).
Proof.
  unfold remove_duplicates.
  pose proof (remove_duplicates_from l [] (fun _ => false)) as H.
  cbv zeta in H. destruct H as (H1 & H2 & H3).
  - intros x. cbn. split; [discriminate|tauto].
  - constructor.
  - split; [exact H1|]. split.
    + intros x. rewrite H2. cbn. tauto.
    + intros Hl. rewrite H3; [reflexivity|exact Hl|intros x _ []].
Qed.

Section Extract.

Variable fromRegex_FindAllStringSubmatch : string -> list (list string).
Variable selectRegex_FindAllStringSubmatch : string -> list (list string).
Variable updateRegex_FindAllStringSubmatch : string -> list (list string).
Variable strings_TrimSpace : string -> string.

Variable regexp_MatchString : string -> string -> bool.
Variable ListSensitiveDataRules : string -> result (list service.v1.SensitiveDataRule.t).
Variable ListApprovalFlows : string -> result (list service.v1.ApprovalFlow.t).

(** X21.  extractTablesAndFields never fails: it answers with the tables and
    the fields its loops collect, each name once and in the order of its first
    occurrence.  So EvaluateSensitiveDataChange never answers that the SQL
    failed to parse. *)
Theorem extractTablesAndFields_never_fails_and_lists_each_name_once (sql : string) :
  (exists tables fields,
     extractTablesAndFields fromRegex_FindAllStringSubmatch
       selectRegex_FindAllStringSubmatch updateRegex_FindAllStringSubmatch
       strings_TrimSpace sql = Ok (tables, fields)
     /\ NoDup tables /\ NoDup fields
     /\ (forall table,
           In table tables
           <-> In table (fst (collect fromRegex_FindAllStringSubmatch
                                selectRegex_FindAllStringSubmatch
                                updateRegex_FindAllStringSubmatch
                                strings_TrimSpace sql)))
     /\ (forall field,
           In field fields
           <-> In field (snd (collect fromRegex_FindAllStringSubmatch
                                selectRegex_FindAllStringSubmatch
                                updateRegex_FindAllStringSubmatch
                                strings_TrimSpace sql))))
  /\ (forall request e,
        service.EvaluateSensitiveDataChange regexp_MatchString
          (extractTablesAndFields fromRegex_FindAllStringSubmatch
             selectRegex_FindAllStringSubmatch updateRegex_FindAllStringSubmatch
             strings_TrimSpace)
          ListSensitiveDataRules ListApprovalFlows request
        <> service.RpcErr service.Internal ("failed to parse SQL: " ++ e)%string).
Proof.
  split.
  - unfold extractTablesAndFields.
    destruct (collect _ _ _ _ sql) as [tables fields]. cbn [fst snd].
    exists (remove_duplicates tables), (remove_duplicates fields).
    destruct (remove_duplicates_keeps_each_name_once tables) as (T1 & T2 & _).
    destruct (remove_duplicates_keeps_each_name_once fields) as (F1 & F2 & _).
    repeat split; try assumption; try apply T2; try apply F2.
  - intros request e. unfold service.EvaluateSensitiveDataChange.
    destruct (String.eqb _ ""); [discriminate|].
    destruct (service.v1.EvaluateSensitiveDataChangeRequest.Change_Sql request)
      as [sql0|]; [|discriminate].
    destruct (String.eqb sql0 ""); [discriminate|].
    destruct (service.v1.EvaluateSensitiveDataChangeRequest.Database_Name request)
      as [name|]; [|discriminate].
    destruct (String.eqb name ""); [discriminate|].
    unfold extractTablesAndFields.
    destruct (collect _ _ _ _ sql0) as [tables fields].
    destruct (ListSensitiveDataRules _) as [rules|e0]; [|cbn; discriminate].
    destruct (service.match_rules _ _ _ _) as [matchingRules highestLevel].
    destruct highestLevel; try discriminate;
      (destruct (ListApprovalFlows _); [discriminate|cbn; discriminate]).
Qed.

End Extract.

End sql_extract_facts.

Module issue_service_facts.
Import issue_service.

(** Two equal answers hold the same store and the same response. *)
Lemma answered {S A : Type} (s s' : S) (a a' : A) :
  (s, RpcOk a) = (s', RpcOk a') -> s = s' /\ a = a'.
Proof. intros H. injection H as -> ->. split; reflexivity. Qed.

Section IssueService.

Variable FlowStatus : Type.
Variable ApprovalFlow_STATUS_APPROVED : FlowStatus.
Variable ApprovalFlow_STATUS_REJECTED : FlowStatus.
Variable FlowStatus_eqb : FlowStatus -> FlowStatus -> bool.
Variable FlowStatus_String : FlowStatus -> string.
Variable RecordStatus : Type.
Variable ApprovalRecord_STATUS_APPROVED : RecordStatus.
Variable ApprovalRecord_STATUS_REJECTED : RecordStatus.
Variable S : Type.
Variable GetApprovalFlow : S -> string -> result (ApprovalFlow.t FlowStatus).
Variable CreateApprovalRecord : S -> ApprovalRecord.t RecordStatus -> S * option string.
Variable UpdateApprovalFlow : S -> ApprovalFlow.t FlowStatus -> S * option string.
Variable Now_Format : nat -> string -> string.

(** The approvers the loop of the two methods accepts. *)
Lemma isAuthorized_approver (step : service.v1.ApprovalStep.t) (approver : string) :
  isAuthorized step approver = true
  <-> In approver (service.v1.ApprovalStep.Approvers step)
      \/ In "self"%string (service.v1.ApprovalStep.Approvers step).
Proof.
  unfold isAuthorized. rewrite existsb_exists. split.
  - intros (a & Ha & Heq). apply orb_true_iff in Heq.
    destruct Heq as [Heq|Heq]; apply String.eqb_eq in Heq; subst; auto.
  - intros [H|H]; [exists approver|exists "self"%string]; (split; [exact H|]);
      apply orb_true_iff; [left|right]; apply String.eqb_refl.
Qed.

(** X22.  A request ApproveIssue or RejectIssue refuses with a code other
    than Internal has written nothing: the store is the one before the call. *)
Theorem refused_request_writes_nothing (s s' : S) (request : IssueRequest.t)
    (c : codes) (msg : string) :
  c <> Internal ->
  (ApproveIssue ApprovalFlow_STATUS_APPROVED ApprovalRecord_STATUS_APPROVED
     GetApprovalFlow CreateApprovalRecord UpdateApprovalFlow Now_Format s request
   = (s', RpcErr c msg) -> s' = s)
  /\ (RejectIssue ApprovalFlow_STATUS_APPROVED ApprovalFlow_STATUS_REJECTED
        FlowStatus_eqb FlowStatus_String ApprovalRecord_STATUS_REJECTED
        GetApprovalFlow CreateApprovalRecord UpdateApprovalFlow Now_Format s request
      = (s', RpcErr c msg) -> s' = s).
Proof.
  intros Hc. split.
  - unfold ApproveIssue.
    destruct (String.eqb (IssueRequest.Name request) ""); [congruence|].
    destruct (String.eqb (IssueRequest.Approver request) ""); [congruence|].
    destruct (GetApprovalFlow s _) as [flow|e]; [|congruence].
    destruct (_ || _); [congruence|].
    destruct (negb _); [congruence|].
    destruct (CreateApprovalRecord s _) as [s1 [e|]]; [congruence|].
    destruct (UpdateApprovalFlow s1 _) as [s2 [e|]]; congruence.
  - unfold RejectIssue.
    destruct (String.eqb (IssueRequest.Name request) ""); [congruence|].
    destruct (String.eqb (IssueRequest.Approver request) ""); [congruence|].
    destruct (GetApprovalFlow s _) as [flow|e]; [|congruence].
    destruct (_ || _); [congruence|].
    destruct (_ || _); [congruence|].
    destruct (negb _); [congruence|].
    destruct (CreateApprovalRecord s _) as [s1 [e|]]; [congruence|].
    destruct (UpdateApprovalFlow s1 _) as [s2 [e|]]; congruence.
Qed.

(** X23.  When ApproveIssue answers with a response, the flow of the issue
    has its current step within its steps, and that step lists the approver
    of the request or the word self among its approvers; the status of the
    flow is not looked at.  The record holds the decision APPROVED of that
    approver at that step.  At the last step the flow of the response is the
    flow with the status APPROVED and a completion time, at an earlier step it
    is the flow moved to the next step with its status unchanged; store and
    response hold the same record and flow. *)
Theorem ApproveIssue_advances_one_step (s s' : S) (request : IssueRequest.t)
    (response : IssueResponse.t FlowStatus RecordStatus) :
  ApproveIssue ApprovalFlow_STATUS_APPROVED ApprovalRecord_STATUS_APPROVED
    GetApprovalFlow CreateApprovalRecord UpdateApprovalFlow Now_Format s request
  = (s', RpcOk response) ->
  exists approvalFlow,
    GetApprovalFlow s (IssueRequest.Name request) = Ok approvalFlow
    /\ 1 <= ApprovalFlow.CurrentStep approvalFlow
         <= Z.of_nat (List.length (ApprovalFlow.Steps approvalFlow))
    /\ (In (IssueRequest.Approver request)
           (service.v1.ApprovalStep.Approvers (current_step approvalFlow))
        \/ In "self"%string
              (service.v1.ApprovalStep.Approvers (current_step approvalFlow)))
    /\ IssueResponse.ApprovalRecord response
       = ApprovalRecord.mk
           (IssueRequest.Name request ++ "/approvalRecords/"
            ++ Now_Format 0%nat "20060102150405")
           (IssueRequest.Name request) (ApprovalFlow.CurrentStep approvalFlow)
           (IssueRequest.Approver request) ApprovalRecord_STATUS_APPROVED
           (Now_Format 1%nat RFC3339) (IssueRequest.Comment request)
    /\ (ApprovalFlow.CurrentStep approvalFlow
        = Z.of_nat (List.length (ApprovalFlow.Steps approvalFlow)) ->
        IssueResponse.ApprovalFlow response
        = ApprovalFlow.set_CompletedTime (Now_Format 2%nat RFC3339)
            (ApprovalFlow.set_Status ApprovalFlow_STATUS_APPROVED approvalFlow))
    /\ (ApprovalFlow.CurrentStep approvalFlow
        < Z.of_nat (List.length (ApprovalFlow.Steps approvalFlow)) ->
        IssueResponse.ApprovalFlow response
        = ApprovalFlow.set_CurrentStep (ApprovalFlow.CurrentStep approvalFlow + 1)
            approvalFlow)
    /\ CreateApprovalRecord s (IssueResponse.ApprovalRecord response)
       = (fst (CreateApprovalRecord s (IssueResponse.ApprovalRecord response)), None)
    /\ UpdateApprovalFlow
         (fst (CreateApprovalRecord s (IssueResponse.ApprovalRecord response)))
         (IssueResponse.ApprovalFlow response)
       = (s', None).
Proof.
  unfold ApproveIssue.
  destruct (String.eqb (IssueRequest.Name request) ""); [discriminate|].
  destruct (String.eqb (IssueRequest.Approver request) ""); [discriminate|].
  destruct (GetApprovalFlow s _) as [flow|e]; [|discriminate].
  destruct (_ || _) eqn:Hrange; [discriminate|].
  destruct (negb _) eqn:Hauth; [discriminate|].
  cbv zeta.
  destruct (CreateApprovalRecord s _) as [s1 [e|]] eqn:Hcreate; [discriminate|].
  destruct (UpdateApprovalFlow s1 _) as [s2 [e|]] eqn:Hupdate; [discriminate|].
  intros H. apply answered in H. destruct H as [<- <-].
  unfold IssueResponse.ApprovalFlow, IssueResponse.ApprovalRecord.
  cbv beta iota.
  apply orb_false_iff in Hrange. destruct Hrange as [Hlo Hhi].
  apply Z.ltb_ge in Hlo, Hhi. apply negb_false_iff in Hauth.
  apply isAuthorized_approver in Hauth.
  exists flow. split; [reflexivity|]. split; [lia|]. split; [exact Hauth|].
  split; [reflexivity|]. rewrite Hcreate. cbn [fst].
  split; [|split; [|split; [reflexivity|exact Hupdate]]].
  - intros Heq. apply Z.eqb_eq in Heq. now rewrite Heq.
  - intros Hlt. apply Z.lt_neq, Z.eqb_neq in Hlt. now rewrite Hlt.
Qed.

(** X24.  When RejectIssue answers with a response, the flow of the issue was
    neither APPROVED nor REJECTED, its current step is within its steps, and
    that step lists the approver of the request or the word self among its
    approvers.  The record holds the decision REJECTED of that approver at that
    step, and the flow of the response is the flow with the status REJECTED
    and a completion time, at whatever step it is; store and response hold the
    same record and flow. *)
Theorem RejectIssue_ends_the_flow (s s' : S) (request : IssueRequest.t)
    (response : IssueResponse.t FlowStatus RecordStatus) :
  RejectIssue ApprovalFlow_STATUS_APPROVED ApprovalFlow_STATUS_REJECTED
    FlowStatus_eqb FlowStatus_String ApprovalRecord_STATUS_REJECTED
    GetApprovalFlow CreateApprovalRecord UpdateApprovalFlow Now_Format s request
  = (s', RpcOk response) ->
  exists approvalFlow,
    GetApprovalFlow s (IssueRequest.Name request) = Ok approvalFlow
    /\ FlowStatus_eqb (ApprovalFlow.Status_ approvalFlow) ApprovalFlow_STATUS_APPROVED
       = false
    /\ FlowStatus_eqb (ApprovalFlow.Status_ approvalFlow) ApprovalFlow_STATUS_REJECTED
       = false
    /\ 1 <= ApprovalFlow.CurrentStep approvalFlow
         <= Z.of_nat (List.length (ApprovalFlow.Steps approvalFlow))
    /\ (In (IssueRequest.Approver request)
           (service.v1.ApprovalStep.Approvers (current_step approvalFlow))
        \/ In "self"%string
              (service.v1.ApprovalStep.Approvers (current_step approvalFlow)))
    /\ IssueResponse.ApprovalRecord response
       = ApprovalRecord.mk
           (IssueRequest.Name request ++ "/approvalRecords/"
            ++ Now_Format 0%nat "20060102150405")
           (IssueRequest.Name request) (ApprovalFlow.CurrentStep approvalFlow)
           (IssueRequest.Approver request) ApprovalRecord_STATUS_REJECTED
           (Now_Format 1%nat RFC3339) (IssueRequest.Comment request)
    /\ IssueResponse.ApprovalFlow response
       = ApprovalFlow.set_CompletedTime (Now_Format 2%nat RFC3339)
           (ApprovalFlow.set_Status ApprovalFlow_STATUS_REJECTED approvalFlow)
    /\ CreateApprovalRecord s (IssueResponse.ApprovalRecord response)
       = (fst (CreateApprovalRecord s (IssueResponse.ApprovalRecord response)), None)
    /\ UpdateApprovalFlow
         (fst (CreateApprovalRecord s (IssueResponse.ApprovalRecord response)))
         (IssueResponse.ApprovalFlow response)
       = (s', None).
Proof.
  unfold RejectIssue.
  destruct (String.eqb (IssueRequest.Name request) ""); [discriminate|].
  destruct (String.eqb (IssueRequest.Approver request) ""); [discriminate|].
  destruct (GetApprovalFlow s _) as [flow|e]; [|discriminate].
  destruct (FlowStatus_eqb _ ApprovalFlow_STATUS_APPROVED
            || FlowStatus_eqb _ ApprovalFlow_STATUS_REJECTED) eqn:Hdone;
    [discriminate|].
  cbv zeta.
  destruct ((ApprovalFlow.CurrentStep flow <? 1) || _) eqn:Hrange; [discriminate|].
  destruct (negb _) eqn:Hauth; [discriminate|].
  destruct (CreateApprovalRecord s _) as [s1 [e|]] eqn:Hcreate; [discriminate|].
  destruct (UpdateApprovalFlow s1 _) as [s2 [e|]] eqn:Hupdate; [discriminate|].
  intros H. apply answered in H. destruct H as [<- <-].
  unfold IssueResponse.ApprovalFlow, IssueResponse.ApprovalRecord.
  cbv beta iota.
  apply orb_false_iff in Hdone. destruct Hdone as [Ha Hr].
  apply orb_false_iff in Hrange. destruct Hrange as [Hlo Hhi].
  apply Z.ltb_ge in Hlo, Hhi. apply negb_false_iff in Hauth.
  apply isAuthorized_approver in Hauth.
  exists flow. split; [reflexivity|]. split; [exact Ha|]. split; [exact Hr|].
  split; [lia|]. split; [exact Hauth|]. split; [reflexivity|].
  split; [reflexivity|]. rewrite Hcreate. cbn [fst].
  split; [reflexivity|exact Hupdate].
Qed.

End IssueService.

(** A request on issue 7 by an approver its first step does not list. *)
Lemma refused_request_writes_nothing_witness :
  fst (issue_service.ApproveIssue sample_more.STATUS_APPROVED sample_more.STATUS_APPROVED
         sample_more.GetApprovalFlow sample_more.CreateApprovalRecord
         sample_more.UpdateApprovalFlow sample_more.Now_Format sample_more.issue7
         (sample_more.decide "roles/dba"))
  = sample_more.issue7.
Proof.
  symmetry.
  apply (proj1 (issue_service_facts.refused_request_writes_nothing
                  sample_more.Status sample_more.STATUS_APPROVED
                  sample_more.STATUS_REJECTED sample_more.Status_eqb
                  sample_more.Status_String sample_more.Status
                  sample_more.STATUS_APPROVED sample_more.STATUS_REJECTED
                  sample_more.memory sample_more.GetApprovalFlow
                  sample_more.CreateApprovalRecord sample_more.UpdateApprovalFlow
                  sample_more.Now_Format sample_more.issue7 _
                  (sample_more.decide "roles/dba")
                  issue_service.PermissionDenied
                  "approver roles/dba is not authorized to approve this step"
                  ltac:(discriminate))).
  reflexivity.
Defined.

(** The security admin approves the first of the two steps of issue 7. *)
Lemma ApproveIssue_advances_one_step_witness :
  issue_service.IssueResponse.ApprovalFlow
    (issue_service.IssueResponse.mk
       (issue_service.ApprovalFlow.set_CurrentStep 2 sample_more.issue7_flow)
       (sample_more.issue7_record "roles/security-admin" sample_more.STATUS_APPROVED))
  = issue_service.ApprovalFlow.set_CurrentStep 2 sample_more.issue7_flow.
Proof.
  destruct (issue_service_facts.ApproveIssue_advances_one_step
              sample_more.Status sample_more.STATUS_APPROVED
              sample_more.Status sample_more.STATUS_APPROVED
              sample_more.memory sample_more.GetApprovalFlow
              sample_more.CreateApprovalRecord sample_more.UpdateApprovalFlow
              sample_more.Now_Format sample_more.issue7
              ([issue_service.ApprovalFlow.set_CurrentStep 2 sample_more.issue7_flow],
               [sample_more.issue7_record "roles/security-admin"
                  sample_more.STATUS_APPROVED])
              (sample_more.decide "roles/security-admin")
              (issue_service.IssueResponse.mk
                 (issue_service.ApprovalFlow.set_CurrentStep 2 sample_more.issue7_flow)
                 (sample_more.issue7_record "roles/security-admin"
                    sample_more.STATUS_APPROVED))
              eq_refl)
    as (flow & Hget & _ & _ & _ & _ & Hnext & _).
  injection Hget as <-. apply Hnext. reflexivity.
Defined.

(** The security admin rejects issue 7 at the first of its two steps. *)
Lemma RejectIssue_ends_the_flow_witness :
  issue_service.IssueResponse.ApprovalFlow
    (issue_service.IssueResponse.mk
       (issue_service.ApprovalFlow.set_CompletedTime "2024-01-02T03:04:05Z"
          (issue_service.ApprovalFlow.set_Status sample_more.STATUS_REJECTED
             sample_more.issue7_flow))
       (sample_more.issue7_record "roles/security-admin" sample_more.STATUS_REJECTED))
  = issue_service.ApprovalFlow.set_CompletedTime
      (sample_more.Now_Format 2 issue_service.RFC3339)
      (issue_service.ApprovalFlow.set_Status sample_more.STATUS_REJECTED
         sample_more.issue7_flow).
Proof.
  destruct (issue_service_facts.RejectIssue_ends_the_flow
              sample_more.Status sample_more.STATUS_APPROVED
              sample_more.STATUS_REJECTED sample_more.Status_eqb
              sample_more.Status_String
              sample_more.Status sample_more.STATUS_REJECTED
              sample_more.memory sample_more.GetApprovalFlow
              sample_more.CreateApprovalRecord sample_more.UpdateApprovalFlow
              sample_more.Now_Format sample_more.issue7
              ([issue_service.ApprovalFlow.set_CompletedTime "2024-01-02T03:04:05Z"
                  (issue_service.ApprovalFlow.set_Status sample_more.STATUS_REJECTED
                     sample_more.issue7_flow)],
               [sample_more.issue7_record "roles/security-admin"
                  sample_more.STATUS_REJECTED])
              (sample_more.decide "roles/security-admin")
              (issue_service.IssueResponse.mk
                 (issue_service.ApprovalFlow.set_CompletedTime "2024-01-02T03:04:05Z"
                    (issue_service.ApprovalFlow.set_Status sample_more.STATUS_REJECTED
                       sample_more.issue7_flow))
                 (sample_more.issue7_record "roles/security-admin"
                    sample_more.STATUS_REJECTED))
              eq_refl)
    as (flow & Hget & _ & _ & _ & _ & _ & Hflow & _).
  injection Hget as <-. exact Hflow.
Defined.

End issue_service_facts.
